(** * StyleGen AI: the external-API orchestration layer

    A shallow embedding of the image-generation pipeline of the backend:

    - [backend/simple.js]: the provider clients [generateWithHuggingFace]
      (bounded retry) and [generateWithReplicate] (single attempt), and the
      handler of [POST /api/designs/generate] with its validation, its
      fallback chain and its two inline SVG placeholders;
    - [backend/config/huggingface.js]: the prompt builder
      [generateFashionPrompt] and the response handling of [generateDesign].

    Strings are byte strings: a JavaScript string is represented by its
    UTF-8 encoding, which is what [Buffer.from] produces and what
    concatenation, [join] and [includes] commute with on well-formed text.
    The network, the clock and the process environment are gathered in a
    [World] record that the code reads from; every call to a provider and
    every back-off delay is recorded in a log. *)

From Stdlib Require Import String Ascii List ZArith NArith Bool Lia.
From Stdlib Require Import DecimalString.
Import ListNotations.

Local Open Scope list_scope.
Local Open Scope string_scope.

(** ** JavaScript primitives used by the code *)

Module JS.

(** Literal text of the source that contains the double-quote character
    (code 34) is written with an apostrophe in its place, and [dq] restores
    it.  None of the literals concerned contains an apostrophe. *)
Definition dq_char (c : ascii) : ascii :=
  if Ascii.eqb c "'"%char then "034"%char else c.

Fixpoint dq (s : string) : string :=
  match s with
  | EmptyString => EmptyString
  | String c rest => String (dq_char c) (dq rest)
  end.

Definition nl : string := String "010"%char EmptyString.

Fixpoint spaces (n : nat) : string :=
  match n with
  | O => EmptyString
  | S k => String " "%char (spaces k)
  end.

(** One line of a template literal: indentation, text, line feed. *)
Definition line (indent : nat) (text : string) : string :=
  spaces indent ++ text ++ nl.

(** [String.prototype.startsWith] and [String.prototype.includes]. *)
Fixpoint startsWith (s needle : string) : bool :=
  match needle, s with
  | EmptyString, _ => true
  | String _ _, EmptyString => false
  | String a needle', String b s' => Ascii.eqb a b && startsWith s' needle'
  end.

Fixpoint includes (s needle : string) : bool :=
  startsWith s needle ||
  match s with
  | EmptyString => false
  | String _ s' => includes s' needle
  end.

(** [Array.prototype.includes] on an array of strings. *)
Definition arrayIncludes (l : list string) (s : string) : bool :=
  existsb (String.eqb s) l.

(** [String.prototype.toUpperCase], exact on ASCII text; the handler only
    applies it to values that passed the validation against ASCII lists. *)
Definition upper_char (c : ascii) : ascii :=
  let n := nat_of_ascii c in
  if (97 <=? n)%nat && (n <=? 122)%nat then ascii_of_nat (n - 32) else c.

Fixpoint toUpperCase (s : string) : string :=
  match s with
  | EmptyString => EmptyString
  | String c rest => String (upper_char c) (toUpperCase rest)
  end.

(** Decimal rendering of an integer, as in [`${res.statusCode}`]. *)
Definition decimal (z : Z) : string := NilZero.string_of_int (Z.to_int z).

(** [Buffer.prototype.toString('base64')]. *)
Definition b64alphabet : string :=
  "ABCDEFGHIJKLMNOPQRSTUVWXYZabcdefghijklmnopqrstuvwxyz0123456789+/".

Definition b64digit (n : N) : ascii :=
  match String.get (N.to_nat (n mod 64)) b64alphabet with
  | Some c => c
  | None => "="%char
  end.

Fixpoint base64 (bytes : string) : string :=
  match bytes with
  | EmptyString => EmptyString
  | String a EmptyString =>
      let n := (N_of_ascii a * 65536)%N in
      String (b64digit (n / 262144)) (String (b64digit (n / 4096)) "==")
  | String a (String b EmptyString) =>
      let n := (N_of_ascii a * 65536 + N_of_ascii b * 256)%N in
      String (b64digit (n / 262144)) (String (b64digit (n / 4096))
        (String (b64digit (n / 64)) "="))
  | String a (String b (String c rest)) =>
      let n := (N_of_ascii a * 65536 + N_of_ascii b * 256 + N_of_ascii c)%N in
      String (b64digit (n / 262144)) (String (b64digit (n / 4096))
        (String (b64digit (n / 64)) (String (b64digit n) (base64 rest))))
  end.

(** [Buffer.prototype.toString()]: the bytes decoded as UTF-8, here the
    UTF-8 text of the result.  A well-formed sequence is kept; every
    maximal part of an ill-formed one becomes U+FFFD (the bytes EF BF BD),
    the byte that broke it being read again. *)
Definition replacement : string :=
  String "239"%char (String "191"%char (String "189"%char EmptyString)).

Definition between (lo hi : N) (c : ascii) : bool :=
  (lo <=? N_of_ascii c)%N && (N_of_ascii c <=? hi)%N.

Fixpoint bufferToString (s : string) : string :=
  match s with
  | EmptyString => EmptyString
  | String a rest =>
      if between 0 127 a then String a (bufferToString rest)
      else if between 194 223 a then
        match rest with
        | String b rest1 =>
            if between 128 191 b then String a (String b (bufferToString rest1))
            else replacement ++ bufferToString rest
        | EmptyString => replacement
        end
      else if between 224 239 a then
        let lo := if between 224 224 a then 160%N else 128%N in
        let hi := if between 237 237 a then 159%N else 191%N in
        match rest with
        | String b rest1 =>
            if between lo hi b then
              match rest1 with
              | String c rest2 =>
                  if between 128 191 c
                  then String a (String b (String c (bufferToString rest2)))
                  else replacement ++ bufferToString rest1
              | EmptyString => replacement
              end
            else replacement ++ bufferToString rest
        | EmptyString => replacement
        end
      else if between 240 244 a then
        let lo := if between 240 240 a then 144%N else 128%N in
        let hi := if between 244 244 a then 143%N else 191%N in
        match rest with
        | String b rest1 =>
            if between lo hi b then
              match rest1 with
              | String c rest2 =>
                  if between 128 191 c then
                    match rest2 with
                    | String d rest3 =>
                        if between 128 191 d
                        then String a (String b (String c (String d
                               (bufferToString rest3))))
                        else replacement ++ bufferToString rest2
                    | EmptyString => replacement
                    end
                  else replacement ++ bufferToString rest1
              | EmptyString => replacement
              end
            else replacement ++ bufferToString rest
        | EmptyString => replacement
        end
      else replacement ++ bufferToString rest
  end.

(** A byte string given by its byte values. *)
Fixpoint bytes (l : list N) : string :=
  match l with
  | [] => EmptyString
  | b :: rest => String (ascii_of_N b) (bytes rest)
  end.

(** Completion of a computation that may throw: the value, or the message
    of the [Error] thrown. *)
Inductive Completion (A : Type) : Type :=
| Normal (a : A)
| Throw (message : string).
Arguments Normal {A} a.
Arguments Throw {A} message.

End JS.

Import JS.

(** ** [backend/simple.js] *)

Module Simple.

(** *** Request bodies

    [express.json()] hands the handler the parsed JSON body.  A JSON number
    is an IEEE double; the handler can only convert it to text or test its
    truthiness, so a number is represented by these two observations. *)
Record number : Type := {
  numberToString : string;
  numberToBoolean : bool
}.

#[warnings="-register-all"] Inductive json : Type :=
| JNull
| JBool (b : bool)
| JNum (n : number)
| JStr (s : string)
| JArr (items : list json)
| JObj (fields : list (string * json)).

(** Truthiness of a value, as tested by [||], [?:] and [if]. *)
Definition ToBoolean (v : json) : bool :=
  match v with
  | JNull => false
  | JBool b => b
  | JNum n => numberToBoolean n
  | JStr s => negb (String.eqb s "")
  | JArr _ => true
  | JObj _ => true
  end.

(** Conversion to text, as done by a template literal, on the values that
    can be converted ([printable] below); the conversion of the others
    throws, which [callToString] and [callJoin] account for.  An array
    prints its items separated by commas, a [null] item printing as
    nothing. *)
Fixpoint ToString (v : json) : string :=
  match v with
  | JNull => "null"
  | JBool true => "true"
  | JBool false => "false"
  | JNum n => numberToString n
  | JStr s => s
  | JArr items =>
      String.concat ","
        (map (fun x => match x with JNull => "" | _ => ToString x end) items)
  | JObj _ => "[object Object]"
  end.

Definition joinItem (x : json) : string :=
  match x with
  | JNull => ""
  | _ => ToString x
  end.

(** An object is the list of its own properties, under distinct names;
    [get o k] is [o.k], [None] standing for [undefined].  None of the names
    the handler reads is a property of [Object.prototype]. *)
Definition Object : Type := list (string * json).

Fixpoint get (o : Object) (key : string) : option json :=
  match o with
  | [] => None
  | (k, v) :: rest => if String.eqb k key then Some v else get rest key
  end.

(** Whether the value can be converted to text.  A parsed JSON value is
    never a function, so the conversion of an object that has a property
    named [toString] of its own finds nothing to call that returns a
    primitive, and throws a [TypeError]; an array converts its items in
    turn. *)
Fixpoint printable (v : json) : bool :=
  match v with
  | JObj fields =>
      match get fields "toString" with
      | Some _ => false
      | None => true
      end
  | JArr items => forallb printable items
  | _ => true
  end.

(** A destructuring default [{ key = d } = o]: it applies to [undefined]
    only, a [null] is kept. *)
Definition orDefault (v : option json) (d : json) : json :=
  match v with
  | Some x => x
  | None => d
  end.

(** [a || d] where [a] may be [undefined]. *)
Definition orElse (v : option json) (d : json) : json :=
  match v with
  | Some x => if ToBoolean x then x else d
  | None => d
  end.

(** [validList.includes(v)]: SameValueZero against string literals. *)
Definition includesValue (validList : list string) (v : json) : bool :=
  match v with
  | JStr s => arrayIncludes validList s
  | _ => false
  end.

Definition isArray (v : json) : bool :=
  match v with
  | JArr _ => true
  | _ => false
  end.

(** *** The world outside the process

    A request to the primary provider is observed through the event that
    decides how its promise goes on: the end of the response, an error of
    the response or of the request, the timer of the code firing, or the
    body passing the cap.  On the last two the code destroys the request,
    and a destroyed request raises an ['error'] of its own afterwards,
    which the listeners of the code act on like on any other: the event
    carries the message of that error, if there is one.  Requests are
    told apart by the chain of attempts they belong to and by their
    attempt number; the chain that [generateWithHuggingFace] starts is
    [[]], and the error that the destroyed attempt [n] of chain [c]
    raises starts the chain [n :: c]. *)
Inductive HFEvent : Type :=
| HFEnd (statusCode : Z) (contentType : option string) (responseData : string)
    (* res 'end': the whole body was buffered (within the 50 MB cap);
       [contentType] is res.headers['content-type'] *)
| HFTooLarge (aborted : option string)
    (* res 'data': the buffered length passed 50 * 1024 * 1024; the code
       destroys the request, which then raises 'error' with [aborted] *)
| HFResponseError (message : string)       (* res 'error' *)
| HFTimeout (aborted : option string)
    (* req.setTimeout(120000) fired; the code destroys the request, which
       then raises 'error' with [aborted] *)
| HFRequestError (message : string).       (* req 'error' *)

(** The request to the backup provider has no timer: it may stay without
    any event that the code listens to. *)
Inductive ReplicateEvent : Type :=
| RepEnd (statusCode : Z) (responseData : string) (syntaxError : option string)
    (* res 'end'; [responseData] is the text gathered from the chunks and
       [syntaxError] the message of the SyntaxError that
       JSON.parse(responseData) throws, if it throws *)
| RepRequestError (message : string)       (* req 'error' *)
| RepSilent.
    (* neither: the peer keeps the connection and never ends the response,
       or the response breaks off, which raises no event listened to *)

Record World : Type := {
  huggingFace : list nat -> nat -> HFEvent;
    (* what attempt number n of a chain meets *)
  settlesFirst : list nat -> nat -> bool;
    (* where attempt n of a chain is followed by two chains: whether the
       new one is the first to settle the promise *)
  replicate : ReplicateEvent;
  DEMO_MODE : option string;         (* process.env.DEMO_MODE *)
  Date_now : nat -> Z;               (* the k-th reading of the clock *)
  toISOString : Z -> string
}.

(** What the process does to the outside.  The calls of one chain of
    attempts are in order; [Aside chain c] is a call [c] of the chain
    [chain], which goes on beside the calls that follow it in the log. *)
Inductive Call : Type :=
| RequestHuggingFace (attemptNumber : nat)
| SetTimeout (ms : Z)
| RequestReplicate
| Aside (chain : list nat) (c : Call).

(** *** Promises *)

Inductive Outcome (A : Type) : Type :=
| Pending
| Resolved (a : A)
| Rejected (message : string).
Arguments Pending {A}.
Arguments Resolved {A} a.
Arguments Rejected {A} message.

Definition Async (A : Type) : Type := (Outcome A * list Call)%type.

Definition resolve {A} (a : A) : Async A := (Resolved a, []).
Definition reject {A} (message : string) : Async A := (Rejected message, []).

Definition await {A B} (m : Async A) (k : A -> Async B) : Async B :=
  match m with
  | (Resolved a, log) => let '(o, log') := k a in (o, (log ++ log')%list)
  | (Pending, log) => (Pending, log)
  | (Rejected e, log) => (Rejected e, log)
  end.

Definition tryCatch {A} (m : Async A) (handler : string -> Async A) : Async A :=
  match m with
  | (Rejected e, log) => let '(o, log') := handler e in (o, (log ++ log')%list)
  | settled => settled
  end.

Definition call {A} (c : Call) (m : Async A) : Async A :=
  let '(o, log) := m in (o, c :: log).

Notation "x <- m ;; k" := (await m (fun x => k))
  (at level 61, m at next level, right associativity).

(** *** Provider clients *)

Record Result : Type := {
  imageUrl : string;
  prompt : string
}.

(** A call of another chain than the one at hand. *)
Definition aside (chain : list nat) (c : Call) : Call :=
  match c with
  | Aside _ _ => c
  | _ => Aside chain c
  end.

(** A promise settles once: of two chains that go on side by side, the
    first to settle decides, the other one if that one never does. *)
Definition race {A} (strayFirst : bool) (main stray : Outcome A) : Outcome A :=
  match (if strayFirst then stray else main),
        (if strayFirst then main else stray) with
  | Pending, o => o
  | o, _ => o
  end.

(** [attemptRequest] inside [generateWithHuggingFace].  [fuel] bounds the
    recursion; running out of it leaves the promise pending.  Nothing in
    the [try] block of the ['end'] listener can throw on a buffer, so its
    [catch] is not represented.  [chain] names the chain of attempts that
    the request belongs to. *)
Fixpoint attemptRequest (w : World) (prompt : string) (retries : nat)
    (fuel : nat) (chain : list nat) (attemptNumber : nat) : Async Result :=
  match fuel with
  | O => (Pending, [])
  | S fuel' =>
      let next : Async Result :=
        attemptRequest w prompt retries fuel' chain (attemptNumber + 1) in
      let retry (ms : Z) : Async Result := call (SetTimeout ms) next in
      (* what the ['error'] listener starts, within the budget, on the
         error of a request that the code destroyed: a chain of its own *)
      let stray : Async Result :=
        attemptRequest w prompt retries fuel' (attemptNumber :: chain)
          (attemptNumber + 1) in
      let strayLog : list Call :=
        map (aside (attemptNumber :: chain)) (SetTimeout 2000%Z :: snd stray) in
      call (RequestHuggingFace attemptNumber)
        match huggingFace w chain attemptNumber with
        | HFEnd statusCode _ responseData =>
            if (statusCode =? 200)%Z then
              let base64Image := base64 responseData in
              resolve {| imageUrl := "data:image/jpeg;base64," ++ base64Image;
                         prompt := prompt |}
            else if (statusCode =? 503)%Z && (attemptNumber <=? retries)%nat then
              retry 10000%Z
            else if (statusCode =? 429)%Z && (attemptNumber <=? retries)%nat then
              retry 5000%Z
            else
              let errorMsg := bufferToString responseData in
              reject ("Hugging Face API error: " ++ decimal statusCode
                        ++ " - " ++ errorMsg)
        | HFTooLarge aborted =>
            (* req.destroy(); reject(..): what the error of the destroyed
               request starts comes after the rejection *)
            match aborted with
            | Some _ =>
                if (attemptNumber <=? retries)%nat
                then (Rejected "Response too large", strayLog)
                else reject "Response too large"
            | None => reject "Response too large"
            end
        | HFResponseError message =>
            if (attemptNumber <=? retries)%nat then retry 2000%Z
            else reject ("Response error: " ++ message)
        | HFTimeout aborted =>
            (* req.destroy(), then a retry or the rejection; within the
               budget the error of the destroyed request starts a second
               chain *)
            if (attemptNumber <=? retries)%nat then
              match aborted with
              | Some _ =>
                  call (SetTimeout 2000)
                    (race (settlesFirst w chain attemptNumber) (fst next) (fst stray),
                     (strayLog ++ snd next)%list)
              | None => retry 2000%Z
              end
            else reject "Request timeout after all retries"
        | HFRequestError message =>
            if (attemptNumber <=? retries)%nat then retry 2000%Z
            else reject ("Request error: " ++ message)
        end
  end.

Definition generateWithHuggingFaceRetries (w : World) (prompt : string)
    (retries : nat) : Async Result :=
  attemptRequest w prompt retries (S retries) [] 1.

(** [generateWithHuggingFace(prompt)], with the default [retries = 3]. *)
Definition generateWithHuggingFace (w : World) (prompt : string) : Async Result :=
  generateWithHuggingFaceRetries w prompt 3.

Definition replicateSvg : string :=
  nl ++
  line 16 (dq "<svg width='1024' height='1024' xmlns='http://www.w3.org/2000/svg'>") ++
  line 18 (dq "<rect width='100%' height='100%' fill='#4ECDC4'/>") ++
  line 18 (dq "<text x='50%' y='50%' text-anchor='middle' font-family='Arial' font-size='32' fill='white'>") ++
  line 20 "Replicate API Processing..." ++
  line 18 "</text>" ++
  line 16 "</svg>" ++
  spaces 14.

Definition generateWithReplicate (w : World) (prompt : string) : Async Result :=
  call RequestReplicate
    match replicate w with
    | RepEnd statusCode responseData syntaxError =>
        match syntaxError with
        | Some message =>
            reject ("Replicate response parsing error: " ++ message)
        | None =>
            if (statusCode =? 201)%Z then
              resolve {| imageUrl := "data:image/svg+xml;base64," ++ base64 replicateSvg;
                         prompt := prompt |}
            else
              reject ("Replicate API error: " ++ decimal statusCode
                        ++ " - " ++ responseData)
        end
    | RepRequestError message =>
        reject ("Replicate request error: " ++ message)
    | RepSilent => (Pending, [])
    end.

(** *** The handler of [POST /api/designs/generate] *)

Definition validGenders : list string :=
  ["male"; "female"; "unisex"; "other"].
Definition validOccasions : list string :=
  ["casual"; "formal"; "party"; "business"; "sport"; "sports"; "wedding";
   "vacation"; "date"].
Definition validStyles : list string :=
  ["modern"; "vintage"; "bohemian"; "minimalist"; "classic"; "trendy";
   "streetwear"; "elegant"].

(** Method calls, conversions and indexing on a value taken from the
    body.  A method missing on the receiver is a TypeError, and so is the
    conversion to text of a value that cannot be converted.  Only arrays
    reach the points where [colors] is indexed, joined or measured. *)
Definition callToUpperCase (name : string) (v : json) : Async string :=
  match v with
  | JStr s => resolve (toUpperCase s)
  | _ => reject (name ++ ".toUpperCase is not a function")
  end.

Definition callToString (v : json) : Async string :=
  if printable v then resolve (ToString v)
  else reject "Cannot convert object to primitive value".

Definition callJoin (v : json) (sep : string) : Async string :=
  match v with
  | JArr items =>
      if forallb printable items
      then resolve (String.concat sep (map joinItem items))
      else reject "Cannot convert object to primitive value"
  | _ => reject "colors.join is not a function"
  end.

Definition item (v : json) (i : nat) : option json :=
  match v with
  | JArr items => nth_error items i
  | _ => None
  end.

Definition lengthOf (v : json) : nat :=
  match v with
  | JArr items => length items
  | _ => 0
  end.

(** The template of the forced demo mode (source lines 328 to 347), as a
    function of the five interpolated texts. *)
Definition demoSvg (stop0 stop1 STYLE OCCASION gender : string) : string :=
  nl ++
  line 10 (dq "<svg width='1024' height='1024' xmlns='http://www.w3.org/2000/svg'>") ++
  line 12 "<defs>" ++
  line 14 (dq "<linearGradient id='grad1' x1='0%' y1='0%' x2='100%' y2='100%'>") ++
  line 16 (dq "<stop offset='0%' style='stop-color:" ++ stop0 ++ dq ";stop-opacity:1' />") ++
  line 16 (dq "<stop offset='100%' style='stop-color:" ++ stop1 ++ dq ";stop-opacity:1' />") ++
  line 14 "</linearGradient>" ++
  line 12 "</defs>" ++
  line 12 (dq "<rect width='100%' height='100%' fill='url(#grad1)' />") ++
  line 12 (dq "<text x='50%' y='45%' text-anchor='middle' font-family='Arial, sans-serif' font-size='48' fill='white' font-weight='bold'>") ++
  line 14 (STYLE ++ " " ++ OCCASION) ++
  line 12 "</text>" ++
  line 12 (dq "<text x='50%' y='55%' text-anchor='middle' font-family='Arial, sans-serif' font-size='32' fill='white'>") ++
  line 14 (gender ++ " Fashion Design") ++
  line 12 "</text>" ++
  line 12 (dq "<text x='50%' y='65%' text-anchor='middle' font-family='Arial, sans-serif' font-size='24' fill='rgba(255,255,255,0.8)'>") ++
  line 14 "Demo Mode - Get Hugging Face API Token" ++
  line 12 "</text>" ++
  line 10 "</svg>" ++
  spaces 8.

(** The template used when both providers failed (source lines 364 to
    386). *)
Definition fallbackSvg (stop0 stop1 STYLE OCCASION gender : string) : string :=
  nl ++
  line 12 (dq "<svg width='1024' height='1024' xmlns='http://www.w3.org/2000/svg'>") ++
  line 14 "<defs>" ++
  line 16 (dq "<linearGradient id='grad1' x1='0%' y1='0%' x2='100%' y2='100%'>") ++
  line 18 (dq "<stop offset='0%' style='stop-color:" ++ stop0 ++ dq ";stop-opacity:1' />") ++
  line 18 (dq "<stop offset='100%' style='stop-color:" ++ stop1 ++ dq ";stop-opacity:1' />") ++
  line 16 "</linearGradient>" ++
  line 14 "</defs>" ++
  line 14 (dq "<rect width='100%' height='100%' fill='url(#grad1)' />") ++
  line 14 (dq "<text x='50%' y='40%' text-anchor='middle' font-family='Arial, sans-serif' font-size='48' fill='white' font-weight='bold'>") ++
  line 16 (STYLE ++ " " ++ OCCASION) ++
  line 14 "</text>" ++
  line 14 (dq "<text x='50%' y='50%' text-anchor='middle' font-family='Arial, sans-serif' font-size='32' fill='white'>") ++
  line 16 (gender ++ " Fashion Design") ++
  line 14 "</text>" ++
  line 14 (dq "<text x='50%' y='60%' text-anchor='middle' font-family='Arial, sans-serif' font-size='20' fill='rgba(255,255,255,0.8)'>") ++
  line 16 "API Credits Exceeded" ++
  line 14 "</text>" ++
  line 14 (dq "<text x='50%' y='65%' text-anchor='middle' font-family='Arial, sans-serif' font-size='16' fill='rgba(255,255,255,0.7)'>") ++
  line 16 "Get new Hugging Face token" ++
  line 14 "</text>" ++
  line 12 "</svg>" ++
  spaces 10.

(** A placeholder result: the template filled from the preferences,
    wrapped in a base64 data URL. *)
Definition placeholder (template : string -> string -> string -> string -> string -> string)
    (gender style occasion colors : json) (prompt : string) : Async Result :=
  stop0 <- callToString (orElse (item colors 0) (JStr "#FF6B6B")) ;;
  stop1 <- callToString (orElse (item colors 1) (JStr "#4ECDC4")) ;;
  STYLE <- callToUpperCase "style" style ;;
  OCCASION <- callToUpperCase "occasion" occasion ;;
  genderText <- callToString gender ;;
  resolve {| imageUrl := "data:image/svg+xml;base64,"
                           ++ base64 (template stop0 stop1 STYLE OCCASION genderText);
             prompt := prompt |}.

Record Image : Type := {
  url : string;
  filename : string;
  isOriginal : bool;
  dimensions : Z * Z
}.

Record InputParameters : Type := {
  gender : json;
  occasion : json;
  style : json;
  colors : json
}.

Record AiGeneration : Type := {
  ai_prompt : string;
  model : string;
  provider : string;
  cost : string
}.

Record Design : Type := {
  id : string;
  title : string;
  description : string;
  images : list Image;
  inputParameters : InputParameters;
  aiGeneration : AiGeneration;
  status : string;
  createdAt : string
}.

(** What the handler sends: [res.status(400).json(..)], [res.json(..)]
    with [success: true], or [res.status(500).json(..)]. *)
Inductive Response : Type :=
| Status400 (error message : string)
| Status200 (message : string) (design : Design) (demoMode : json)
| Status500 (error message : string).

(** [process.env.DEMO_MODE === 'true'] *)
Definition envDemo (w : World) : bool :=
  match DEMO_MODE w with
  | Some v => String.eqb v "true"
  | None => false
  end.

Definition forcedDemo (w : World) (demoMode : json) : bool :=
  ToBoolean demoMode || envDemo w.

(** The prompt built inline by the handler (source line 318), from the
    three validated texts and the joined colours. *)
Definition inlinePrompt (gender occasion style : json) (joined : string) : string :=
  "A professional fashion design illustration of a " ++ ToString style
    ++ " " ++ ToString occasion ++ " outfit for " ++ ToString gender
    ++ ", featuring " ++ joined
    ++ " colors, high-quality fashion illustration, clean professional presentation, fashion portfolio style, detailed clothing design, modern aesthetic, studio lighting, white background".

(** Source lines 322 to 391: forced demo mode, or the primary provider,
    then the backup provider, then the fallback placeholder. *)
Definition fallbackChain (w : World) (gender occasion style colors demoMode : json)
    (prompt : string) : Async Result :=
  if forcedDemo w demoMode then
    placeholder demoSvg gender style occasion colors prompt
  else
    tryCatch (generateWithHuggingFace w prompt) (fun apiError =>
      tryCatch (generateWithReplicate w prompt) (fun replicateError =>
        placeholder fallbackSvg gender style occasion colors prompt)).

(** Source lines 393 to 412. *)
Definition designResponse (w : World) (gender occasion style colors : json)
    (result : Result) : Design := {|
  id := "hf_" ++ decimal (Date_now w 0);
  title := ToString style ++ " " ++ ToString occasion ++ " Design";
  description := "AI-generated " ++ ToString style ++ " " ++ ToString occasion
                   ++ " outfit for " ++ ToString gender;
  images := [ {| url := imageUrl result;
                 filename := "design_hf_" ++ decimal (Date_now w 1) ++ ".jpg";
                 isOriginal := true;
                 dimensions := (1024, 1024)%Z |} ];
  inputParameters := {| gender := gender; occasion := occasion;
                        style := style; colors := colors |};
  aiGeneration := {| ai_prompt := prompt result;
                     model := "SDXL";
                     provider := "Hugging Face";
                     cost := "FREE" |};
  status := "completed";
  createdAt := toISOString w (Date_now w 2)
|}.

(** Source line 414.  [a || b] yields [a] itself when [a] is truthy. *)
Definition isDemo (w : World) (demoMode : json) (result : Result) : json :=
  if ToBoolean demoMode then demoMode
  else JBool (envDemo w || JS.includes (imageUrl result) "svg+xml").

(** Source lines 416 to 421. *)
Definition success (w : World) (gender occasion style colors demoMode : json)
    (result : Result) : Response :=
  Status200
    (if ToBoolean (isDemo w demoMode result)
     then "Demo design generated! Get a Hugging Face API token for AI generation."
     else "Design generated successfully with Hugging Face!")
    (designResponse w gender occasion style colors result)
    (isDemo w demoMode result).

(** The body of the handler's [try] block. *)
Definition generateTry (w : World) (body : Object) : Async Response :=
  let gender := orDefault (get body "gender") (JStr "unisex") in
  let occasion := orDefault (get body "occasion") (JStr "casual") in
  let style := orDefault (get body "style") (JStr "modern") in
  let colors := orDefault (get body "colors") (JArr [JStr "#FF6B6B"; JStr "#4ECDC4"]) in
  let demoMode := orDefault (get body "demoMode") (JBool false) in
  if negb (includesValue validGenders gender) then
    resolve (Status400 "Invalid gender"
               ("Gender must be one of: " ++ String.concat ", " validGenders))
  else if negb (includesValue validOccasions occasion) then
    resolve (Status400 "Invalid occasion"
               ("Occasion must be one of: " ++ String.concat ", " validOccasions))
  else if negb (includesValue validStyles style) then
    resolve (Status400 "Invalid style"
               ("Style must be one of: " ++ String.concat ", " validStyles))
  else if negb (isArray colors) || (lengthOf colors =? 0)%nat
          || (5 <? lengthOf colors)%nat then
    resolve (Status400 "Invalid colors"
               "Colors must be an array with 1-5 color values")
  else
    joined <- callJoin colors " and " ;;
    let prompt := inlinePrompt gender occasion style joined in
    result <- fallbackChain w gender occasion style colors demoMode prompt ;;
    resolve (success w gender occasion style colors demoMode result).

(** The handler: whatever the [try] block throws becomes a 500. *)
Definition generate (w : World) (body : Object) : Async Response :=
  tryCatch (generateTry w body) (fun message =>
    resolve (Status500 message "Design generation failed")).

(** Which tier the image of a response comes from, read off the fallback
    chain.  Whether a provider promise resolves does not depend on the
    prompt, which the clients only pass through. *)
Inductive Tier : Type := Primary | Backup | Placeholder.

Definition resolved {A} (m : Async A) : bool :=
  match fst m with
  | Resolved _ => true
  | _ => false
  end.

Definition rejected {A} (m : Async A) : bool :=
  match fst m with
  | Rejected _ => true
  | _ => false
  end.

Definition producer (w : World) (demoMode : json) : Tier :=
  if forcedDemo w demoMode then Placeholder
  else if resolved (generateWithHuggingFace w "") then Primary
  else if resolved (generateWithReplicate w "") then Backup
  else Placeholder.

(** A result with its prompt replaced. *)
Definition withPrompt (prompt : string) (m : Async Result) : Async Result :=
  match m with
  | (Resolved r, log) => (Resolved {| imageUrl := imageUrl r; prompt := prompt |}, log)
  | other => other
  end.

(** The four checks of the handler (source lines 286 to 316), on the
    values left by the destructuring. *)
Definition passesValidation (body : Object) : bool :=
  let colors := orDefault (get body "colors") (JArr [JStr "#FF6B6B"; JStr "#4ECDC4"]) in
  includesValue validGenders (orDefault (get body "gender") (JStr "unisex"))
  && includesValue validOccasions (orDefault (get body "occasion") (JStr "casual"))
  && includesValue validStyles (orDefault (get body "style") (JStr "modern"))
  && negb (negb (isArray colors) || (lengthOf colors =? 0)%nat
           || (5 <? lengthOf colors)%nat).

(** Whether [colors.join] can convert every entry of [colors]. *)
Definition printableColors (body : Object) : bool :=
  match orDefault (get body "colors") (JArr [JStr "#FF6B6B"; JStr "#4ECDC4"]) with
  | JArr items => forallb printable items
  | _ => true
  end.

(** A syntactically valid preference input: the four fields are present,
    the three enumerated ones hold a listed value and [colors] is an array
    of one to five entries. *)
Definition listed (valid : list string) (field : option json) : Prop :=
  exists s, field = Some (JStr s) /\ In s valid.

Definition colorArray (field : option json) : Prop :=
  exists items, field = Some (JArr items)
                /\ (1 <= length items)%nat /\ (length items <= 5)%nat.

Definition ValidPreferences (body : Object) : Prop :=
  listed validGenders (get body "gender")
  /\ listed validOccasions (get body "occasion")
  /\ listed validStyles (get body "style")
  /\ colorArray (get body "colors").

(** The same, each field being allowed to be absent. *)
Definition ValidOrMissing (body : Object) : Prop :=
  (get body "gender" = None \/ listed validGenders (get body "gender"))
  /\ (get body "occasion" = None \/ listed validOccasions (get body "occasion"))
  /\ (get body "style" = None \/ listed validStyles (get body "style"))
  /\ (get body "colors" = None \/ colorArray (get body "colors")).

Definition primaryFails (w : World) : Prop :=
  forall prompt, rejected (generateWithHuggingFace w prompt) = true.

Definition backupFails (w : World) : Prop :=
  forall prompt, rejected (generateWithReplicate w prompt) = true.

(** The data URL of a placeholder template filled from the preferences. *)
Definition placeholderUrl
    (template : string -> string -> string -> string -> string -> string)
    (gender style occasion colors : json) : string :=
  "data:image/svg+xml;base64,"
    ++ base64 (template
                 (ToString (orElse (item colors 0) (JStr "#FF6B6B")))
                 (ToString (orElse (item colors 1) (JStr "#4ECDC4")))
                 (toUpperCase (ToString style))
                 (toUpperCase (ToString occasion))
                 (ToString gender)).

(** The runs of the fallback chain: the tier that produced the result, the
    result and the log. *)
Inductive ChainRun (w : World) (gender occasion style colors demoMode : json)
    (prompt : string) : Tier -> Result -> list Call -> Prop :=
| RunDemo :
    forcedDemo w demoMode = true ->
    ChainRun w gender occasion style colors demoMode prompt Placeholder
      {| imageUrl := placeholderUrl demoSvg gender style occasion colors;
         prompt := prompt |} []
| RunPrimary result log :
    forcedDemo w demoMode = false ->
    generateWithHuggingFace w prompt = (Resolved result, log) ->
    ChainRun w gender occasion style colors demoMode prompt Primary result log
| RunBackup apiError log result log' :
    forcedDemo w demoMode = false ->
    generateWithHuggingFace w prompt = (Rejected apiError, log) ->
    generateWithReplicate w prompt = (Resolved result, log') ->
    ChainRun w gender occasion style colors demoMode prompt Backup result
      (log ++ log')%list
| RunFallback apiError log replicateError log' :
    forcedDemo w demoMode = false ->
    generateWithHuggingFace w prompt = (Rejected apiError, log) ->
    generateWithReplicate w prompt = (Rejected replicateError, log') ->
    ChainRun w gender occasion style colors demoMode prompt Placeholder
      {| imageUrl := placeholderUrl fallbackSvg gender style occasion colors;
         prompt := prompt |}
      (log ++ log')%list.

(** Counting in the log, the calls of every chain included. *)
Fixpoint isHuggingFaceRequest (c : Call) : bool :=
  match c with
  | RequestHuggingFace _ => true
  | Aside _ c' => isHuggingFaceRequest c'
  | _ => false
  end.

Fixpoint isReplicateRequest (c : Call) : bool :=
  match c with
  | RequestReplicate => true
  | Aside _ c' => isReplicateRequest c'
  | _ => false
  end.

Definition attempts (log : list Call) : nat :=
  length (filter isHuggingFaceRequest log).

Definition backupCalls (log : list Call) : nat :=
  length (filter isReplicateRequest log).

End Simple.

(** ** [backend/config/huggingface.js] *)

Module HuggingFace.

(** *** Property lookup on an object literal

    [literal[key]] finds the own properties of the literal first and then
    the members of [Object.prototype], which every object literal inherits.
    A value found is a string of the literal, a built-in function, or the
    prototype object itself (under the name [__proto__]). *)
Inductive value : Type :=
| VString (s : string)
| VFunction (name : string)
| VObjectPrototype.

Definition truthy (v : value) : bool :=
  match v with
  | VString s => negb (String.eqb s "")
  | VFunction _ => true
  | VObjectPrototype => true
  end.

(** Conversion to text, as [join] and template literals do it; a built-in
    function prints the way Node prints it. *)
Definition toText (v : value) : string :=
  match v with
  | VString s => s
  | VFunction name => "function " ++ name ++ "() { [native code] }"
  | VObjectPrototype => "[object Object]"
  end.

Definition ObjectPrototype : list (string * value) :=
  [ ("constructor", VFunction "Object");
    ("__defineGetter__", VFunction "__defineGetter__");
    ("__defineSetter__", VFunction "__defineSetter__");
    ("hasOwnProperty", VFunction "hasOwnProperty");
    ("__lookupGetter__", VFunction "__lookupGetter__");
    ("__lookupSetter__", VFunction "__lookupSetter__");
    ("isPrototypeOf", VFunction "isPrototypeOf");
    ("propertyIsEnumerable", VFunction "propertyIsEnumerable");
    ("toString", VFunction "toString");
    ("valueOf", VFunction "valueOf");
    ("__proto__", VObjectPrototype);
    ("toLocaleString", VFunction "toLocaleString") ].

Fixpoint assoc {A} (l : list (string * A)) (key : string) : option A :=
  match l with
  | [] => None
  | (k, v) :: rest => if String.eqb k key then Some v else assoc rest key
  end.

Definition literal : Type := list (string * string).

Definition lookup (o : literal) (key : string) : option value :=
  match assoc o key with
  | Some s => Some (VString s)
  | None => assoc ObjectPrototype key
  end.

(** [o[key] || fallback] *)
Definition lookupOr (o : literal) (key : string) (fallback : string) : value :=
  match lookup o key with
  | Some v => if truthy v then v else VString fallback
  | None => VString fallback
  end.

(** [`${o[key]}`], [undefined] printing as its name. *)
Definition lookupText (o : literal) (key : string) : string :=
  match lookup o key with
  | Some v => toText v
  | None => "undefined"
  end.

(** *** [generateFashionPrompt]

    The copy of this function in [config/replicate.js] has the same body
    over a table without [#A78BFA]; it is not repeated here. *)

Definition FASHION_MODELS : literal :=
  [ ("sdxl", "stabilityai/stable-diffusion-xl-base-1.0");
    ("sd21", "stabilityai/stable-diffusion-2-1");
    ("flux", "black-forest-labs/FLUX.1-schnell");
    ("realistic", "SG161222/Realistic_Vision_V4.0") ].

Definition colorMap : literal :=
  [ ("#FF6B6B", "coral red");
    ("#4ECDC4", "turquoise");
    ("#45B7D1", "sky blue");
    ("#96CEB4", "mint green");
    ("#FFEAA7", "golden yellow");
    ("#DDA0DD", "lavender");
    ("#98D8C8", "seafoam green");
    ("#F7DC6F", "pale yellow");
    ("#BB8FCE", "light purple");
    ("#85C1E9", "powder blue");
    ("#F8C471", "peach");
    ("#82E0AA", "light green");
    ("#F1948A", "salmon pink");
    ("#A78BFA", "violet purple");
    ("#D7BDE2", "pale lavender");
    ("#000000", "black");
    ("#FFFFFF", "white");
    ("#808080", "gray");
    ("#8B4513", "brown");
    ("#2F4F4F", "dark gray") ].

Definition moodDescriptions : literal :=
  [ ("confident", "bold and empowering design");
    ("romantic", "soft and feminine aesthetic");
    ("edgy", "modern and rebellious style");
    ("comfortable", "relaxed and casual feel");
    ("professional", "polished and sophisticated look");
    ("playful", "fun and creative design");
    ("sophisticated", "elegant and refined appearance") ].

Definition seasonalDetails : literal :=
  [ ("spring", "perfect for mild spring weather with light layers");
    ("summer", "ideal for warm weather with breathable fabrics");
    ("fall", "suitable for cooler weather with cozy layers");
    ("winter", "designed for cold weather with warm materials") ].

(** The preference object as the prompt builder reads it: the three
    interpolated texts, the colour tokens (absent, or an array of strings)
    and the four optional fields with destructuring defaults. *)
Record Preferences : Type := {
  gender : string;
  occasion : string;
  style : string;
  colors : option (list string);
  patterns : option (list string);
  materials : option (list string);
  mood : option string;
  season : option string
}.

Definition defaultTo {A} (v : option A) (d : A) : A :=
  match v with
  | Some x => x
  | None => d
  end.

(** The callback of [colors.map]: [colorMap[color] || color]. *)
Definition colorName (color : string) : value :=
  lookupOr colorMap color color.

Definition technicalSuffix : string :=
  "High-quality fashion illustration, clean professional presentation, fashion portfolio style, detailed clothing design, modern aesthetic, studio lighting, white background, full outfit view, fashion sketch style, detailed fabric textures, professional fashion photography style".

Definition generateFashionPrompt (preferences : Preferences) : string :=
  let patterns := defaultTo (patterns preferences) [] in
  let materials := defaultTo (materials preferences) [] in
  let mood := defaultTo (mood preferences) "confident" in
  let season := defaultTo (season preferences) "all-season" in
  let prompt :=
    "A professional fashion design illustration of a " ++ style preferences
      ++ " " ++ occasion preferences ++ " outfit for " ++ gender preferences ++ ", " in
  let prompt :=
    match colors preferences with
    | Some (c :: cs) =>
        let colorNames := map colorName (c :: cs) in
        prompt ++ "featuring " ++ String.concat " and " (map toText colorNames)
          ++ " colors, "
    | _ => prompt
    end in
  let prompt :=
    if (0 <? length patterns)%nat
    then prompt ++ "with " ++ String.concat " and " patterns ++ " patterns, "
    else prompt in
  let prompt :=
    if (0 <? length materials)%nat
    then prompt ++ "made from " ++ String.concat " and " materials ++ " materials, "
    else prompt in
  let prompt :=
    prompt ++ "with a "
      ++ toText (lookupOr moodDescriptions mood "stylish design") ++ ". " in
  let prompt :=
    if negb (String.eqb season "all-season")
    then prompt ++ lookupText seasonalDetails season ++ ". "
    else prompt in
  prompt ++ technicalSuffix.

(** *** [generateDesign] *)

(** What [makeRequest] settles to: the response it resolves with, [data]
    being the bytes of its body, or the error of the request it rejects
    with. *)
Inductive RequestOutcome : Type :=
| Response (status : Z) (contentType : option string) (data : string)
| RequestError (message : string).

Definition ok (status : Z) : bool :=
  (200 <=? status)%Z && (status <? 300)%Z.

Record ImageData : Type := {
  url : string;
  originalPrompt : string
}.

Record Metadata : Type := {
  model : string;
  modelId : string;
  size : string;
  generationTime : Z;
  cost : Z
}.

Record GenerationResult : Type := {
  success : bool;
  image : ImageData;
  metadata : Metadata
}.

(** The [try] block of [generateDesign]: lines 172 to 245.  [hfToken] is
    the module variable set by [initializeHuggingFace]; [startTime] and
    [endTime] are the two readings of [Date.now()]. *)
Definition generateDesignTry (hfToken : option string) (net : RequestOutcome)
    (startTime endTime : Z) (preferences : Preferences) (modelType : string)
    : Completion GenerationResult :=
  match hfToken with
  | None | Some EmptyString =>
      Throw "Hugging Face client not initialized. Please check your API token."
  | Some _ =>
      let prompt := generateFashionPrompt preferences in
      let modelId :=
        toText (lookupOr FASHION_MODELS modelType
                    "stabilityai/stable-diffusion-xl-base-1.0") in
      match net with
      | RequestError message => Throw message
      | Response status contentType data =>
          if negb (ok status) then
            let errorText := bufferToString data in
            if (status =? 503)%Z then
              Throw "Model is loading, please try again in a few minutes."
            else if (status =? 429)%Z then
              Throw "Rate limit exceeded. Please try again later."
            else
              Throw ("Hugging Face API error: " ++ decimal status ++ " " ++ errorText)
          else
            let generationTime := (endTime - startTime)%Z in
            let isImage :=
              match contentType with
              | Some t => negb (String.eqb t "") && JS.includes t "image"
              | None => false
              end in
            if negb isImage then
              let errorText := bufferToString data in
              Throw ("Expected image response, got: "
                       ++ match contentType with Some t => t | None => "undefined" end
                       ++ ". Response: " ++ errorText)
            else
              Normal {|
                success := true;
                image := {| url := "data:image/jpeg;base64," ++ base64 data;
                            originalPrompt := prompt |};
                metadata := {| model := modelType;
                               modelId := modelId;
                               size := "1024x1024";
                               generationTime := generationTime;
                               cost := 0 |}
              |}
      end
  end.

(** The [catch] block: lines 247 to 260. *)
Definition generateDesignCatch (message : string) : string :=
  if JS.includes message "authorization" || JS.includes message "401" then
    "Invalid Hugging Face API token. Please check your configuration."
  else if JS.includes message "503" then
    "Model is loading. Please try again in 1-2 minutes."
  else if JS.includes message "429" then
    "Rate limit exceeded. Please try again in a few minutes."
  else
    "Design generation failed: " ++ message.

Definition generateDesign (hfToken : option string) (net : RequestOutcome)
    (startTime endTime : Z) (preferences : Preferences) (modelType : string)
    : Completion GenerationResult :=
  match generateDesignTry hfToken net startTime endTime preferences modelType with
  | Normal r => Normal r
  | Throw message => Throw (generateDesignCatch message)
  end.

End HuggingFace.

(** ** Scenarios

    Concrete worlds and inputs on which the code is evaluated below. *)

Module Scenario.

Import Simple.

Definition clock (k : nat) : Z := (1700000000000 + Z.of_nat k)%Z.
Definition iso (t : Z) : string := "2023-11-14T22:13:20.000Z".

(** No provider can be reached. *)
Definition offline : World := {|
  huggingFace := fun _ _ =>
    HFRequestError "getaddrinfo ENOTFOUND api-inference.huggingface.co";
  settlesFirst := fun _ _ => false;
  replicate := RepRequestError "getaddrinfo ENOTFOUND api.replicate.com";
  DEMO_MODE := None;
  Date_now := clock;
  toISOString := iso
|}.

(** The same, the process being started with [DEMO_MODE=true]. *)
Definition offlineDemo : World := {|
  huggingFace := huggingFace offline;
  settlesFirst := settlesFirst offline;
  replicate := replicate offline;
  DEMO_MODE := Some "true";
  Date_now := clock;
  toISOString := iso
|}.

(** The primary provider answers 503 twice, then 200 with [data]. *)
Definition loadingTwice (data : string) : World := {|
  huggingFace := fun _ attemptNumber =>
    if (attemptNumber <? 3)%nat
    then HFEnd 503 (Some "application/json") "Model is loading"
    else HFEnd 200 (Some "image/jpeg") data;
  settlesFirst := fun _ _ => false;
  replicate := replicate offline;
  DEMO_MODE := None;
  Date_now := clock;
  toISOString := iso
|}.

(** The primary provider answers [status] at once, whatever the attempt;
    the backup provider accepts the prediction. *)
Definition answering (status : Z) (contentType : option string) (data : string)
    : World := {|
  huggingFace := fun _ _ => HFEnd status contentType data;
  settlesFirst := fun _ _ => false;
  replicate := RepEnd 201 "{}" None;
  DEMO_MODE := None;
  Date_now := clock;
  toISOString := iso
|}.

(** A JPEG start-of-image marker followed by six bytes; its base64 text
    is [/9j/svg+xmlA]. *)
Definition jpegBytes : string :=
  bytes [255; 216; 255; 178; 248; 62; 198; 105; 64]%N.

(** Another world than [offline]: a later clock, a rate-limited primary
    provider and a backup provider that asks for billing. *)
Definition offlineLater : World := {|
  huggingFace := fun _ _ => HFEnd 429 (Some "text/plain") "Too Many Requests";
  settlesFirst := fun _ _ => false;
  replicate := RepEnd 402 (dq "{'detail':'Billing required'}") None;
  DEMO_MODE := None;
  Date_now := fun k => (1800000000000 + 7 * Z.of_nat k)%Z;
  toISOString := fun _ => "2027-01-15T08:00:00.000Z"
|}.

Definition casualRequest : Object :=
  [ ("gender", JStr "female"); ("occasion", JStr "party");
    ("style", JStr "vintage"); ("colors", JArr [JStr "#000000"; JStr "gold"; JStr "#FFFFFF"]) ].

Definition protoPreferences : HuggingFace.Preferences := {|
  HuggingFace.gender := "female";
  HuggingFace.occasion := "party";
  HuggingFace.style := "vintage";
  HuggingFace.colors := Some ["__proto__"];
  HuggingFace.patterns := None;
  HuggingFace.materials := None;
  HuggingFace.mood := None;
  HuggingFace.season := None
|}.

End Scenario.

(** ** Reading a log of [simple.js] *)

Module Log.

Import Simple.

(** The back-off delays of the chain of attempts that
    [generateWithHuggingFace] starts, in order, and their sum. *)
Definition delays (log : list Call) : list Z :=
  flat_map (fun c => match c with SetTimeout ms => [ms] | _ => [] end) log.

Definition totalDelay (log : list Call) : Z :=
  fold_right Z.add 0%Z (delays log).

(** The attempt numbers of the requests of that chain. *)
Definition requestNumbers (log : list Call) : list nat :=
  flat_map (fun c => match c with RequestHuggingFace n => [n] | _ => [] end) log.

(** The events after which the request raises nothing more: all but the
    two on which the code destroys the request and the request then
    raises an error. *)
Definition quiet (e : HFEvent) : bool :=
  match e with
  | HFTooLarge (Some _) => false
  | HFTimeout (Some _) => false
  | _ => true
  end.

(** The delay after which [attemptRequest] tries again on an event, when
    it tries again at all: 10 s on a 503, 5 s on a 429, 2 s on an error of
    the response, a timeout or an error of the request. *)
Definition backoff (e : HFEvent) : option Z :=
  match e with
  | HFEnd statusCode _ _ =>
      if (statusCode =? 200)%Z then None
      else if (statusCode =? 503)%Z then Some 10000%Z
      else if (statusCode =? 429)%Z then Some 5000%Z
      else None
  | HFTooLarge _ => None
  | HFResponseError _ => Some 2000%Z
  | HFTimeout _ => Some 2000%Z
  | HFRequestError _ => Some 2000%Z
  end.

(** What the promise settles to on the event of the attempt that is not
    followed by another one. *)
Definition settlement (prompt : string) (e : HFEvent) : Outcome Result :=
  match e with
  | HFEnd statusCode _ responseData =>
      if (statusCode =? 200)%Z then
        Resolved {| imageUrl := "data:image/jpeg;base64," ++ base64 responseData;
                    prompt := prompt |}
      else
        Rejected ("Hugging Face API error: " ++ decimal statusCode
                    ++ " - " ++ bufferToString responseData)
  | HFTooLarge _ => Rejected "Response too large"
  | HFResponseError message => Rejected ("Response error: " ++ message)
  | HFTimeout _ => Rejected "Request timeout after all retries"
  | HFRequestError message => Rejected ("Request error: " ++ message)
  end.

End Log.

(** ** [backend/simple.js]: [startServer] *)

Module Server.

(** What [app.listen(port)] meets: the callback of a server that listens,
    or the ['error'] event with its code. *)
Inductive ListenOutcome : Type :=
| Listening
| AddressInUse                      (* error.code === 'EADDRINUSE' *)
| OtherError (code : string).

Inductive Action : Type :=
| Listen (port : Z)
| Wait (ms : Z)                     (* setTimeout(.., 1000) *)
| Exit (code : Z).                  (* process.exit(code) *)

Inductive Final : Type :=
| Serving (port : Z)
| Exited (code : Z)
| Unfinished.

(** [startServer(port)].  [currentPort] is [parseInt(PORT)], an integer
    here; [listen] tells what each port meets, a port being tried once at
    most; [fuel] bounds the recursion.  The registration of the signal
    handlers is left out. *)
Fixpoint startServer (listen : Z -> ListenOutcome) (currentPort : Z)
    (fuel : nat) (port : Z) : Final * list Action :=
  match fuel with
  | O => (Unfinished, [])
  | S fuel' =>
      match listen port with
      | Listening => (Serving port, [Listen port])
      | AddressInUse =>
          if (port - currentPort <? 10)%Z then
            let newPort := (port + 1)%Z in
            let '(final, log) := startServer listen currentPort fuel' newPort in
            (final, Listen port :: Wait 1000 :: log)
          else
            (Exited 1, [Listen port; Exit 1%Z])
      | OtherError _ => (Exited 1, [Listen port; Exit 1%Z])
      end
  end.

(** [startServer()], the port defaulting to [currentPort]. *)
Definition start (listen : Z -> ListenOutcome) (currentPort : Z)
    : Final * list Action :=
  startServer listen currentPort 11 currentPort.

Definition portsTried (log : list Action) : list Z :=
  flat_map (fun a => match a with Listen p => [p] | _ => [] end) log.

(** The ports from [first], [count] of them. *)
Fixpoint portsFrom (first : Z) (count : nat) : list Z :=
  match count with
  | O => []
  | S k => first :: portsFrom (first + 1)%Z k
  end.

End Server.

(** ** [backend/config/replicate.js] *)

Module Replicate.

Import HuggingFace.

Definition FASHION_MODELS : literal :=
  [ ("sdxl", "stability-ai/sdxl:39ed52f2a78e934b3ba6e2a89f5b1c712de7dfea535525255b1aa35c5565e08b");
    ("sd15", "stability-ai/stable-diffusion:db21e45d3f7023abc2a46ee38a23973f6dce16bb082a930b0c49861f96d1e5bf");
    ("flux", "black-forest-labs/flux-schnell:bf2f2e683d03a9549f484a37a0df1581e0b0b3b2c7d15028b982f5532dfb9e56");
    ("playground", "playgroundai/playground-v2.5-1024px-aesthetic:a45f82a1382bed5c7aeb861dac7c7d191b0fdf74d8d57c4a0e6ed7d4d0bf7d24") ].

(** The colour table of this file: that of [config/huggingface.js]
    without [#A78BFA]. *)
Definition colorMap : literal :=
  [ ("#FF6B6B", "coral red");
    ("#4ECDC4", "turquoise");
    ("#45B7D1", "sky blue");
    ("#96CEB4", "mint green");
    ("#FFEAA7", "golden yellow");
    ("#DDA0DD", "lavender");
    ("#98D8C8", "seafoam green");
    ("#F7DC6F", "pale yellow");
    ("#BB8FCE", "light purple");
    ("#85C1E9", "powder blue");
    ("#F8C471", "peach");
    ("#82E0AA", "light green");
    ("#F1948A", "salmon pink");
    ("#D7BDE2", "pale lavender");
    ("#000000", "black");
    ("#FFFFFF", "white");
    ("#808080", "gray");
    ("#8B4513", "brown");
    ("#2F4F4F", "dark gray") ].

Definition moodDescriptions : literal :=
  [ ("confident", "bold and empowering design");
    ("romantic", "soft and feminine aesthetic");
    ("edgy", "modern and rebellious style");
    ("comfortable", "relaxed and casual feel");
    ("professional", "polished and sophisticated look");
    ("playful", "fun and creative design");
    ("sophisticated", "elegant and refined appearance") ].

Definition seasonalDetails : literal :=
  [ ("spring", "perfect for mild spring weather with light layers");
    ("summer", "ideal for warm weather with breathable fabrics");
    ("fall", "suitable for cooler weather with cozy layers");
    ("winter", "designed for cold weather with warm materials") ].

Definition colorName (color : string) : value :=
  lookupOr colorMap color color.

(** [generateFashionPrompt] of this file (source lines 387 to 470). *)
Definition generateFashionPrompt (preferences : Preferences) : string :=
  let patterns := defaultTo (patterns preferences) [] in
  let materials := defaultTo (materials preferences) [] in
  let mood := defaultTo (mood preferences) "confident" in
  let season := defaultTo (season preferences) "all-season" in
  let prompt :=
    "A professional fashion design illustration of a " ++ style preferences
      ++ " " ++ occasion preferences ++ " outfit for " ++ gender preferences ++ ", " in
  let prompt :=
    match colors preferences with
    | Some (c :: cs) =>
        let colorNames := map colorName (c :: cs) in
        prompt ++ "featuring " ++ String.concat " and " (map toText colorNames)
          ++ " colors, "
    | _ => prompt
    end in
  let prompt :=
    if (0 <? length patterns)%nat
    then prompt ++ "with " ++ String.concat " and " patterns ++ " patterns, "
    else prompt in
  let prompt :=
    if (0 <? length materials)%nat
    then prompt ++ "made from " ++ String.concat " and " materials ++ " materials, "
    else prompt in
  let prompt :=
    prompt ++ "with a "
      ++ toText (lookupOr moodDescriptions mood "stylish design") ++ ". " in
  let prompt :=
    if negb (String.eqb season "all-season")
    then prompt ++ lookupText seasonalDetails season ++ ". "
    else prompt in
  prompt ++ technicalSuffix.

(** What [replicate.run] returns: an array of URLs, one URL, or nothing
    ([null] or [undefined]); or the message of the error it throws. *)
Inductive Output : Type :=
| OutputArray (items : list string)
| OutputString (s : string)
| OutputNone.

Inductive RunOutcome : Type :=
| Returned (output : Output)
| Threw (message : string).

(** The [input] object given to [replicate.run]; a field that the object
    does not have is [None], a fractional number is given by its text. *)
Record Input : Type := {
  prompt : string;
  width : option Z;
  height : option Z;
  num_outputs : Z;
  aspect_ratio : option string;
  output_format : option string;
  output_quality : option Z;
  guidance_scale : option string;
  num_inference_steps : option Z;
  scheduler : option string
}.

Inductive Action : Type :=
| Run (modelVersion : string) (input : Input)
| Sleep (ms : Z).

Record ImageRef : Type := {
  url : string;
  originalPrompt : string
}.

Record Details : Type := {
  model : string;
  modelVersion : string;
  size : string;
  generationTime : Z;
  cost : Z
}.

Record Generation : Type := {
  success : bool;
  image : ImageRef;
  metadata : Details
}.

(** The input formats of source lines 489 to 518. *)
Definition inputFor (modelType prompt : string) : Input :=
  if String.eqb modelType "flux" then
    {| prompt := prompt; width := None; height := None; num_outputs := 1;
       aspect_ratio := Some "1:1"; output_format := Some "webp";
       output_quality := Some 80%Z; guidance_scale := None;
       num_inference_steps := None; scheduler := None |}
  else if String.eqb modelType "playground" then
    {| prompt := prompt; width := Some 1024%Z; height := Some 1024%Z;
       num_outputs := 1; aspect_ratio := None; output_format := None;
       output_quality := None; guidance_scale := Some "7";
       num_inference_steps := Some 50%Z; scheduler := None |}
  else
    {| prompt := prompt; width := Some 1024%Z; height := Some 1024%Z;
       num_outputs := 1; aspect_ratio := None; output_format := None;
       output_quality := None; guidance_scale := Some "7.5";
       num_inference_steps := Some 50%Z; scheduler := Some "K_EULER" |}.

(** [!output || (Array.isArray(output) && output.length === 0)] *)
Definition noImage (output : Output) : bool :=
  match output with
  | OutputNone => true
  | OutputString s => String.eqb s ""
  | OutputArray [] => true
  | OutputArray (_ :: _) => false
  end.

(** [Array.isArray(output) ? output[0] : output], on an output that holds
    an image. *)
Definition firstImage (output : Output) : string :=
  match output with
  | OutputArray (first :: _) => first
  | OutputString s => s
  | _ => ""
  end.

(** The [try] block of [generateDesign]: source lines 475 to 544.
    [initialized] tells whether [initializeReplicate] has set the client;
    [run] is what the call to [replicate.run] meets. *)
Definition generateDesignTry (initialized : bool) (run : RunOutcome)
    (startTime endTime : Z) (preferences : Preferences) (modelType : string)
    : Completion Generation * list Action :=
  if negb initialized then
    (Throw "Replicate client not initialized. Please check your API token.", [])
  else
    let prompt := generateFashionPrompt preferences in
    let modelVersion :=
      toText (lookupOr FASHION_MODELS modelType
                "stability-ai/sdxl:39ed52f2a78e934b3ba6e2a89f5b1c712de7dfea535525255b1aa35c5565e08b") in
    let input := inputFor modelType prompt in
    match run with
    | Threw message => (Throw message, [Run modelVersion input])
    | Returned output =>
        let generationTime := (endTime - startTime)%Z in
        if noImage output then
          (Throw "No images generated", [Run modelVersion input])
        else
          (Normal {| success := true;
                     image := {| url := firstImage output;
                                 originalPrompt := prompt |};
                     metadata := {| model := modelType;
                                    modelVersion := modelVersion;
                                    size := "1024x1024";
                                    generationTime := generationTime;
                                    cost := 0 |} |},
           [Run modelVersion input])
    end.

(** The [catch] block: source lines 546 to 561. *)
Definition generateDesignCatch (message : string) : string :=
  if JS.includes message "authentication" then
    "Invalid Replicate API token. Please check your configuration."
  else if JS.includes message "quota" then
    "Replicate API quota exceeded. Please check your account."
  else if JS.includes message "content" then
    "The design request violates content policy. Please try different preferences."
  else if JS.includes message "402" || JS.includes message "Billing required" then
    "Replicate billing required. Please set up billing at https://replicate.com/account/billing to generate designs."
  else
    "Design generation failed: " ++ message.

Definition generateDesign (initialized : bool) (run : RunOutcome)
    (startTime endTime : Z) (preferences : Preferences) (modelType : string)
    : Completion Generation * list Action :=
  match generateDesignTry initialized run startTime endTime preferences modelType with
  | (Normal r, log) => (Normal r, log)
  | (Throw message, log) => (Throw (generateDesignCatch message), log)
  end.

(** What the [i]-th call of [generateDesign] in a batch meets: the run and
    the two readings of the clock around it. *)
Record Call : Type := {
  run : RunOutcome;
  startTime : Z;
  endTime : Z
}.

Record Batch : Type := {
  batch_success : bool;
  designs : list Generation;
  errors : option (list string);
  totalGenerated : nat;
  totalRequested : nat
}.

(** The [for] loop of [generateDesignVariations], from index [i] with
    [remaining] iterations to go: the designs, the errors and the log. *)
Fixpoint variationsLoop (calls : nat -> Call) (preferences : Preferences)
    (count : nat) (modelType : string) (remaining i : nat)
    : list Generation * list string * list Action :=
  match remaining with
  | O => ([], [], [])
  | S remaining' =>
      let '(designs, errors, rest) :=
        variationsLoop calls preferences count modelType remaining' (S i) in
      match generateDesign true (run (calls i)) (startTime (calls i))
              (endTime (calls i)) preferences modelType with
      | (Normal design, log) =>
          let pause := if (i <? count - 1)%nat then [Sleep 2000] else [] in
          (design :: designs, errors, (log ++ pause ++ rest)%list)
      | (Throw message, log) =>
          (designs, message :: errors, (log ++ rest)%list)
      end
  end.

(** [generateDesignVariations(preferences, count, modelType)], [count]
    being a natural number. *)
Definition generateDesignVariations (initialized : bool) (calls : nat -> Call)
    (preferences : Preferences) (count : nat) (modelType : string)
    : Completion Batch * list Action :=
  if negb initialized then
    (Throw ("Batch generation failed: " ++ "Replicate client not initialized"), [])
  else
    let '(designs, errors, log) :=
      variationsLoop calls preferences count modelType count 0 in
    (Normal {| batch_success := (0 <? length designs)%nat;
               designs := designs;
               errors := if (0 <? length errors)%nat then Some errors else None;
               totalGenerated := length designs;
               totalRequested := count |},
     log).

Definition runs (log : list Action) : nat :=
  length (filter (fun a => match a with Run _ _ => true | _ => false end) log).

Definition pauses (log : list Action) : nat :=
  length (filter (fun a => match a with Sleep _ => true | _ => false end) log).

End Replicate.

(** ** [backend/routes/designs.js]: [POST /generate]

    The caller of [generateDesign] of [config/huggingface.js].  The
    database and the generation are seen from outside: [save] tells what
    the [k]-th call of [design.save()] settles to, and
    [generateHuggingFaceDesign] what the generation settles to on the
    preferences of the body.  Building the document with [new Design]
    does not throw: Mongoose casts and validates when the document is
    saved. *)

Module DesignsRoute.

Import Simple.

Inductive SaveOutcome : Type :=
| Saved
| SaveRejected (message : string).

Record World : Type := {
  save : nat -> SaveOutcome;
  generateHuggingFaceDesign : Completion HuggingFace.GenerationResult
}.

(** A save, with the status the document has at that moment, or the call
    of the generation with its model type. *)
Inductive Action : Type :=
| Save (status : string)
| Generate (modelType : json).

Inductive Response : Type :=
| MissingFields                       (* 400, 'Missing required fields' *)
| Completed                           (* res.json({ success: true, ... }) *)
| Failed (message : string).          (* 500, 'Design generation failed' *)

(** [!v], [v] being a field of the body. *)
Definition falsy (v : option json) : bool :=
  match v with
  | Some x => negb (ToBoolean x)
  | None => true
  end.

(** [colors.length === 0].  A number is zero when it prints as [0]. *)
Definition lengthIsZero (colors : json) : bool :=
  match colors with
  | JArr items => (length items =? 0)%nat
  | JObj fields =>
      match get fields "length" with
      | Some (JNum n) => String.eqb (numberToString n) "0"
      | _ => false
      end
  | _ => false
  end.

(** [error.message || 'Internal server error'] *)
Definition messageOf (message : string) : string :=
  if String.eqb message "" then "Internal server error" else message.

(** The [catch] of the inner [try]: the document is marked failed and
    saved, then the error is thrown again. *)
Definition recordFailure (w : World) (k : nat) (message : string)
    (log : list Action) : Response * list Action :=
  match save w k with
  | Saved => (Failed (messageOf message), (log ++ [Save "failed"])%list)
  | SaveRejected message' => (Failed (messageOf message'), (log ++ [Save "failed"])%list)
  end.

Definition generate (w : World) (body : Object) : Response * list Action :=
  let gender := get body "gender" in
  let occasion := get body "occasion" in
  let style := get body "style" in
  let colors := get body "colors" in
  let modelType := orDefault (get body "modelType") (JStr "sdxl") in
  if falsy gender || falsy occasion || falsy style || falsy colors
     || lengthIsZero (orDefault colors JNull) then
    (MissingFields, [])
  else if negb (printable (orDefault style JNull)
                && printable (orDefault occasion JNull)
                && printable (orDefault gender JNull)) then
    (* the template literals of the title, the description and the prompt *)
    (Failed "Cannot convert object to primitive value", [])
  else
    match colors with
    | Some (JArr items) =>
        if negb (forallb printable items) then
          (* colors.join(', ') *)
          (Failed "Cannot convert object to primitive value", [])
        else
        match save w 0 with
        | SaveRejected message => (Failed (messageOf message), [Save "generating"])
        | Saved =>
            match generateHuggingFaceDesign w with
            | Normal generationResult =>
                match save w 1 with
                | Saved =>
                    (Completed,
                     [Save "generating"; Generate modelType; Save "completed"])
                | SaveRejected message =>
                    recordFailure w 2 message
                      [Save "generating"; Generate modelType; Save "completed"]
                end
            | Throw message =>
                recordFailure w 1 message [Save "generating"; Generate modelType]
            end
        end
    | _ =>
        (* colors.join(', ') while the document is built *)
        (Failed "colors.join is not a function", [])
    end.

(** The bodies the route goes on with: the required fields are there, the
    fields that are printed can be, and [colors] is an array. *)
Definition accepted (body : Object) : bool :=
  negb (falsy (get body "gender") || falsy (get body "occasion")
        || falsy (get body "style") || falsy (get body "colors")
        || lengthIsZero (orDefault (get body "colors") JNull))
  && (printable (orDefault (get body "style") JNull)
      && printable (orDefault (get body "occasion") JNull)
      && printable (orDefault (get body "gender") JNull))
  && match get body "colors" with
     | Some (JArr items) => forallb printable items
     | _ => false
     end.

Definition saves (log : list Action) : list string :=
  flat_map (fun a => match a with Save status => [status] | _ => [] end) log.

Definition generations (log : list Action) : nat :=
  length (filter (fun a => match a with Generate _ => true | _ => false end) log).

End DesignsRoute.

(** ** Further scenarios *)

Module Cases.

Import Simple.

(** The connection to the primary provider is reset, then the provider
    limits the rate, then it loads its model for as long as it is asked. *)
Definition flaky : World := {|
  huggingFace := fun _ attemptNumber =>
    match attemptNumber with
    | 1%nat => HFRequestError "read ECONNRESET"
    | 2%nat => HFEnd 429 (Some "text/plain") "Too Many Requests"
    | _ => HFEnd 503 (Some "application/json") "Model is loading"
    end;
  settlesFirst := fun _ _ => false;
  replicate := RepEnd 201 "{}" None;
  DEMO_MODE := None;
  Date_now := Scenario.clock;
  toISOString := Scenario.iso
|}.

(** No request to the primary provider is answered within two minutes;
    each one is destroyed by the timer of the code and then raises the
    error of a socket that hung up. *)
Definition stalled : World := {|
  huggingFace := fun _ _ => HFTimeout (Some "socket hang up");
  settlesFirst := fun _ _ => false;
  replicate := RepEnd 201 "{}" None;
  DEMO_MODE := None;
  Date_now := Scenario.clock;
  toISOString := Scenario.iso
|}.

(** The primary provider refuses the token, and the backup provider takes
    the connection and never answers. *)
Definition silentBackup : World := {|
  huggingFace := fun _ _ => HFEnd 401 (Some "application/json") "Unauthorized";
  settlesFirst := fun _ _ => false;
  replicate := RepSilent;
  DEMO_MODE := None;
  Date_now := Scenario.clock;
  toISOString := Scenario.iso
|}.

(** A request whose one colour is an object with a property named
    [toString]: a number of JSON, which prints as [1] and is truthy. *)
Definition one : number := {| numberToString := "1"; numberToBoolean := true |}.

Definition unprintableRequest : Object :=
  [ ("gender", JStr "female"); ("occasion", JStr "party");
    ("style", JStr "vintage");
    ("colors", JArr [JObj [("toString", JNum one)]]) ].

(** A request that forces demo mode. *)
Definition demoRequest : Object :=
  [ ("style", JStr "classic"); ("colors", JArr [JStr "navy"]);
    ("demoMode", JBool true) ].

(** Ports 5002 and 5003 are taken, 5004 is free. *)
Definition twoTaken (port : Z) : Server.ListenOutcome :=
  if (port <? 5004)%Z then Server.AddressInUse else Server.Listening.

Definition allTaken (port : Z) : Server.ListenOutcome := Server.AddressInUse.

(** A batch of three runs: an image, an error, an image. *)
Definition threeRuns (i : nat) : Replicate.Call :=
  match i with
  | 1%nat => {| Replicate.run := Replicate.Threw "Prediction failed";
                Replicate.startTime := 2000; Replicate.endTime := 2500 |}
  | _ => {| Replicate.run :=
              Replicate.Returned (Replicate.OutputArray ["https://replicate.delivery/a.png"]);
            Replicate.startTime := 1000; Replicate.endTime := 1800 |}
  end.

Definition summerPreferences : HuggingFace.Preferences := {|
  HuggingFace.gender := "female";
  HuggingFace.occasion := "casual";
  HuggingFace.style := "modern";
  HuggingFace.colors := Some ["#FF6B6B"; "white"];
  HuggingFace.patterns := Some ["solid"];
  HuggingFace.materials := Some ["cotton"];
  HuggingFace.mood := Some "dreamy";
  HuggingFace.season := Some "monsoon"
|}.

(** The database refuses the second save. *)
Definition secondSaveFails : DesignsRoute.World := {|
  DesignsRoute.save := fun k =>
    match k with
    | 1%nat => DesignsRoute.SaveRejected "Design validation failed"
    | _ => DesignsRoute.Saved
    end;
  DesignsRoute.generateHuggingFaceDesign :=
    Throw "Design generation failed: Model is loading, please try again in a few minutes."
|}.

Definition routeRequest : Object :=
  [ ("gender", JStr "female"); ("occasion", JStr "casual");
    ("style", JStr "modern"); ("colors", JArr [JStr "blue"; JStr "white"]) ].

End Cases.

(** * Properties *)

(** ** Strings *)

Lemma append_assoc (a b c : string) : (a ++ b) ++ c = a ++ (b ++ c).
Proof.
  induction a as [|x a IH]; simpl; [reflexivity|].
  now rewrite IH.
Qed.

Lemma append_nil_r (a : string) : a ++ "" = a.
Proof.
  induction a as [|x a IH]; simpl; [reflexivity|].
  now rewrite IH.
Qed.

(** An SVG data URL announces its media type, whatever it carries. *)
Lemma includes_svg_url (payload : string) :
  JS.includes ("data:image/svg+xml;base64," ++ payload) "svg+xml" = true.
Proof. reflexivity. Qed.

(** In a JPEG data URL the text [svg+xml] can only occur in the payload. *)
Lemma includes_jpeg_url (payload : string) :
  JS.includes ("data:image/jpeg;base64," ++ payload) "svg+xml"
  = JS.includes payload "svg+xml".
Proof. reflexivity. Qed.

Lemma startsWith_jpeg_url (payload : string) :
  startsWith ("data:image/jpeg;base64," ++ payload) "data:image/svg+xml" = false.
Proof. reflexivity. Qed.

Lemma arrayIncludes_In (l : list string) (s : string) :
  arrayIncludes l s = true <-> In s l.
Proof.
  unfold arrayIncludes. rewrite existsb_exists. split.
  - intros [x [Hin Heq]]. apply String.eqb_eq in Heq. now subst.
  - intros Hin. exists s. split; [assumption | apply String.eqb_refl].
Qed.

(** ** The provider clients of [simple.js] *)

Section Clients.

Import Simple.

Variable w : World.

Lemma fst_call {A} (c : Call) (m : Async A) : fst (call c m) = fst m.
Proof. now destruct m. Qed.

Lemma snd_call {A} (c : Call) (m : Async A) : snd (call c m) = c :: snd m.
Proof. now destruct m. Qed.

Lemma call_pair {A} (c : Call) (m : Async A) :
  call c m = (fst m, c :: snd m).
Proof. now destruct m. Qed.

Lemma race_settles {A} (b : bool) (main stray : Outcome A) :
  main <> Pending -> race b main stray <> Pending.
Proof.
  unfold race. destruct b, main, stray; intros H;
    try discriminate; now contradiction H.
Qed.

(** The winner of a race is one of the two. *)
Lemma race_cases {A} (b : bool) (main stray : Outcome A) :
  race b main stray = main \/ race b main stray = stray.
Proof. unfold race. destruct b, main, stray; auto. Qed.

(** The promise of the primary client settles: the fuel given by
    [generateWithHuggingFaceRetries] is never used up. *)
Lemma attemptRequest_settles (prompt : string) (retries fuel : nat) :
  forall (chain : list nat) (n : nat),
    (0 < fuel)%nat -> (retries + 1 < n + fuel)%nat ->
    fst (attemptRequest w prompt retries fuel chain n) <> Pending.
Proof.
  induction fuel as [|fuel IH]; intros chain n Hpos Hfuel; [lia|].
  assert (Hnext : (n <=? retries)%nat = true ->
            fst (attemptRequest w prompt retries fuel chain (n + 1)) <> Pending).
  { intros Hle. apply Nat.leb_le in Hle. apply IH; lia. }
  cbn [attemptRequest]. rewrite fst_call.
  destruct (huggingFace w chain n) as [status ct data | [ab|] | msg | [ab|] | msg].
  - destruct (status =? 200)%Z; [discriminate|].
    destruct ((status =? 503)%Z && (n <=? retries)%nat) eqn:E503;
      [apply andb_prop in E503; rewrite fst_call; now apply Hnext|].
    destruct ((status =? 429)%Z && (n <=? retries)%nat) eqn:E429;
      [apply andb_prop in E429; rewrite fst_call; now apply Hnext|].
    discriminate.
  - destruct (n <=? retries)%nat; discriminate.
  - discriminate.
  - destruct (n <=? retries)%nat eqn:Hle;
      [rewrite fst_call; now apply Hnext | discriminate].
  - destruct (n <=? retries)%nat eqn:Hle; [|discriminate].
    rewrite fst_call. cbn [fst]. apply race_settles. now apply Hnext.
  - destruct (n <=? retries)%nat eqn:Hle;
      [rewrite fst_call; now apply Hnext | discriminate].
  - destruct (n <=? retries)%nat eqn:Hle;
      [rewrite fst_call; now apply Hnext | discriminate].
Qed.

Lemma generateWithHuggingFace_settles (prompt : string) :
  fst (generateWithHuggingFace w prompt) <> Pending.
Proof.
  unfold generateWithHuggingFace, generateWithHuggingFaceRetries.
  apply attemptRequest_settles; lia.
Qed.

Lemma withPrompt_pair (p : string) (m : Async Result) :
  withPrompt p m = (fst (withPrompt p m), snd m).
Proof. destruct m as [[|r|e] log]; reflexivity. Qed.

Lemma withPrompt_call (p : string) (c : Call) (m : Async Result) :
  call c (withPrompt p m) = withPrompt p (call c m).
Proof. destruct m as [[|r|e] log]; reflexivity. Qed.

Lemma withPrompt_race (p : string) (b : bool) (m m' : Async Result)
    (log : list Call) :
  (race b (fst (withPrompt p m)) (fst (withPrompt p m')), log)
  = withPrompt p (race b (fst m) (fst m'), log).
Proof.
  destruct m as [[|r|e] l], m' as [[|r'|e'] l'], b; reflexivity.
Qed.

(** The prompt is only passed through to the result. *)
Lemma attemptRequest_prompt (p q : string) (retries fuel : nat) :
  forall (chain : list nat) (n : nat),
    attemptRequest w p retries fuel chain n
    = withPrompt p (attemptRequest w q retries fuel chain n).
Proof.
  induction fuel as [|fuel IH]; intros chain n; [reflexivity|].
  cbn [attemptRequest].
  rewrite (IH chain (n + 1)%nat), (IH (n :: chain) (n + 1)%nat).
  set (next := attemptRequest w q retries fuel chain (n + 1)).
  set (stray := attemptRequest w q retries fuel (n :: chain) (n + 1)).
  assert (Hsnd : forall m : Async Result, snd (withPrompt p m) = snd m).
  { intros [[|r|e] log]; reflexivity. }
  rewrite !Hsnd.
  destruct (huggingFace w chain n) as [status ct data | [ab|] | msg | [ab|] | msg].
  - destruct (status =? 200)%Z; [reflexivity|].
    destruct ((status =? 503)%Z && (n <=? retries)%nat);
      [now rewrite !withPrompt_call|].
    destruct ((status =? 429)%Z && (n <=? retries)%nat);
      [now rewrite !withPrompt_call|].
    reflexivity.
  - destruct (n <=? retries)%nat; reflexivity.
  - reflexivity.
  - destruct (n <=? retries)%nat; [now rewrite !withPrompt_call | reflexivity].
  - destruct (n <=? retries)%nat; [|reflexivity].
    rewrite withPrompt_race. now rewrite !withPrompt_call.
  - destruct (n <=? retries)%nat; [now rewrite !withPrompt_call | reflexivity].
  - destruct (n <=? retries)%nat; [now rewrite !withPrompt_call | reflexivity].
Qed.

Lemma generateWithHuggingFace_prompt (p q : string) :
  generateWithHuggingFace w p = withPrompt p (generateWithHuggingFace w q).
Proof. apply attemptRequest_prompt. Qed.

Lemma generateWithReplicate_prompt (p q : string) :
  generateWithReplicate w p = withPrompt p (generateWithReplicate w q).
Proof.
  unfold generateWithReplicate.
  destruct (replicate w) as [status data [msg|] | msg |]; try reflexivity.
  destruct (status =? 201)%Z; reflexivity.
Qed.

Lemma resolved_withPrompt (p : string) (m : Async Result) :
  resolved (withPrompt p m) = resolved m.
Proof. destruct m as [[|r|e] log]; reflexivity. Qed.

Lemma rejected_withPrompt (p : string) (m : Async Result) :
  rejected (withPrompt p m) = rejected m.
Proof. destruct m as [[|r|e] log]; reflexivity. Qed.

(** The backup client makes one request; its promise stays pending only
    where the request stays without an event. *)
Lemma generateWithReplicate_once (prompt : string) :
  snd (generateWithReplicate w prompt) = [RequestReplicate]
  /\ (fst (generateWithReplicate w prompt) = Pending <-> replicate w = RepSilent).
Proof.
  unfold generateWithReplicate. rewrite snd_call, fst_call.
  destruct (replicate w) as [status data [msg|] | msg |];
    try (split; [reflexivity | split; discriminate]).
  - destruct (status =? 201)%Z; (split; [reflexivity | split; discriminate]).
  - split; [reflexivity | split; reflexivity].
Qed.

(** Whatever the backup client resolves with is the fixed SVG of its stub. *)
Lemma generateWithReplicate_resolved (prompt : string) (r : Result) (log : list Call) :
  generateWithReplicate w prompt = (Resolved r, log) ->
  r = {| imageUrl := "data:image/svg+xml;base64," ++ base64 replicateSvg;
         prompt := prompt |}
  /\ log = [RequestReplicate].
Proof.
  unfold generateWithReplicate. rewrite call_pair.
  destruct (replicate w) as [status data [msg|] | msg |]; try discriminate.
  destruct (status =? 201)%Z; [|discriminate].
  unfold resolve. cbn [fst snd]. intros H. injection H as <- <-.
  split; reflexivity.
Qed.

(** The primary client resolves with a JPEG data URL only. *)
Lemma attemptRequest_resolved (prompt : string) (retries fuel : nat) :
  forall (chain : list nat) (n : nat) (r : Result),
    fst (attemptRequest w prompt retries fuel chain n) = Resolved r ->
    exists data, r = {| imageUrl := "data:image/jpeg;base64," ++ base64 data;
                        prompt := prompt |}.
Proof.
  induction fuel as [|fuel IH]; intros chain n r; [discriminate|].
  cbn [attemptRequest]. rewrite fst_call.
  destruct (huggingFace w chain n) as [status ct data | [ab|] | msg | [ab|] | msg].
  - destruct (status =? 200)%Z.
    { cbn. intros H. injection H as <-. now exists data. }
    destruct ((status =? 503)%Z && (n <=? retries)%nat);
      [rewrite fst_call; apply IH|].
    destruct ((status =? 429)%Z && (n <=? retries)%nat);
      [rewrite fst_call; apply IH|].
    discriminate.
  - destruct (n <=? retries)%nat; discriminate.
  - discriminate.
  - destruct (n <=? retries)%nat; [rewrite fst_call; apply IH | discriminate].
  - destruct (n <=? retries)%nat; [|discriminate].
    rewrite fst_call. cbn [fst].
    destruct (race_cases (settlesFirst w chain n)
                (fst (attemptRequest w prompt retries fuel chain (n + 1)))
                (fst (attemptRequest w prompt retries fuel (n :: chain) (n + 1))))
      as [-> | ->]; apply IH.
  - destruct (n <=? retries)%nat; [rewrite fst_call; apply IH | discriminate].
  - destruct (n <=? retries)%nat; [rewrite fst_call; apply IH | discriminate].
Qed.

Lemma generateWithHuggingFace_resolved (prompt : string) (r : Result)
    (log : list Call) :
  generateWithHuggingFace w prompt = (Resolved r, log) ->
  exists data, r = {| imageUrl := "data:image/jpeg;base64," ++ base64 data;
                      prompt := prompt |}.
Proof.
  intros H. apply (attemptRequest_resolved prompt 3 4 [] 1).
  unfold generateWithHuggingFace, generateWithHuggingFaceRetries in H.
  now rewrite H.
Qed.

(** Counting across chains. *)
Lemma attempts_app (log log' : list Call) :
  attempts (log ++ log') = (attempts log + attempts log')%nat.
Proof. unfold attempts. now rewrite filter_app, length_app. Qed.

Lemma backupCalls_app (log log' : list Call) :
  backupCalls (log ++ log') = (backupCalls log + backupCalls log')%nat.
Proof. unfold backupCalls. now rewrite filter_app, length_app. Qed.

Lemma aside_counts (chain : list nat) (c : Call) :
  isHuggingFaceRequest (aside chain c) = isHuggingFaceRequest c
  /\ isReplicateRequest (aside chain c) = isReplicateRequest c.
Proof. destruct c; split; reflexivity. Qed.

Lemma attempts_aside (chain : list nat) (log : list Call) :
  attempts (map (aside chain) log) = attempts log
  /\ backupCalls (map (aside chain) log) = backupCalls log.
Proof.
  unfold attempts, backupCalls.
  induction log as [|c log [IH IH']]; [split; reflexivity|].
  cbn [map filter].
  destruct (aside_counts chain c) as [-> ->].
  destruct (isHuggingFaceRequest c), (isReplicateRequest c);
    cbn [length]; split; congruence.
Qed.

(** The requests of the primary client, whatever the provider does: every
    attempt within the budget may be followed by two chains. *)
Lemma attemptRequest_attempts (prompt : string) (retries fuel : nat) :
  forall (chain : list nat) (n : nat),
    (attempts (snd (attemptRequest w prompt retries fuel chain n)) + 1
     <= 2 ^ fuel)%nat.
Proof.
  induction fuel as [|fuel IH]; intros chain n; [cbn; lia|].
  pose proof (IH chain (n + 1)%nat) as Hnext.
  pose proof (IH (n :: chain) (n + 1)%nat) as Hstray.
  assert (Hpow : (2 ^ S fuel = 2 * 2 ^ fuel)%nat) by (cbn; lia).
  assert (Hpos : (1 <= 2 ^ fuel)%nat).
  { clear. induction fuel; cbn; lia. }
  cbn [attemptRequest]. rewrite snd_call.
  change (attempts (RequestHuggingFace n :: ?l)) with (S (attempts l)).
  set (next := attemptRequest w prompt retries fuel chain (n + 1)) in *.
  set (stray := attemptRequest w prompt retries fuel (n :: chain) (n + 1)) in *.
  assert (Hlog : attempts (map (aside (n :: chain)) (SetTimeout 2000 :: snd stray))
                 = attempts (snd stray)).
  { now rewrite (proj1 (attempts_aside _ _)). }
  assert (Hretry : forall ms, (S (attempts (snd (call (SetTimeout ms) next))) + 1
                               <= 2 ^ S fuel)%nat).
  { intros ms. rewrite snd_call.
    change (attempts (SetTimeout ms :: ?l)) with (attempts l). lia. }
  assert (Hsettle : forall o : Outcome Result,
             (S (attempts (snd (o, @nil Call))) + 1 <= 2 ^ S fuel)%nat).
  { intros o. cbn. lia. }
  destruct (huggingFace w chain n) as [status ct data | [ab|] | msg | [ab|] | msg].
  - destruct (status =? 200)%Z; [apply Hsettle|].
    destruct ((status =? 503)%Z && (n <=? retries)%nat); [apply Hretry|].
    destruct ((status =? 429)%Z && (n <=? retries)%nat); [apply Hretry|].
    apply Hsettle.
  - destruct (n <=? retries)%nat; [|apply Hsettle].
    cbn [snd]. rewrite Hlog. lia.
  - apply Hsettle.
  - destruct (n <=? retries)%nat; [apply Hretry | apply Hsettle].
  - destruct (n <=? retries)%nat; [|apply Hsettle].
    rewrite snd_call. cbn [snd].
    change (attempts (SetTimeout 2000 :: ?l)) with (attempts l).
    rewrite attempts_app, Hlog. lia.
  - destruct (n <=? retries)%nat; [apply Hretry | apply Hsettle].
  - destruct (n <=? retries)%nat; [apply Hretry | apply Hsettle].
Qed.

(** The primary client never calls the backup provider. *)
Lemma attemptRequest_no_backup (prompt : string) (retries fuel : nat) :
  forall (chain : list nat) (n : nat),
    backupCalls (snd (attemptRequest w prompt retries fuel chain n)) = 0%nat.
Proof.
  induction fuel as [|fuel IH]; intros chain n; [reflexivity|].
  pose proof (IH chain (n + 1)%nat) as Hnext.
  pose proof (IH (n :: chain) (n + 1)%nat) as Hstray.
  cbn [attemptRequest]. rewrite snd_call.
  change (backupCalls (RequestHuggingFace n :: ?l)) with (backupCalls l).
  set (next := attemptRequest w prompt retries fuel chain (n + 1)) in *.
  set (stray := attemptRequest w prompt retries fuel (n :: chain) (n + 1)) in *.
  assert (Hlog : backupCalls (map (aside (n :: chain)) (SetTimeout 2000 :: snd stray))
                 = 0%nat).
  { now rewrite (proj2 (attempts_aside _ _)). }
  assert (Hretry : forall ms, backupCalls (snd (call (SetTimeout ms) next)) = 0%nat).
  { intros ms. now rewrite snd_call. }
  destruct (huggingFace w chain n) as [status ct data | [ab|] | msg | [ab|] | msg].
  - destruct (status =? 200)%Z; [reflexivity|].
    destruct ((status =? 503)%Z && (n <=? retries)%nat); [apply Hretry|].
    destruct ((status =? 429)%Z && (n <=? retries)%nat); [apply Hretry|].
    reflexivity.
  - destruct (n <=? retries)%nat; [exact Hlog | reflexivity].
  - reflexivity.
  - destruct (n <=? retries)%nat; [apply Hretry | reflexivity].
  - destruct (n <=? retries)%nat; [|reflexivity].
    rewrite snd_call. cbn [snd].
    change (backupCalls (SetTimeout 2000 :: ?l)) with (backupCalls l).
    now rewrite backupCalls_app, Hlog, Hnext.
  - destruct (n <=? retries)%nat; [apply Hretry | reflexivity].
  - destruct (n <=? retries)%nat; [apply Hretry | reflexivity].
Qed.

End Clients.

(** ** The fallback chain and the handler *)

Section Handler.

Import Simple.

Variable w : World.

Lemma includes_inv (valid : list string) (v : json) :
  includesValue valid v = true -> exists s, v = JStr s /\ In s valid.
Proof.
  destruct v as [| b | n | s | items | fields]; try discriminate.
  cbn. intros H. exists s. split; [reflexivity | now apply arrayIncludes_In].
Qed.

(** A gradient stop taken from entries that [join] could convert can be
    converted too. *)
Lemma printable_stop (items : list json) (i : nat) (d : string) :
  forallb printable items = true ->
  printable (orElse (item (JArr items) i) (JStr d)) = true.
Proof.
  intros Hall. cbn [item].
  destruct (nth_error items i) as [c|] eqn:Hi; cbn [orElse]; [|reflexivity].
  destruct (ToBoolean c); [|reflexivity].
  apply nth_error_In in Hi. rewrite forallb_forall in Hall. now apply Hall.
Qed.

Lemma placeholder_resolves
    (template : string -> string -> string -> string -> string -> string)
    (colors : json) (g s o prompt : string) :
  printable (orElse (item colors 0) (JStr "#FF6B6B")) = true ->
  printable (orElse (item colors 1) (JStr "#4ECDC4")) = true ->
  placeholder template (JStr g) (JStr s) (JStr o) colors prompt
  = (Resolved {| imageUrl := placeholderUrl template (JStr g) (JStr s) (JStr o) colors;
                 prompt := prompt |}, []).
Proof.
  intros H0 H1. unfold placeholder, callToString. rewrite H0, H1. reflexivity.
Qed.

(** Every run of the chain on validated preferences resolves along one of
    the four paths of [ChainRun], unless the primary client rejects and
    the request to the backup provider stays without an event: then the
    chain is left pending after that request. *)
Lemma fallbackChain_run (gender occasion style colors demoMode : json)
    (prompt : string) :
  includesValue validGenders gender = true ->
  includesValue validOccasions occasion = true ->
  includesValue validStyles style = true ->
  printable (orElse (item colors 0) (JStr "#FF6B6B")) = true ->
  printable (orElse (item colors 1) (JStr "#4ECDC4")) = true ->
  (exists tier result log,
      fallbackChain w gender occasion style colors demoMode prompt
        = (Resolved result, log)
      /\ ChainRun w gender occasion style colors demoMode prompt tier result log)
  \/ (forcedDemo w demoMode = false
      /\ replicate w = RepSilent
      /\ exists apiError log,
           generateWithHuggingFace w prompt = (Rejected apiError, log)
           /\ fallbackChain w gender occasion style colors demoMode prompt
              = (Pending, (log ++ [RequestReplicate])%list)).
Proof.
  intros Hg Ho Hs H0 H1.
  destruct (includes_inv _ _ Hg) as [g [-> _]].
  destruct (includes_inv _ _ Ho) as [o [-> _]].
  destruct (includes_inv _ _ Hs) as [s [-> _]].
  unfold fallbackChain.
  destruct (forcedDemo w demoMode) eqn:Hforced.
  - left. rewrite (placeholder_resolves _ _ _ _ _ _ H0 H1).
    eexists _, _, _. split; [reflexivity|]. now constructor.
  - pose proof (generateWithHuggingFace_settles w prompt) as Hsettle.
    destruct (generateWithHuggingFace w prompt) as [[|r|apiError] log] eqn:Ehf.
    + now contradiction Hsettle.
    + left. exists Primary, r, log. split; [reflexivity|]. now constructor.
    + destruct (generateWithReplicate_once w prompt) as [Hlog Hpending].
      destruct (generateWithReplicate w prompt) as [[|r|replicateError] log'] eqn:Erep;
        cbn [fst snd] in Hlog, Hpending; subst log'.
      * right. split; [reflexivity|]. split; [now apply Hpending|].
        exists apiError, log. split; reflexivity.
      * left. exists Backup, r, (log ++ [RequestReplicate])%list.
        split; [reflexivity|].
        now apply RunBackup with (apiError := apiError).
      * left. rewrite (placeholder_resolves _ _ _ _ _ _ H0 H1). unfold tryCatch.
        eexists Placeholder, _, _. split.
        { rewrite app_nil_r. reflexivity. }
        now apply RunFallback with (apiError := apiError)
                                   (replicateError := replicateError).
Qed.

Lemma ChainRun_prompt (gender occasion style colors demoMode : json)
    (prompt : string) (tier : Tier) (result : Result) (log : list Call) :
  ChainRun w gender occasion style colors demoMode prompt tier result log ->
  Simple.prompt result = prompt.
Proof.
  intros H. inversion H; subst; clear H; try reflexivity.
  - rewrite (generateWithHuggingFace_prompt w prompt "") in H1.
    destruct (generateWithHuggingFace w "") as [[|r|e] l]; cbn in H1;
      try discriminate.
    injection H1 as <- _. reflexivity.
  - now destruct (generateWithReplicate_resolved w _ _ _ H2) as [-> _].
Qed.

Lemma ChainRun_producer (gender occasion style colors demoMode : json)
    (prompt : string) (tier : Tier) (result : Result) (log : list Call) :
  ChainRun w gender occasion style colors demoMode prompt tier result log ->
  tier = producer w demoMode.
Proof.
  assert (Hhf : resolved (generateWithHuggingFace w "")
                = resolved (generateWithHuggingFace w prompt)).
  { rewrite (generateWithHuggingFace_prompt w prompt "").
    now rewrite resolved_withPrompt. }
  assert (Hrep : resolved (generateWithReplicate w "")
                 = resolved (generateWithReplicate w prompt)).
  { rewrite (generateWithReplicate_prompt w prompt "").
    now rewrite resolved_withPrompt. }
  intros H. unfold producer. rewrite Hhf, Hrep.
  inversion H; subst; clear H.
  - now rewrite H0.
  - rewrite H0. unfold resolved. now rewrite H1.
  - rewrite H0. unfold resolved. now rewrite H1, H2.
  - rewrite H0. unfold resolved. now rewrite H1, H2.
Qed.

(** The image of a run: which URL each tier yields. *)
Lemma ChainRun_image (gender occasion style colors demoMode : json)
    (prompt : string) (tier : Tier) (result : Result) (log : list Call) :
  ChainRun w gender occasion style colors demoMode prompt tier result log ->
  match tier with
  | Primary => exists data, imageUrl result = "data:image/jpeg;base64," ++ base64 data
  | Backup => imageUrl result = "data:image/svg+xml;base64," ++ base64 replicateSvg
  | Placeholder =>
      imageUrl result
      = placeholderUrl (if forcedDemo w demoMode then demoSvg else fallbackSvg)
          gender style occasion colors
  end.
Proof.
  intros H. inversion H; subst; clear H.
  - now rewrite H0.
  - destruct (generateWithHuggingFace_resolved w _ _ _ H1) as [data ->].
    now exists data.
  - now destruct (generateWithReplicate_resolved w _ _ _ H2) as [-> _].
  - now rewrite H0.
Qed.

(** How each tier was reached. *)
Lemma ChainRun_inv (gender occasion style colors demoMode : json)
    (prompt : string) (tier : Tier) (result : Result) (log : list Call) :
  ChainRun w gender occasion style colors demoMode prompt tier result log ->
  match tier with
  | Primary =>
      forcedDemo w demoMode = false
      /\ generateWithHuggingFace w prompt = (Resolved result, log)
  | Backup =>
      forcedDemo w demoMode = false
      /\ exists apiError l l',
           generateWithHuggingFace w prompt = (Rejected apiError, l)
           /\ generateWithReplicate w prompt = (Resolved result, l')
           /\ log = (l ++ l')%list
  | Placeholder =>
      (forcedDemo w demoMode = true /\ log = [])
      \/ (forcedDemo w demoMode = false
          /\ exists apiError l replicateError l',
               generateWithHuggingFace w prompt = (Rejected apiError, l)
               /\ generateWithReplicate w prompt = (Rejected replicateError, l')
               /\ log = (l ++ l')%list)
  end.
Proof.
  intros H. inversion H; subst; clear H.
  - left. now split.
  - now split.
  - split; [assumption|]. now exists apiError, log0, log'.
  - right. split; [assumption|]. now exists apiError, log0, replicateError, log'.
Qed.

(** The log of a run: that of the primary client, then the one request
    to the backup provider if the primary client rejected. *)
Lemma ChainRun_log (gender occasion style colors demoMode : json)
    (prompt : string) (tier : Tier) (result : Result) (log : list Call) :
  ChainRun w gender occasion style colors demoMode prompt tier result log ->
  (forcedDemo w demoMode = true /\ log = [])
  \/ (forcedDemo w demoMode = false
      /\ ((resolved (generateWithHuggingFace w prompt) = true
           /\ log = snd (generateWithHuggingFace w prompt))
          \/ (rejected (generateWithHuggingFace w prompt) = true
              /\ log = (snd (generateWithHuggingFace w prompt)
                          ++ [RequestReplicate])%list))).
Proof.
  intros H. inversion H; subst; clear H.
  - left. now split.
  - right. split; [assumption|]. left. unfold resolved. now rewrite H1.
  - right. split; [assumption|]. right. unfold rejected. rewrite H1.
    split; [reflexivity|].
    now destruct (generateWithReplicate_resolved w _ _ _ H2) as [_ ->].
  - right. split; [assumption|]. right. unfold rejected. rewrite H1.
    split; [reflexivity|].
    destruct (generateWithReplicate_once w prompt) as [Hlog _].
    rewrite H2 in Hlog. cbn [snd] in Hlog. now subst.
Qed.

(** The values left by the destructuring of a body that passes the four
    checks. *)
Lemma passesValidation_inv (body : Object) :
  passesValidation body = true ->
  includesValue validGenders (orDefault (get body "gender") (JStr "unisex")) = true
  /\ includesValue validOccasions
       (orDefault (get body "occasion") (JStr "casual")) = true
  /\ includesValue validStyles (orDefault (get body "style") (JStr "modern")) = true
  /\ (negb (isArray (orDefault (get body "colors")
                       (JArr [JStr "#FF6B6B"; JStr "#4ECDC4"])))
      || (lengthOf (orDefault (get body "colors")
                      (JArr [JStr "#FF6B6B"; JStr "#4ECDC4"])) =? 0)%nat
      || (5 <? lengthOf (orDefault (get body "colors")
                           (JArr [JStr "#FF6B6B"; JStr "#4ECDC4"])))%nat) = false
  /\ exists items,
       orDefault (get body "colors") (JArr [JStr "#FF6B6B"; JStr "#4ECDC4"])
       = JArr items
       /\ (1 <= length items)%nat /\ (length items <= 5)%nat.
Proof.
  unfold passesValidation. cbv zeta. intros Hpass.
  apply andb_prop in Hpass as [Hpass Hc].
  apply andb_prop in Hpass as [Hpass Hs].
  apply andb_prop in Hpass as [Hg Ho].
  apply negb_true_iff in Hc.
  repeat split; try assumption.
  apply orb_false_iff in Hc as [Hc H5].
  apply orb_false_iff in Hc as [Harr H0].
  destruct (orDefault (get body "colors") _) as [| b | n | s | items | fields];
    try discriminate.
  exists items. cbn [lengthOf] in H0, H5.
  apply Nat.eqb_neq in H0. apply Nat.ltb_ge in H5. repeat split; lia.
Qed.

(** What the handler does with a request that passes the four checks and
    whose colours can be joined: it runs the chain on the values left by
    the destructuring and on the prompt built from them. *)
Lemma generate_chain (body : Object) :
  passesValidation body = true ->
  printableColors body = true ->
  let gender := orDefault (get body "gender") (JStr "unisex") in
  let occasion := orDefault (get body "occasion") (JStr "casual") in
  let style := orDefault (get body "style") (JStr "modern") in
  let colors := orDefault (get body "colors") (JArr [JStr "#FF6B6B"; JStr "#4ECDC4"]) in
  let demoMode := orDefault (get body "demoMode") (JBool false) in
  exists items,
    colors = JArr items
    /\ (1 <= length items)%nat /\ (length items <= 5)%nat
    /\ forallb printable items = true
    /\ generate w body
       = match fallbackChain w gender occasion style colors demoMode
                 (inlinePrompt gender occasion style
                    (String.concat " and " (map joinItem items))) with
         | (Resolved result, log) =>
             (Resolved (success w gender occasion style colors demoMode result), log)
         | (Pending, log) => (Pending, log)
         | (Rejected message, log) =>
             (Resolved (Status500 message "Design generation failed"), log)
         end.
Proof.
  intros Hpass Hprint gender occasion style colors demoMode.
  destruct (passesValidation_inv body Hpass)
    as (Hg & Ho & Hs & Hc & items & Hitems & Hlo & Hhi).
  fold gender in Hg. fold occasion in Ho. fold style in Hs.
  fold colors in Hc, Hitems.
  unfold printableColors in Hprint. fold colors in Hprint.
  rewrite Hitems in Hprint.
  exists items. repeat split; try assumption.
  assert (Hjoin : callJoin colors " and "
                  = resolve (String.concat " and " (map joinItem items))).
  { rewrite Hitems. cbn [callJoin]. now rewrite Hprint. }
  unfold generate, generateTry.
  fold gender occasion style colors demoMode.
  rewrite Hg, Ho, Hs, Hc. cbn [negb].
  rewrite Hjoin. unfold await at 1. unfold resolve at 1.
  destruct (fallbackChain w gender occasion style colors demoMode _) as [o log].
  cbn [app].
  destruct o; unfold await, resolve, tryCatch; cbn [app];
    now rewrite ?app_nil_r.
Qed.

(** Such a request is answered with [success] on the result of a run of
    the chain, or is left without an answer where the chain is left
    pending. *)
Lemma generate_accepted (body : Object) :
  passesValidation body = true ->
  printableColors body = true ->
  let gender := orDefault (get body "gender") (JStr "unisex") in
  let occasion := orDefault (get body "occasion") (JStr "casual") in
  let style := orDefault (get body "style") (JStr "modern") in
  let colors := orDefault (get body "colors") (JArr [JStr "#FF6B6B"; JStr "#4ECDC4"]) in
  let demoMode := orDefault (get body "demoMode") (JBool false) in
  exists items,
    colors = JArr items
    /\ (1 <= length items)%nat /\ (length items <= 5)%nat
    /\ let prompt :=
         inlinePrompt gender occasion style
           (String.concat " and " (map joinItem items)) in
       (exists tier result log,
           ChainRun w gender occasion style colors demoMode prompt tier result log
           /\ generate w body
              = (Resolved (success w gender occasion style colors demoMode result), log))
       \/ (forcedDemo w demoMode = false
           /\ replicate w = RepSilent
           /\ exists apiError log,
                generateWithHuggingFace w prompt = (Rejected apiError, log)
                /\ generate w body = (Pending, (log ++ [RequestReplicate])%list)).
Proof.
  intros Hpass Hprint gender occasion style colors demoMode.
  destruct (generate_chain body Hpass Hprint)
    as (items & Hitems & Hlo & Hhi & Hall & Hgen).
  fold gender occasion style colors demoMode in Hitems, Hgen.
  destruct (passesValidation_inv body Hpass) as (Hg & Ho & Hs & _).
  fold gender in Hg. fold occasion in Ho. fold style in Hs.
  exists items. repeat split; try assumption.
  intros prompt. fold prompt in Hgen.
  destruct (fallbackChain_run gender occasion style colors demoMode prompt Hg Ho Hs)
    as [(tier & result & log & Hchain & Hrun)
       | (Hforced & Hsilent & apiError & log & Hhf & Hchain)].
  - rewrite Hitems. now apply printable_stop.
  - rewrite Hitems. now apply printable_stop.
  - left. exists tier, result, log. split; [exact Hrun|].
    now rewrite Hgen, Hchain.
  - right. repeat split; try assumption.
    exists apiError, log. split; [exact Hhf|].
    now rewrite Hgen, Hchain.
Qed.

(** A request that passes the four checks with a colour that cannot be
    converted to text is answered with a 500 by the [catch] of the
    handler, nothing having been called. *)
Lemma generate_unprintable (body : Object) :
  passesValidation body = true ->
  printableColors body = false ->
  generate w body
  = (Resolved (Status500 "Cannot convert object to primitive value"
                 "Design generation failed"), []).
Proof.
  intros Hpass Hprint.
  destruct (passesValidation_inv body Hpass)
    as (Hg & Ho & Hs & Hc & items & Hitems & _).
  unfold printableColors in Hprint. rewrite Hitems in Hprint.
  unfold generate, generateTry.
  rewrite Hg, Ho, Hs, Hc. cbn [negb].
  rewrite Hitems. cbn [callJoin]. rewrite Hprint. reflexivity.
Qed.

(** A request that fails one of them is answered with a 400, nothing
    having been called. *)
Lemma generate_refused (body : Object) :
  passesValidation body = false ->
  exists error message, generate w body = (Resolved (Status400 error message), []).
Proof.
  intros Hfail. unfold passesValidation in Hfail.
  unfold generate, generateTry.
  destruct (includesValue validGenders _); [|eexists _, _; reflexivity].
  destruct (includesValue validOccasions _); [|eexists _, _; reflexivity].
  destruct (includesValue validStyles _); [|eexists _, _; reflexivity].
  cbn [andb negb] in Hfail |- *.
  apply negb_false_iff in Hfail. rewrite Hfail.
  eexists _, _; reflexivity.
Qed.

End Handler.

(** ** Sanity checks of the embedding *)

Example base64_Man : base64 "Man" = "TWFu".
Proof. reflexivity. Qed.

Example base64_padding : base64 "light w" = "bGlnaHQgdw==".
Proof. reflexivity. Qed.

Example base64_jpegBytes : base64 Scenario.jpegBytes = "/9j/svg+xmlA".
Proof. reflexivity. Qed.

Example decimal_status : decimal 503 = "503".
Proof. reflexivity. Qed.

Example toUpperCase_style : toUpperCase "streetwear" = "STREETWEAR".
Proof. reflexivity. Qed.

Example offline_log :
  snd (Simple.generate Scenario.offline [])
  = [Simple.RequestHuggingFace 1; Simple.SetTimeout 2000;
     Simple.RequestHuggingFace 2; Simple.SetTimeout 2000;
     Simple.RequestHuggingFace 3; Simple.SetTimeout 2000;
     Simple.RequestHuggingFace 4; Simple.RequestReplicate].
Proof. reflexivity. Qed.

Example prompt_of_defaults :
  HuggingFace.generateFashionPrompt
    {| HuggingFace.gender := "unisex"; HuggingFace.occasion := "casual";
       HuggingFace.style := "modern";
       HuggingFace.colors := Some ["#FF6B6B"; "teal"];
       HuggingFace.patterns := Some ["floral"]; HuggingFace.materials := None;
       HuggingFace.mood := None; HuggingFace.season := Some "summer" |}
  = "A professional fashion design illustration of a modern casual outfit for unisex, featuring coral red and teal colors, with floral patterns, with a bold and empowering design. ideal for warm weather with breathable fabrics. High-quality fashion illustration, clean professional presentation, fashion portfolio style, detailed clothing design, modern aesthetic, studio lighting, white background, full outfit view, fashion sketch style, detailed fabric textures, professional fashion photography style".
Proof. reflexivity. Qed.

(** ** Validation *)

Section Validation.

Import Simple.

Lemma listed_includes (valid : list string) (field : option json) (d : json) :
  listed valid field -> includesValue valid (orDefault field d) = true.
Proof.
  intros [s [-> Hin]]. cbn. now apply arrayIncludes_In.
Qed.

Lemma ValidOrMissing_passes (body : Object) :
  ValidOrMissing body -> passesValidation body = true.
Proof.
  intros [Hg [Ho [Hs Hc]]]. unfold passesValidation.
  repeat (apply andb_true_intro; split).
  - destruct Hg as [-> | Hg]; [reflexivity | now apply listed_includes].
  - destruct Ho as [-> | Ho]; [reflexivity | now apply listed_includes].
  - destruct Hs as [-> | Hs]; [reflexivity | now apply listed_includes].
  - destruct Hc as [-> | [items [-> [Hlo Hhi]]]]; [reflexivity|].
    cbn [orDefault isArray lengthOf negb orb].
    apply negb_true_iff, orb_false_iff. split.
    + apply Nat.eqb_neq. lia.
    + apply Nat.ltb_ge. lia.
Qed.

Lemma ValidPreferences_ValidOrMissing (body : Object) :
  ValidPreferences body -> ValidOrMissing body.
Proof.
  intros [Hg [Ho [Hs Hc]]]. repeat split; now right.
Qed.

Lemma ValidPreferences_passes (body : Object) :
  ValidPreferences body -> passesValidation body = true.
Proof.
  intros H. now apply ValidOrMissing_passes, ValidPreferences_ValidOrMissing.
Qed.

(** The flag of a response whose image URL mentions [svg+xml]. *)
Lemma isDemo_svg (w : World) (demoMode : json) (result : Result) :
  JS.includes (imageUrl result) "svg+xml" = true ->
  ToBoolean (isDemo w demoMode result) = true
  /\ (ToBoolean demoMode = false -> isDemo w demoMode result = JBool true).
Proof.
  intros Hsvg. unfold isDemo. rewrite Hsvg, orb_true_r.
  destruct (ToBoolean demoMode) eqn:Hd; split; auto; discriminate.
Qed.

Lemma isDemo_forced (w : World) (demoMode : json) (result : Result) :
  forcedDemo w demoMode = true ->
  ToBoolean (isDemo w demoMode result) = true.
Proof.
  unfold forcedDemo, isDemo. intros Hforced.
  destruct (ToBoolean demoMode) eqn:Hd; [assumption|].
  cbn in Hforced. now rewrite Hforced.
Qed.

End Validation.

(** ** The claims *)

(** What a successful answer was built from, and by which tier. *)
Lemma generate_success_items (w : Simple.World) (body : Simple.Object)
    (message : string) (design : Simple.Design) (flag : Simple.json)
    (log : list Simple.Call) :
  Simple.generate w body
    = (Simple.Resolved (Simple.Status200 message design flag), log) ->
  let gender := Simple.orDefault (Simple.get body "gender") (Simple.JStr "unisex") in
  let occasion := Simple.orDefault (Simple.get body "occasion") (Simple.JStr "casual") in
  let style := Simple.orDefault (Simple.get body "style") (Simple.JStr "modern") in
  let colors := Simple.orDefault (Simple.get body "colors")
                  (Simple.JArr [Simple.JStr "#FF6B6B"; Simple.JStr "#4ECDC4"]) in
  let demoMode := Simple.orDefault (Simple.get body "demoMode") (Simple.JBool false) in
  Simple.passesValidation body = true
  /\ Simple.printableColors body = true
  /\ exists items result,
       colors = Simple.JArr items
       /\ Simple.ChainRun w gender occasion style colors demoMode
            (Simple.inlinePrompt gender occasion style
               (String.concat " and " (map Simple.joinItem items)))
            (Simple.producer w demoMode) result log
       /\ design = Simple.designResponse w gender occasion style colors result
       /\ flag = Simple.isDemo w demoMode result.
Proof.
  intros Hgen gender occasion style colors demoMode.
  destruct (Simple.passesValidation body) eqn:Hpass.
  - destruct (Simple.printableColors body) eqn:Hprint.
    + destruct (generate_accepted w body Hpass Hprint)
        as (items & Hitems & _ & _ & [(tier & result & log' & Hrun & Hgen')
                                     | (_ & _ & e & l & _ & Hgen')]).
      * fold gender occasion style colors demoMode in Hitems, Hrun, Hgen'.
        rewrite Hgen in Hgen'. unfold Simple.success in Hgen'.
        injection Hgen' as _ -> -> ->.
        split; [reflexivity|]. split; [reflexivity|].
        exists items, result.
        rewrite <- (ChainRun_producer w _ _ _ _ _ _ _ _ _ Hrun).
        now repeat split.
      * rewrite Hgen in Hgen'. discriminate.
    + rewrite (generate_unprintable w body Hpass Hprint) in Hgen. discriminate.
  - destruct (generate_refused w body Hpass) as [error [message' Hgen']].
    rewrite Hgen in Hgen'. discriminate.
Qed.

Lemma generate_success_inv (w : Simple.World) (body : Simple.Object)
    (message : string) (design : Simple.Design) (flag : Simple.json)
    (log : list Simple.Call) :
  Simple.generate w body
    = (Simple.Resolved (Simple.Status200 message design flag), log) ->
  let gender := Simple.orDefault (Simple.get body "gender") (Simple.JStr "unisex") in
  let occasion := Simple.orDefault (Simple.get body "occasion") (Simple.JStr "casual") in
  let style := Simple.orDefault (Simple.get body "style") (Simple.JStr "modern") in
  let colors := Simple.orDefault (Simple.get body "colors")
                  (Simple.JArr [Simple.JStr "#FF6B6B"; Simple.JStr "#4ECDC4"]) in
  let demoMode := Simple.orDefault (Simple.get body "demoMode") (Simple.JBool false) in
  exists items result,
    Simple.ChainRun w gender occasion style colors demoMode
      (Simple.inlinePrompt gender occasion style
         (String.concat " and " (map Simple.joinItem items)))
      (Simple.producer w demoMode) result log
    /\ design = Simple.designResponse w gender occasion style colors result
    /\ flag = Simple.isDemo w demoMode result.
Proof.
  intros Hgen gender occasion style colors demoMode.
  destruct (generate_success_items w body message design flag log Hgen)
    as (_ & _ & items & result & _ & Hrun & Hdesign & Hflag).
  now exists items, result.
Qed.

(** C1.  Two valid inputs that get no result.  Both bodies hold a listed
    gender, occasion and style and an array of one to five colours.  The
    one colour of the first is an object with a property named [toString]:
    the prompt cannot be built, and the handler answers 500 in every
    world, before any provider is called.  The second is answered by
    nobody when the primary provider refuses the token and the backup
    provider takes the request and stays silent: the request to the
    backup provider has no timer, the promise of the handler stays
    pending after it, and the placeholder is never reached. *)
Theorem valid_input_without_result :
  Simple.ValidPreferences Cases.unprintableRequest
  /\ (forall w : Simple.World,
        Simple.generate w Cases.unprintableRequest
        = (Simple.Resolved
             (Simple.Status500 "Cannot convert object to primitive value"
                "Design generation failed"), []))
  /\ Simple.ValidPreferences Scenario.casualRequest
  /\ Simple.generate Cases.silentBackup Scenario.casualRequest
     = (Simple.Pending, [Simple.RequestHuggingFace 1; Simple.RequestReplicate]).
Proof.
  assert (Hvalid : forall g o s items,
             In g Simple.validGenders -> In o Simple.validOccasions ->
             In s Simple.validStyles ->
             (1 <= length items)%nat -> (length items <= 5)%nat ->
             Simple.ValidPreferences
               [ ("gender", Simple.JStr g); ("occasion", Simple.JStr o);
                 ("style", Simple.JStr s); ("colors", Simple.JArr items) ]).
  { intros g o s items Hg Ho Hs Hlo Hhi. repeat split.
    - exists g. now split.
    - exists o. now split.
    - exists s. now split.
    - exists items. now repeat split. }
  split; [apply Hvalid; simpl; auto 10|].
  split; [intros w; apply generate_unprintable; reflexivity|].
  split; [apply Hvalid; simpl; auto 10|].
  reflexivity.
Qed.

(** X24.  What the fallback chain does guarantee.  On an input that is
    valid in the same sense and whose colours can all be converted to
    text, the handler answers with a success whenever the request to the
    backup provider, if it is made, ends or fails: no rejection of a
    provider promise reaches the caller.  When both provider promises
    reject, the image is the SVG placeholder built locally from the
    preferences, and the demo flag is true. *)
Theorem generate_succeeds (w : Simple.World) (body : Simple.Object) :
  Simple.ValidPreferences body ->
  Simple.printableColors body = true ->
  Simple.replicate w <> Simple.RepSilent ->
  let gender := Simple.orDefault (Simple.get body "gender") (Simple.JStr "unisex") in
  let occasion := Simple.orDefault (Simple.get body "occasion") (Simple.JStr "casual") in
  let style := Simple.orDefault (Simple.get body "style") (Simple.JStr "modern") in
  let colors := Simple.orDefault (Simple.get body "colors")
                  (Simple.JArr [Simple.JStr "#FF6B6B"; Simple.JStr "#4ECDC4"]) in
  let demoMode := Simple.orDefault (Simple.get body "demoMode") (Simple.JBool false) in
  exists message design flag log,
    Simple.generate w body = (Simple.Resolved (Simple.Status200 message design flag), log)
    /\ (Simple.primaryFails w -> Simple.backupFails w ->
        map Simple.url (Simple.images design)
        = [Simple.placeholderUrl
             (if Simple.forcedDemo w demoMode then Simple.demoSvg else Simple.fallbackSvg)
             gender style occasion colors]
        /\ Simple.ToBoolean flag = true
        /\ (Simple.ToBoolean demoMode = false -> flag = Simple.JBool true)).
Proof.
  intros Hvalid Hprint Hanswers gender occasion style colors demoMode.
  destruct (generate_accepted w body (ValidPreferences_passes body Hvalid) Hprint)
    as (items & Hitems & _ & _ & [(tier & result & log & Hrun & Hgen)
                                 | (_ & Hsilent & _)]);
    [|now contradiction Hanswers].
  fold gender occasion style colors demoMode in Hitems, Hrun, Hgen.
  eexists _, _, _, log. split; [exact Hgen|].
  intros Hprimary Hbackup.
  pose proof (ChainRun_image w _ _ _ _ _ _ _ _ _ Hrun) as Himage.
  pose proof (ChainRun_inv w _ _ _ _ _ _ _ _ _ Hrun) as Hinv.
  destruct tier.
  - destruct Hinv as [_ Hhf].
    specialize (Hprimary (Simple.inlinePrompt gender occasion style
                            (String.concat " and " (map Simple.joinItem items)))).
    unfold Simple.rejected in Hprimary. rewrite Hhf in Hprimary. discriminate.
  - destruct Hinv as [_ [e [l [l' [_ [Hrep _]]]]]].
    specialize (Hbackup (Simple.inlinePrompt gender occasion style
                           (String.concat " and " (map Simple.joinItem items)))).
    unfold Simple.rejected in Hbackup. rewrite Hrep in Hbackup. discriminate.
  - cbn [Simple.designResponse Simple.images map Simple.url].
    assert (Hsvg : JS.includes (Simple.imageUrl result) "svg+xml" = true).
    { rewrite Himage. apply includes_svg_url. }
    repeat split.
    + now rewrite Himage.
    + now apply isDemo_svg.
    + now apply isDemo_svg.
Qed.

(** An instance: a complete request while no provider can be reached. *)
Lemma generate_succeeds_witness :
  Simple.ValidPreferences Scenario.casualRequest
  /\ exists message design log,
       Simple.generate Scenario.offline Scenario.casualRequest
       = (Simple.Resolved (Simple.Status200 message design (Simple.JBool true)), log)
       /\ map Simple.url (Simple.images design)
          = [Simple.placeholderUrl Simple.fallbackSvg
               (Simple.JStr "female") (Simple.JStr "vintage") (Simple.JStr "party")
               (Simple.JArr [Simple.JStr "#000000"; Simple.JStr "gold"; Simple.JStr "#FFFFFF"])].
Proof.
  assert (Hvalid : Simple.ValidPreferences Scenario.casualRequest).
  { repeat split; eexists; (split; [reflexivity|]); simpl; auto 10. }
  split; [exact Hvalid|].
  destruct (generate_succeeds Scenario.offline Scenario.casualRequest Hvalid)
    as [message [design [flag [log [Hgen Hfail]]]]];
    [reflexivity | discriminate |].
  destruct Hfail as [Hurl [_ Hflag]];
    [intros prompt; reflexivity | intros prompt; reflexivity |].
  exists message, design, log. split.
  - rewrite Hgen, (Hflag eq_refl). reflexivity.
  - exact Hurl.
Defined.

(** One step of the primary client on a completed response. *)
Lemma attemptRequest_end (w : Simple.World) (prompt : string) (retries fuel : nat)
    (chain : list nat) (n : nat)
    (status : Z) (contentType : option string) (data : string) :
  Simple.huggingFace w chain n = Simple.HFEnd status contentType data ->
  Simple.attemptRequest w prompt retries (S fuel) chain n
  = Simple.call (Simple.RequestHuggingFace n)
      (if (status =? 200)%Z then
         Simple.resolve {| Simple.imageUrl := "data:image/jpeg;base64," ++ base64 data;
                           Simple.prompt := prompt |}
       else if (status =? 503)%Z && (n <=? retries)%nat then
         Simple.call (Simple.SetTimeout 10000)
           (Simple.attemptRequest w prompt retries fuel chain (n + 1))
       else if (status =? 429)%Z && (n <=? retries)%nat then
         Simple.call (Simple.SetTimeout 5000)
           (Simple.attemptRequest w prompt retries fuel chain (n + 1))
       else
         Simple.reject ("Hugging Face API error: " ++ decimal status
                          ++ " - " ++ bufferToString data)).
Proof.
  intros Hev. cbn [Simple.attemptRequest]. now rewrite Hev.
Qed.

(** A first response that is neither 200 nor retryable ends the primary
    client after its single request. *)
Lemma generateWithHuggingFace_fatal (w : Simple.World) (prompt : string)
    (status : Z) (contentType : option string) (data : string) :
  Simple.huggingFace w [] 1 = Simple.HFEnd status contentType data ->
  status <> 200%Z -> status <> 503%Z -> status <> 429%Z ->
  Simple.generateWithHuggingFace w prompt
  = (Simple.Rejected ("Hugging Face API error: " ++ decimal status ++ " - "
                        ++ bufferToString data),
     [Simple.RequestHuggingFace 1]).
Proof.
  intros Hev H200 H503 H429.
  unfold Simple.generateWithHuggingFace, Simple.generateWithHuggingFaceRetries.
  rewrite (attemptRequest_end _ _ _ _ _ _ _ _ _ Hev).
  apply Z.eqb_neq in H200, H503, H429.
  now rewrite H200, H503, H429.
Qed.

(** C4.  When the primary provider answers 401 to the first request of a
    generation request that passed the checks and whose colours can be
    joined, exactly one request goes to the primary provider, no back-off
    delay is taken, and the next call is the one to the backup provider. *)
Theorem unauthorized_single_attempt (w : Simple.World) (body : Simple.Object)
    (contentType : option string) (data : string) :
  Simple.passesValidation body = true ->
  Simple.printableColors body = true ->
  Simple.forcedDemo w
    (Simple.orDefault (Simple.get body "demoMode") (Simple.JBool false)) = false ->
  Simple.huggingFace w [] 1 = Simple.HFEnd 401 contentType data ->
  snd (Simple.generate w body)
    = [Simple.RequestHuggingFace 1; Simple.RequestReplicate]
  /\ Simple.attempts (snd (Simple.generate w body)) = 1%nat
  /\ Simple.backupCalls (snd (Simple.generate w body)) = 1%nat.
Proof.
  intros Hpass Hprint Hforced Hev.
  assert (Hhf : forall prompt,
             Simple.generateWithHuggingFace w prompt
             = (Simple.Rejected ("Hugging Face API error: " ++ decimal 401
                                   ++ " - " ++ bufferToString data),
                [Simple.RequestHuggingFace 1])).
  { intros prompt.
    now apply generateWithHuggingFace_fatal with (contentType := contentType). }
  assert (Hlog : snd (Simple.generate w body)
                 = [Simple.RequestHuggingFace 1; Simple.RequestReplicate]).
  { destruct (generate_accepted w body Hpass Hprint)
      as (items & _ & _ & _ & [(tier & result & log & Hrun & Hgen)
                              | (_ & _ & e & l & Hrej & Hgen)]).
    - rewrite Hgen. cbn [snd].
      destruct (ChainRun_log w _ _ _ _ _ _ _ _ _ Hrun)
        as [[Hf _] | [_ [[Hres _] | [_ ->]]]].
      + rewrite Hforced in Hf. discriminate.
      + unfold Simple.resolved in Hres. rewrite Hhf in Hres. discriminate.
      + now rewrite Hhf.
    - rewrite Hgen. cbn [snd]. rewrite Hhf in Hrej.
      injection Hrej as _ <-. reflexivity. }
  rewrite Hlog. repeat split.
Qed.

(** An instance: the primary provider answers 401, the backup accepts. *)
Lemma unauthorized_single_attempt_witness :
  Simple.passesValidation Scenario.casualRequest = true
  /\ snd (Simple.generate (Scenario.answering 401 (Some "application/json") "Unauthorized")
            Scenario.casualRequest)
     = [Simple.RequestHuggingFace 1; Simple.RequestReplicate].
Proof.
  split; [reflexivity|].
  apply (unauthorized_single_attempt
           (Scenario.answering 401 (Some "application/json") "Unauthorized")
           Scenario.casualRequest (Some "application/json") "Unauthorized");
    reflexivity.
Defined.

(** C6.  A request whose [colors] field is the empty array is answered
    with a 400 before anything is called, the error being [Invalid colors]
    once the three other checks pass; and whenever the handler does
    anything but answer with a 400 (a success, a 500, a call of a
    provider, no answer at all), [colors] is an array of one to five
    entries, which is the array found in the response if it is a
    success. *)
Theorem colors_length_checked (w : Simple.World) (body : Simple.Object) :
  let colors := Simple.orDefault (Simple.get body "colors")
                  (Simple.JArr [Simple.JStr "#FF6B6B"; Simple.JStr "#4ECDC4"]) in
  (Simple.get body "colors" = Some (Simple.JArr []) ->
   (exists error message,
      Simple.generate w body = (Simple.Resolved (Simple.Status400 error message), []))
   /\ (Simple.includesValue Simple.validGenders
         (Simple.orDefault (Simple.get body "gender") (Simple.JStr "unisex")) = true ->
       Simple.includesValue Simple.validOccasions
         (Simple.orDefault (Simple.get body "occasion") (Simple.JStr "casual")) = true ->
       Simple.includesValue Simple.validStyles
         (Simple.orDefault (Simple.get body "style") (Simple.JStr "modern")) = true ->
       Simple.generate w body
       = (Simple.Resolved (Simple.Status400 "Invalid colors"
                             "Colors must be an array with 1-5 color values"), [])))
  /\ (forall outcome log,
        Simple.generate w body = (outcome, log) ->
        (forall error message,
           outcome <> Simple.Resolved (Simple.Status400 error message)) ->
        exists items,
          colors = Simple.JArr items
          /\ (1 <= length items)%nat /\ (length items <= 5)%nat
          /\ forall message design flag,
               outcome = Simple.Resolved (Simple.Status200 message design flag) ->
               Simple.colors (Simple.inputParameters design) = Simple.JArr items).
Proof.
  intros colors. split.
  - intros Hempty. split.
    + apply generate_refused. unfold Simple.passesValidation.
      rewrite Hempty. cbn [Simple.orDefault Simple.isArray Simple.lengthOf].
      cbn [length Nat.eqb negb orb]. apply andb_false_r.
    + intros Hg Ho Hs. unfold Simple.generate, Simple.generateTry.
      rewrite Hg, Ho, Hs, Hempty. reflexivity.
  - intros outcome log Hgen Hnot400.
    destruct (Simple.passesValidation body) eqn:Hpass.
    + destruct (passesValidation_inv body Hpass)
        as (_ & _ & _ & _ & items & Hitems & Hlo & Hhi).
      exists items. repeat split; try assumption.
      intros message design flag ->.
      destruct (generate_success_inv w body message design flag log Hgen)
        as (items' & result & _ & -> & _).
      cbn [Simple.designResponse Simple.inputParameters Simple.colors].
      exact Hitems.
    + destruct (generate_refused w body Hpass) as [error [message Hgen']].
      rewrite Hgen in Hgen'. injection Hgen' as -> _.
      now contradiction (Hnot400 error message).
Qed.

(** An instance: a body whose only field is an empty [colors]. *)
Lemma colors_length_checked_witness :
  Simple.get [("colors", Simple.JArr [])] "colors" = Some (Simple.JArr [])
  /\ Simple.generate Scenario.offline [("colors", Simple.JArr [])]
     = (Simple.Resolved (Simple.Status400 "Invalid colors"
                           "Colors must be an array with 1-5 color values"), []).
Proof.
  split; [reflexivity|].
  destruct (colors_length_checked Scenario.offline [("colors", Simple.JArr [])])
    as [Hempty _].
  destruct (Hempty eq_refl) as [_ Hcolors].
  apply Hcolors; reflexivity.
Defined.



(** C2, as amended.  Every successful response carries a non-empty prompt
    and exactly one provider attribution, which is the constant text
    [Hugging Face] whichever tier produced the image; its demo flag is
    truthy whenever the image comes from the backup tier or from the
    placeholder tier. *)
Theorem result_attribution (w : Simple.World) (body : Simple.Object)
    (message : string) (design : Simple.Design) (flag : Simple.json)
    (log : list Simple.Call) :
  Simple.generate w body
    = (Simple.Resolved (Simple.Status200 message design flag), log) ->
  Simple.ai_prompt (Simple.aiGeneration design) <> ""
  /\ Simple.provider (Simple.aiGeneration design) = "Hugging Face"
  /\ (Simple.producer w
        (Simple.orDefault (Simple.get body "demoMode") (Simple.JBool false))
      <> Simple.Primary ->
      Simple.ToBoolean flag = true).
Proof.
  intros Hgen.
  destruct (generate_success_inv w body message design flag log Hgen)
    as [items [result [Hrun [-> ->]]]].
  cbn [Simple.designResponse Simple.aiGeneration Simple.ai_prompt Simple.provider].
  repeat split.
  - rewrite (ChainRun_prompt w _ _ _ _ _ _ _ _ _ Hrun).
    unfold Simple.inlinePrompt. discriminate.
  - intros Htier.
    pose proof (ChainRun_image w _ _ _ _ _ _ _ _ _ Hrun) as Himage.
    apply isDemo_svg.
    destruct (Simple.producer w _); [now contradiction Htier | |];
      rewrite Himage; apply includes_svg_url.
Qed.

(** An instance: a placeholder attributed to Hugging Face. *)
Lemma result_attribution_witness :
  exists message design flag log,
    Simple.generate Scenario.offline Scenario.casualRequest
      = (Simple.Resolved (Simple.Status200 message design flag), log)
    /\ Simple.provider (Simple.aiGeneration design) = "Hugging Face"
    /\ Simple.producer Scenario.offline (Simple.JBool false) = Simple.Placeholder.
Proof.
  eexists _, _, _, _. split; [vm_compute; reflexivity|].
  split; [|reflexivity].
  eapply (result_attribution Scenario.offline Scenario.casualRequest).
  vm_compute. reflexivity.
Defined.

(** C2, as stated, fails: were the attribution that of the tier which
    produced the image, it would tell the tiers apart.  It reads the same
    for an image of the primary provider and for a placeholder. *)
Lemma provider_attribution_is_constant :
  ~ (exists label : Simple.Tier -> string,
       (forall t1 t2, label t1 = label t2 -> t1 = t2)
       /\ forall w body message design flag log,
            Simple.generate w body
              = (Simple.Resolved (Simple.Status200 message design flag), log) ->
            Simple.provider (Simple.aiGeneration design)
            = label (Simple.producer w
                       (Simple.orDefault (Simple.get body "demoMode")
                          (Simple.JBool false)))).
Proof.
  intros [label [Hinj Hlabel]].
  assert (G1 : exists message design flag log,
             Simple.generate Scenario.offline []
               = (Simple.Resolved (Simple.Status200 message design flag), log)
             /\ Simple.provider (Simple.aiGeneration design) = "Hugging Face").
  { eexists _, _, _, _. split; [vm_compute; reflexivity | reflexivity]. }
  assert (G2 : exists message design flag log,
             Simple.generate (Scenario.answering 200 (Some "image/jpeg") "image") []
               = (Simple.Resolved (Simple.Status200 message design flag), log)
             /\ Simple.provider (Simple.aiGeneration design) = "Hugging Face").
  { eexists _, _, _, _. split; [vm_compute; reflexivity | reflexivity]. }
  destruct G1 as [m1 [d1 [f1 [l1 [G1 P1]]]]].
  destruct G2 as [m2 [d2 [f2 [l2 [G2 P2]]]]].
  pose proof (Hlabel _ _ _ _ _ _ G1) as H1. rewrite P1 in H1.
  pose proof (Hlabel _ _ _ _ _ _ G2) as H2. rewrite P2 in H2.
  change (Simple.producer Scenario.offline _) with Simple.Placeholder in H1.
  change (Simple.producer (Scenario.answering _ _ _) _) with Simple.Primary in H2.
  assert (Heq : Simple.Placeholder = Simple.Primary).
  { apply Hinj. now rewrite <- H1, <- H2. }
  discriminate.
Qed.

(** The primary client on two 503 responses followed by a 200. *)
Lemma generateWithHuggingFace_loading_twice (w : Simple.World) (prompt : string)
    (ct1 ct2 ct3 : option string) (d1 d2 data : string) :
  Simple.huggingFace w [] 1 = Simple.HFEnd 503 ct1 d1 ->
  Simple.huggingFace w [] 2 = Simple.HFEnd 503 ct2 d2 ->
  Simple.huggingFace w [] 3 = Simple.HFEnd 200 ct3 data ->
  Simple.generateWithHuggingFace w prompt
  = (Simple.Resolved {| Simple.imageUrl := "data:image/jpeg;base64," ++ base64 data;
                        Simple.prompt := prompt |},
     [Simple.RequestHuggingFace 1; Simple.SetTimeout 10000;
      Simple.RequestHuggingFace 2; Simple.SetTimeout 10000;
      Simple.RequestHuggingFace 3]).
Proof.
  intros H1 H2 H3.
  unfold Simple.generateWithHuggingFace, Simple.generateWithHuggingFaceRetries.
  rewrite (attemptRequest_end _ _ _ _ _ _ _ _ _ H1).
  change (1 + 1)%nat with 2%nat.
  rewrite (attemptRequest_end _ _ _ _ _ _ _ _ _ H2).
  change (2 + 1)%nat with 3%nat.
  rewrite (attemptRequest_end _ _ _ _ _ _ _ _ _ H3).
  reflexivity.
Qed.

(** C3.  The primary provider answers 503 to the first two attempts and
    200 to the third, with nine bytes that start like a JPEG.  The handler
    sends exactly three requests to the primary provider and none to the
    backup provider, and the image of its response is the JPEG data URL of
    these bytes, produced by the primary tier; yet the response is marked
    as a placeholder: it carries [demoMode: true] and the demo message,
    because the base64 text of the bytes contains [svg+xml]. *)
Theorem loaded_image_marked_placeholder :
  exists design,
    Simple.generate (Scenario.loadingTwice Scenario.jpegBytes) Scenario.casualRequest
    = (Simple.Resolved
         (Simple.Status200
            "Demo design generated! Get a Hugging Face API token for AI generation."
            design (Simple.JBool true)),
       [Simple.RequestHuggingFace 1; Simple.SetTimeout 10000;
        Simple.RequestHuggingFace 2; Simple.SetTimeout 10000;
        Simple.RequestHuggingFace 3])
    /\ map Simple.url (Simple.images design) = ["data:image/jpeg;base64,/9j/svg+xmlA"]
    /\ Simple.forcedDemo (Scenario.loadingTwice Scenario.jpegBytes)
         (Simple.JBool false) = false
    /\ Simple.producer (Scenario.loadingTwice Scenario.jpegBytes)
         (Simple.JBool false) = Simple.Primary
    /\ Simple.huggingFace (Scenario.loadingTwice Scenario.jpegBytes) [] 1
       = Simple.HFEnd 503 (Some "application/json") "Model is loading"
    /\ Simple.huggingFace (Scenario.loadingTwice Scenario.jpegBytes) [] 2
       = Simple.HFEnd 503 (Some "application/json") "Model is loading"
    /\ Simple.huggingFace (Scenario.loadingTwice Scenario.jpegBytes) [] 3
       = Simple.HFEnd 200 (Some "image/jpeg") Scenario.jpegBytes.
Proof.
  eexists. split; [vm_compute; reflexivity|]. repeat split.
Qed.

(** X25.  Two 503 answers, then a 200.  On a request that passed the
    checks, with colours that can be joined and demo mode not forced, the
    handler sends exactly three requests to the primary provider,
    separated by the two model-loading delays, and none to the backup
    provider; the image of its response is the JPEG data URL of the body
    of the third answer, produced by the primary tier.  The response is
    marked as a real image exactly when the base64 text of that body does
    not contain [svg+xml]. *)
Theorem loading_twice_then_image (w : Simple.World) (body : Simple.Object)
    (ct1 ct2 ct3 : option string) (d1 d2 data : string) :
  Simple.passesValidation body = true ->
  Simple.printableColors body = true ->
  Simple.forcedDemo w
    (Simple.orDefault (Simple.get body "demoMode") (Simple.JBool false)) = false ->
  Simple.huggingFace w [] 1 = Simple.HFEnd 503 ct1 d1 ->
  Simple.huggingFace w [] 2 = Simple.HFEnd 503 ct2 d2 ->
  Simple.huggingFace w [] 3 = Simple.HFEnd 200 ct3 data ->
  exists design,
    Simple.generate w body
      = (Simple.Resolved
           (Simple.Status200
              (if JS.includes (base64 data) "svg+xml"
               then "Demo design generated! Get a Hugging Face API token for AI generation."
               else "Design generated successfully with Hugging Face!")
              design
              (Simple.JBool (JS.includes (base64 data) "svg+xml"))),
         [Simple.RequestHuggingFace 1; Simple.SetTimeout 10000;
          Simple.RequestHuggingFace 2; Simple.SetTimeout 10000;
          Simple.RequestHuggingFace 3])
    /\ map Simple.url (Simple.images design)
       = ["data:image/jpeg;base64," ++ base64 data]
    /\ Simple.producer w
         (Simple.orDefault (Simple.get body "demoMode") (Simple.JBool false))
       = Simple.Primary.
Proof.
  intros Hpass Hprint Hforced H1 H2 H3.
  assert (Hhf := fun prompt =>
            generateWithHuggingFace_loading_twice w prompt _ _ _ _ _ _ H1 H2 H3).
  destruct (generate_accepted w body Hpass Hprint)
    as (items & _ & _ & _ & [(tier & result & log & Hrun & Hgen)
                            | (_ & _ & e & l & Hrej & _)]);
    [|rewrite Hhf in Hrej; discriminate].
  pose proof (ChainRun_inv w _ _ _ _ _ _ _ _ _ Hrun) as Hinv.
  pose proof (ChainRun_producer w _ _ _ _ _ _ _ _ _ Hrun) as Htier.
  destruct tier.
  - destruct Hinv as [_ Hres]. rewrite Hhf in Hres. injection Hres as <- <-.
    eexists. split.
    { rewrite Hgen. unfold Simple.success, Simple.isDemo.
      unfold Simple.forcedDemo in Hforced.
      apply orb_false_iff in Hforced as [Hd He]. rewrite Hd, He.
      cbn [Simple.imageUrl orb Simple.ToBoolean].
      reflexivity. }
    split; [reflexivity | now symmetry].
  - destruct Hinv as [_ [e [l [l' [Hrej _]]]]]. rewrite Hhf in Hrej. discriminate.
  - destruct Hinv as [[Hf _] | [_ [e [l [e' [l' [Hrej _]]]]]]].
    + rewrite Hforced in Hf. discriminate.
    + rewrite Hhf in Hrej. discriminate.
Qed.

(** An instance: two 503 answers, then the five bytes of [image]. *)
Lemma loading_twice_then_image_witness :
  Simple.passesValidation Scenario.casualRequest = true
  /\ exists design,
       Simple.generate (Scenario.loadingTwice "image") Scenario.casualRequest
       = (Simple.Resolved
            (Simple.Status200 "Design generated successfully with Hugging Face!"
               design (Simple.JBool false)),
          [Simple.RequestHuggingFace 1; Simple.SetTimeout 10000;
           Simple.RequestHuggingFace 2; Simple.SetTimeout 10000;
           Simple.RequestHuggingFace 3])
       /\ map Simple.url (Simple.images design) = ["data:image/jpeg;base64,aW1hZ2U="].
Proof.
  split; [reflexivity|].
  destruct (loading_twice_then_image (Scenario.loadingTwice "image")
              Scenario.casualRequest
              (Some "application/json") (Some "application/json") (Some "image/jpeg")
              "Model is loading" "Model is loading" "image"
              eq_refl eq_refl eq_refl eq_refl eq_refl eq_refl)
    as [design [Hgen [Hurl _]]].
  exists design. split; [exact Hgen | exact Hurl].
Defined.

(** C5, as amended.  The client of [simple.js] treats exactly status 200
    as a success, whatever the content type; 503 (after 10 s) and 429
    (after 5 s) as retryable while the attempt number is within the retry
    budget; and every other response (another 2xx status, 401, 403, any
    other status, and 503 or 429 once the budget is spent) as fatal, the
    message carrying the status code and the body read as text.  The
    client of [config/huggingface.js] succeeds on a 2xx response whose
    content type contains [image] and throws on every non-2xx response
    without retrying, 503 and 429 with their own message and the other
    statuses with the status code and the body, read as text, in the
    message raised by the [try] block. *)
Theorem response_classification (w : Simple.World) (prompt : string)
    (retries fuel : nat) (chain : list nat) (n : nat) (status : Z)
    (contentType : option string) (data : string) :
  Simple.huggingFace w chain n = Simple.HFEnd status contentType data ->
  (status = 200%Z ->
   Simple.attemptRequest w prompt retries (S fuel) chain n
   = (Simple.Resolved {| Simple.imageUrl := "data:image/jpeg;base64," ++ base64 data;
                         Simple.prompt := prompt |},
      [Simple.RequestHuggingFace n]))
  /\ (status = 503%Z -> (n <= retries)%nat ->
      Simple.attemptRequest w prompt retries (S fuel) chain n
      = Simple.call (Simple.RequestHuggingFace n)
          (Simple.call (Simple.SetTimeout 10000)
             (Simple.attemptRequest w prompt retries fuel chain (n + 1))))
  /\ (status = 429%Z -> (n <= retries)%nat ->
      Simple.attemptRequest w prompt retries (S fuel) chain n
      = Simple.call (Simple.RequestHuggingFace n)
          (Simple.call (Simple.SetTimeout 5000)
             (Simple.attemptRequest w prompt retries fuel chain (n + 1))))
  /\ (status <> 200%Z ->
      (status = 503%Z \/ status = 429%Z -> (retries < n)%nat) ->
      Simple.attemptRequest w prompt retries (S fuel) chain n
      = (Simple.Rejected ("Hugging Face API error: " ++ decimal status
                            ++ " - " ++ bufferToString data),
         [Simple.RequestHuggingFace n]))
  /\ (forall (token : string) (startTime endTime : Z)
        (preferences : HuggingFace.Preferences) (modelType : string),
        token <> "" ->
        (HuggingFace.ok status = true ->
         (exists t, contentType = Some t /\ JS.includes t "image" = true) ->
         exists result,
           HuggingFace.generateDesign (Some token)
             (HuggingFace.Response status contentType data)
             startTime endTime preferences modelType = Normal result
           /\ HuggingFace.url (HuggingFace.image result)
              = "data:image/jpeg;base64," ++ base64 data)
        /\ (HuggingFace.ok status = false ->
            HuggingFace.generateDesignTry (Some token)
              (HuggingFace.Response status contentType data)
              startTime endTime preferences modelType
            = Throw (if (status =? 503)%Z then
                       "Model is loading, please try again in a few minutes."
                     else if (status =? 429)%Z then
                       "Rate limit exceeded. Please try again later."
                     else
                       "Hugging Face API error: " ++ decimal status ++ " "
                         ++ bufferToString data)
            /\ exists message,
                 HuggingFace.generateDesign (Some token)
                   (HuggingFace.Response status contentType data)
                   startTime endTime preferences modelType = Throw message)).
Proof.
  intros Hev.
  rewrite (attemptRequest_end _ _ _ _ _ _ _ _ _ Hev).
  repeat apply conj.
  - intros ->. reflexivity.
  - intros -> Hle. apply Nat.leb_le in Hle. cbn [Z.eqb Pos.eqb andb].
    now rewrite Hle.
  - intros -> Hle. apply Nat.leb_le in Hle. cbn [Z.eqb Pos.eqb andb].
    now rewrite Hle.
  - intros H200 Hbudget. apply Z.eqb_neq in H200. rewrite H200.
    destruct (status =? 503)%Z eqn:E503.
    + apply Z.eqb_eq in E503.
      assert (Hgt : (n <=? retries)%nat = false)
        by (apply Nat.leb_gt, Hbudget; now left).
      rewrite Hgt. cbn [andb].
      destruct (status =? 429)%Z; reflexivity.
    + cbn [andb]. destruct (status =? 429)%Z eqn:E429; [|reflexivity].
      apply Z.eqb_eq in E429.
      assert (Hgt : (n <=? retries)%nat = false)
        by (apply Nat.leb_gt, Hbudget; now right).
      now rewrite Hgt.
  - intros token startTime endTime preferences modelType Htoken.
    destruct token as [|c token]; [now contradiction Htoken|].
    split.
    + intros Hok [t [-> Himage]].
      unfold HuggingFace.generateDesign, HuggingFace.generateDesignTry.
      rewrite Hok, Himage. cbn [negb].
      destruct t as [|c' t]; [discriminate|].
      cbn [String.eqb negb andb]. eexists. split; reflexivity.
    + intros Hok.
      assert (Htry : HuggingFace.generateDesignTry (Some (String c token))
                       (HuggingFace.Response status contentType data)
                       startTime endTime preferences modelType
                     = Throw (if (status =? 503)%Z then
                                "Model is loading, please try again in a few minutes."
                              else if (status =? 429)%Z then
                                "Rate limit exceeded. Please try again later."
                              else
                                "Hugging Face API error: " ++ decimal status
                                  ++ " " ++ bufferToString data)).
      { unfold HuggingFace.generateDesignTry. rewrite Hok. cbn [negb].
        destruct (status =? 503)%Z; [reflexivity|].
        destruct (status =? 429)%Z; reflexivity. }
      split; [exact Htry|].
      unfold HuggingFace.generateDesign. rewrite Htry. eexists. reflexivity.
Qed.

(** An instance: a 403 on the first attempt, the body holding bytes that
    are no UTF-8 text. *)
Lemma response_classification_witness :
  Simple.attemptRequest
    (Scenario.answering 403 (Some "application/json") (bytes [78; 111; 255; 254]%N))
    "a dress" 3 4 [] 1
  = (Simple.Rejected
       ("Hugging Face API error: 403 - No"
          ++ bytes [239; 191; 189; 239; 191; 189]%N),
     [Simple.RequestHuggingFace 1]).
Proof.
  destruct (response_classification
              (Scenario.answering 403 (Some "application/json")
                 (bytes [78; 111; 255; 254]%N))
              "a dress" 3 3 [] 1 403 (Some "application/json")
              (bytes [78; 111; 255; 254]%N) eq_refl)
    as [_ [_ [_ [Hfatal _]]]].
  apply Hfatal.
  - discriminate.
  - intros [H | H]; discriminate H.
Defined.

(** C5, as stated, fails on the client of [simple.js]: a 201 response with
    an image content type is not a success there. *)
Lemma created_image_is_fatal :
  ~ (forall (w : Simple.World) (prompt : string) (status : Z)
       (contentType data : string),
       Simple.huggingFace w [] 1 = Simple.HFEnd status (Some contentType) data ->
       (200 <= status < 300)%Z ->
       JS.includes contentType "image" = true ->
       Simple.resolved (Simple.generateWithHuggingFace w prompt) = true).
Proof.
  intros Hclaim.
  specialize (Hclaim (Scenario.answering 201 (Some "image/jpeg") "image")
                "a dress" 201%Z "image/jpeg" "image" eq_refl).
  assert (Hfalse : false = true) by (apply Hclaim; [lia | reflexivity]).
  discriminate.
Qed.

(** ** The prompt builder *)

Section PromptBuilder.

Import HuggingFace.

(** A token of the table prints as its name. *)
Lemma colorName_mapped (color name : string) :
  assoc colorMap color = Some name -> toText (colorName color) = name.
Proof.
  unfold colorName, lookupOr, lookup. intros Hmap. rewrite Hmap.
  destruct name as [|c name]; [|reflexivity].
  (* no name of the table is empty *)
  exfalso. revert Hmap. unfold colorMap. cbn [assoc].
  repeat (destruct (String.eqb _ color); [discriminate|]).
  discriminate.
Qed.

(** A token that is neither in the table nor the name of a member of
    [Object.prototype] prints verbatim. *)
Lemma colorName_unmapped (color : string) :
  assoc colorMap color = None ->
  assoc ObjectPrototype color = None ->
  toText (colorName color) = color.
Proof.
  unfold colorName, lookupOr, lookup. now intros -> ->.
Qed.

(** A token that is the name of an inherited member prints as that member. *)
Lemma colorName_inherited (color : string) (v : value) :
  assoc colorMap color = None ->
  assoc ObjectPrototype color = Some v ->
  toText (colorName color) = toText v.
Proof.
  unfold colorName, lookupOr, lookup. intros -> Hv. rewrite Hv.
  assert (Htruthy : truthy v = true).
  { revert Hv. unfold ObjectPrototype. cbn [assoc].
    repeat (destruct (String.eqb _ color);
            [intros Hv; injection Hv as <-; reflexivity|]).
    discriminate. }
  now rewrite Htruthy.
Qed.

Lemma append_prefix_step (p x y : string) :
  (exists r, x = p ++ r) -> exists r, x ++ y = p ++ r.
Proof.
  intros [r ->]. exists (r ++ y). apply append_assoc.
Qed.

Ltac peel_prefix :=
  lazymatch goal with
  | |- exists r, ?p ++ ?a = ?p ++ r => exists a; reflexivity
  | |- exists r, _ ++ _ = _ ++ r => apply append_prefix_step; peel_prefix
  end.

(** The colour clause of the prompt: the printed names joined by [and],
    right after the opening clause. *)
Lemma generateFashionPrompt_colors (preferences : Preferences)
    (c : string) (cs : list string) :
  colors preferences = Some (c :: cs) ->
  exists rest,
    generateFashionPrompt preferences
    = (("A professional fashion design illustration of a " ++ style preferences
          ++ " " ++ occasion preferences ++ " outfit for " ++ gender preferences ++ ", ")
         ++ "featuring "
         ++ String.concat " and " (map (fun color => toText (colorName color)) (c :: cs))
         ++ " colors, ")
        ++ rest.
Proof.
  intros Hcolors. unfold generateFashionPrompt. rewrite Hcolors. cbv zeta.
  rewrite map_map.
  destruct (0 <? length (defaultTo (patterns preferences) []))%nat;
    destruct (0 <? length (defaultTo (materials preferences) []))%nat;
    destruct (negb (String.eqb (defaultTo (season preferences) "all-season") "all-season"));
    peel_prefix.
Qed.

End PromptBuilder.

(** C7.  The token [__proto__] is not a key of the colour table, yet the
    prompt built for it does not contain it: the lookup finds the member
    of that name which the table inherits, and the prompt reads
    [featuring [object Object] colors]. *)
Theorem inherited_name_replaces_token :
  HuggingFace.assoc HuggingFace.colorMap "__proto__" = None
  /\ HuggingFace.generateFashionPrompt Scenario.protoPreferences
     = "A professional fashion design illustration of a vintage party outfit for female, featuring [object Object] colors, with a bold and empowering design. High-quality fashion illustration, clean professional presentation, fashion portfolio style, detailed clothing design, modern aesthetic, studio lighting, white background, full outfit view, fashion sketch style, detailed fabric textures, professional fashion photography style"
  /\ JS.includes (HuggingFace.generateFashionPrompt Scenario.protoPreferences)
       "__proto__" = false.
Proof. repeat split. Qed.

(** ** The placeholders *)

(** The forced-demo template: fixed text around the two gradient stops,
    the upper-cased style and occasion, and the gender; the caption is
    part of the fixed text. *)
Lemma demoSvg_shape :
  exists p0 p1 p2 p3 p4 : string,
    (forall stop0 stop1 STYLE OCCASION gender,
        Simple.demoSvg stop0 stop1 STYLE OCCASION gender
        = p0 ++ stop0 ++ p1 ++ stop1 ++ p2 ++ STYLE ++ " " ++ OCCASION
             ++ p3 ++ gender ++ p4)
    /\ JS.includes p0 "<linearGradient" = true
    /\ JS.includes p1 "<stop offset" = true
    /\ JS.includes p4 "Demo Mode - Get Hugging Face API Token" = true.
Proof.
  exists (nl ++ line 10 (dq "<svg width='1024' height='1024' xmlns='http://www.w3.org/2000/svg'>")
             ++ line 12 "<defs>"
             ++ line 14 (dq "<linearGradient id='grad1' x1='0%' y1='0%' x2='100%' y2='100%'>")
             ++ spaces 16 ++ dq "<stop offset='0%' style='stop-color:").
  exists (dq ";stop-opacity:1' />" ++ nl
             ++ spaces 16 ++ dq "<stop offset='100%' style='stop-color:").
  exists (dq ";stop-opacity:1' />" ++ nl
             ++ line 14 "</linearGradient>"
             ++ line 12 "</defs>"
             ++ line 12 (dq "<rect width='100%' height='100%' fill='url(#grad1)' />")
             ++ line 12 (dq "<text x='50%' y='45%' text-anchor='middle' font-family='Arial, sans-serif' font-size='48' fill='white' font-weight='bold'>")
             ++ spaces 14).
  exists (nl ++ line 12 "</text>"
             ++ line 12 (dq "<text x='50%' y='55%' text-anchor='middle' font-family='Arial, sans-serif' font-size='32' fill='white'>")
             ++ spaces 14).
  exists (" Fashion Design" ++ nl
             ++ line 12 "</text>"
             ++ line 12 (dq "<text x='50%' y='65%' text-anchor='middle' font-family='Arial, sans-serif' font-size='24' fill='rgba(255,255,255,0.8)'>")
             ++ line 14 "Demo Mode - Get Hugging Face API Token"
             ++ line 12 "</text>"
             ++ line 10 "</svg>"
             ++ spaces 8).
  split; [|repeat split].
  intros stop0 stop1 STYLE OCCASION gender.
  unfold Simple.demoSvg, line. rewrite !append_assoc. reflexivity.
Qed.

(** The template used after both providers failed: the same shape, with
    its own fixed text and its own two-line caption. *)
Lemma fallbackSvg_shape :
  exists p0 p1 p2 p3 p4 : string,
    (forall stop0 stop1 STYLE OCCASION gender,
        Simple.fallbackSvg stop0 stop1 STYLE OCCASION gender
        = p0 ++ stop0 ++ p1 ++ stop1 ++ p2 ++ STYLE ++ " " ++ OCCASION
             ++ p3 ++ gender ++ p4)
    /\ JS.includes p0 "<linearGradient" = true
    /\ JS.includes p1 "<stop offset" = true
    /\ JS.includes p4 "API Credits Exceeded" = true
    /\ JS.includes p4 "Get new Hugging Face token" = true.
Proof.
  exists (nl ++ line 12 (dq "<svg width='1024' height='1024' xmlns='http://www.w3.org/2000/svg'>")
             ++ line 14 "<defs>"
             ++ line 16 (dq "<linearGradient id='grad1' x1='0%' y1='0%' x2='100%' y2='100%'>")
             ++ spaces 18 ++ dq "<stop offset='0%' style='stop-color:").
  exists (dq ";stop-opacity:1' />" ++ nl
             ++ spaces 18 ++ dq "<stop offset='100%' style='stop-color:").
  exists (dq ";stop-opacity:1' />" ++ nl
             ++ line 16 "</linearGradient>"
             ++ line 14 "</defs>"
             ++ line 14 (dq "<rect width='100%' height='100%' fill='url(#grad1)' />")
             ++ line 14 (dq "<text x='50%' y='40%' text-anchor='middle' font-family='Arial, sans-serif' font-size='48' fill='white' font-weight='bold'>")
             ++ spaces 16).
  exists (nl ++ line 14 "</text>"
             ++ line 14 (dq "<text x='50%' y='50%' text-anchor='middle' font-family='Arial, sans-serif' font-size='32' fill='white'>")
             ++ spaces 16).
  exists (" Fashion Design" ++ nl
             ++ line 14 "</text>"
             ++ line 14 (dq "<text x='50%' y='60%' text-anchor='middle' font-family='Arial, sans-serif' font-size='20' fill='rgba(255,255,255,0.8)'>")
             ++ line 16 "API Credits Exceeded"
             ++ line 14 "</text>"
             ++ line 14 (dq "<text x='50%' y='65%' text-anchor='middle' font-family='Arial, sans-serif' font-size='16' fill='rgba(255,255,255,0.7)'>")
             ++ line 16 "Get new Hugging Face token"
             ++ line 14 "</text>"
             ++ line 12 "</svg>"
             ++ spaces 10).
  split; [|repeat split].
  intros stop0 stop1 STYLE OCCASION gender.
  unfold Simple.fallbackSvg, line. rewrite !append_assoc. reflexivity.
Qed.

(** The gradient stops: the first two entries of [colors], each replaced
    by its default when it is absent or falsy. *)
Lemma gradient_stops (items : list Simple.json) :
  (forall c0, nth_error items 0 = Some c0 -> Simple.ToBoolean c0 = true ->
     Simple.orElse (Simple.item (Simple.JArr items) 0) (Simple.JStr "#FF6B6B") = c0)
  /\ (forall c1, nth_error items 1 = Some c1 -> Simple.ToBoolean c1 = true ->
        Simple.orElse (Simple.item (Simple.JArr items) 1) (Simple.JStr "#4ECDC4") = c1)
  /\ (nth_error items 0 = None ->
      Simple.orElse (Simple.item (Simple.JArr items) 0) (Simple.JStr "#FF6B6B")
      = Simple.JStr "#FF6B6B")
  /\ (nth_error items 1 = None ->
      Simple.orElse (Simple.item (Simple.JArr items) 1) (Simple.JStr "#4ECDC4")
      = Simple.JStr "#4ECDC4").
Proof.
  cbn [Simple.item]. repeat split.
  - intros c0 -> Ht. cbn. now rewrite Ht.
  - intros c1 -> Ht. cbn. now rewrite Ht.
  - now intros ->.
  - now intros ->.
Qed.

(** C8, as amended.  For one and the same request and the same trigger
    (forced demo mode, or failure of both providers) the placeholder is
    byte for byte the same in any two worlds, whatever their clocks and the
    errors of their providers: whenever the placeholder tier serves a
    request, the image is the base64 data URL of the template of that
    trigger filled from the request alone, the two gradient stops from the
    first two colours or their defaults, then the upper-cased style and
    occasion and the gender, around fixed text that holds the caption of
    that trigger. *)
Theorem placeholder_deterministic (body : Simple.Object) :
  let gender := Simple.orDefault (Simple.get body "gender") (Simple.JStr "unisex") in
  let occasion := Simple.orDefault (Simple.get body "occasion") (Simple.JStr "casual") in
  let style := Simple.orDefault (Simple.get body "style") (Simple.JStr "modern") in
  let colors := Simple.orDefault (Simple.get body "colors")
                  (Simple.JArr [Simple.JStr "#FF6B6B"; Simple.JStr "#4ECDC4"]) in
  let demoMode := Simple.orDefault (Simple.get body "demoMode") (Simple.JBool false) in
  (forall w message design flag log,
      Simple.generate w body
        = (Simple.Resolved (Simple.Status200 message design flag), log) ->
      Simple.producer w demoMode = Simple.Placeholder ->
      map Simple.url (Simple.images design)
      = ["data:image/svg+xml;base64,"
           ++ base64 ((if Simple.forcedDemo w demoMode
                       then Simple.demoSvg else Simple.fallbackSvg)
                        (Simple.ToString
                           (Simple.orElse (Simple.item colors 0) (Simple.JStr "#FF6B6B")))
                        (Simple.ToString
                           (Simple.orElse (Simple.item colors 1) (Simple.JStr "#4ECDC4")))
                        (toUpperCase (Simple.ToString style))
                        (toUpperCase (Simple.ToString occasion))
                        (Simple.ToString gender))])
  /\ (forall w1 w2 message1 design1 flag1 log1 message2 design2 flag2 log2,
        Simple.generate w1 body
          = (Simple.Resolved (Simple.Status200 message1 design1 flag1), log1) ->
        Simple.generate w2 body
          = (Simple.Resolved (Simple.Status200 message2 design2 flag2), log2) ->
        Simple.producer w1 demoMode = Simple.Placeholder ->
        Simple.producer w2 demoMode = Simple.Placeholder ->
        Simple.forcedDemo w1 demoMode = Simple.forcedDemo w2 demoMode ->
        map Simple.url (Simple.images design1) = map Simple.url (Simple.images design2)).
Proof.
  intros gender occasion style colors demoMode.
  assert (Hone : forall w message design flag log,
             Simple.generate w body
               = (Simple.Resolved (Simple.Status200 message design flag), log) ->
             Simple.producer w demoMode = Simple.Placeholder ->
             map Simple.url (Simple.images design)
             = [Simple.placeholderUrl
                  (if Simple.forcedDemo w demoMode
                   then Simple.demoSvg else Simple.fallbackSvg)
                  gender style occasion colors]).
  { intros w message design flag log Hgen Htier.
    destruct (generate_success_inv w body message design flag log Hgen)
      as [items [result [Hrun [-> _]]]].
    fold gender occasion style colors demoMode in Hrun.
    pose proof (ChainRun_image w _ _ _ _ _ _ _ _ _ Hrun) as Himage.
    rewrite Htier in Himage.
    cbn [Simple.designResponse Simple.images map Simple.url].
    fold gender occasion style colors. now rewrite Himage. }
  split.
  - intros w message design flag log Hgen Htier.
    rewrite (Hone w message design flag log Hgen Htier).
    destruct (Simple.forcedDemo w demoMode); reflexivity.
  - intros w1 w2 m1 d1 f1 l1 m2 d2 f2 l2 Hgen1 Hgen2 Ht1 Ht2 Hsame.
    rewrite (Hone w1 m1 d1 f1 l1 Hgen1 Ht1), (Hone w2 m2 d2 f2 l2 Hgen2 Ht2).
    now rewrite Hsame.
Qed.

(** An instance: two worlds with different clocks, errors and logs. *)
Lemma placeholder_deterministic_witness :
  exists message1 design1 flag1 log1 message2 design2 flag2 log2,
    Simple.generate Scenario.offline Scenario.casualRequest
      = (Simple.Resolved (Simple.Status200 message1 design1 flag1), log1)
    /\ Simple.generate Scenario.offlineLater Scenario.casualRequest
       = (Simple.Resolved (Simple.Status200 message2 design2 flag2), log2)
    /\ log1 <> log2
    /\ Simple.id design1 <> Simple.id design2
    /\ map Simple.url (Simple.images design1) = map Simple.url (Simple.images design2).
Proof.
  eexists _, _, _, _, _, _, _, _.
  split; [vm_compute; reflexivity|].
  split; [vm_compute; reflexivity|].
  split; [intros H; discriminate H|].
  split; [intros H; discriminate H|].
  destruct (placeholder_deterministic Scenario.casualRequest) as [_ Hsame].
  eapply (Hsame Scenario.offline Scenario.offlineLater);
    vm_compute; reflexivity.
Defined.

(** C8, as stated, fails: the same request is served one placeholder
    when demo mode is forced and another one when both providers failed. *)
Lemma placeholder_depends_on_trigger :
  ~ (forall w1 w2 body message1 design1 flag1 log1 message2 design2 flag2 log2,
       Simple.generate w1 body
         = (Simple.Resolved (Simple.Status200 message1 design1 flag1), log1) ->
       Simple.generate w2 body
         = (Simple.Resolved (Simple.Status200 message2 design2 flag2), log2) ->
       Simple.producer w1
         (Simple.orDefault (Simple.get body "demoMode") (Simple.JBool false))
       = Simple.Placeholder ->
       Simple.producer w2
         (Simple.orDefault (Simple.get body "demoMode") (Simple.JBool false))
       = Simple.Placeholder ->
       map Simple.url (Simple.images design1) = map Simple.url (Simple.images design2)).
Proof.
  intros Hclaim.
  assert (G1 : exists message design flag log,
             Simple.generate Scenario.offlineDemo []
               = (Simple.Resolved (Simple.Status200 message design flag), log)
             /\ String.length (hd "" (map Simple.url (Simple.images design))) = 1414%nat).
  { eexists _, _, _, _. split; vm_compute; reflexivity. }
  assert (G2 : exists message design flag log,
             Simple.generate Scenario.offline []
               = (Simple.Resolved (Simple.Status200 message design flag), log)
             /\ String.length (hd "" (map Simple.url (Simple.images design))) = 1706%nat).
  { eexists _, _, _, _. split; vm_compute; reflexivity. }
  destruct G1 as [m1 [d1 [f1 [l1 [G1 L1]]]]].
  destruct G2 as [m2 [d2 [f2 [l2 [G2 L2]]]]].
  specialize (Hclaim _ _ _ _ _ _ _ _ _ _ _ G1 G2 eq_refl eq_refl).
  rewrite Hclaim, L2 in L1. discriminate L1.
Qed.

(** ** The demo flag *)

(** The flag of a successful response is truthy exactly when demo mode is
    forced or the image URL contains the text [svg+xml]. *)
Lemma demo_flag_truthy (w : Simple.World) (body : Simple.Object)
    (message : string) (design : Simple.Design) (flag : Simple.json)
    (log : list Simple.Call) :
  Simple.generate w body
    = (Simple.Resolved (Simple.Status200 message design flag), log) ->
  exists imageUrl,
    map Simple.url (Simple.images design) = [imageUrl]
    /\ Simple.ToBoolean flag
       = Simple.forcedDemo w
           (Simple.orDefault (Simple.get body "demoMode") (Simple.JBool false))
         || JS.includes imageUrl "svg+xml".
Proof.
  intros Hgen.
  destruct (generate_success_inv w body message design flag log Hgen)
    as [items [result [_ [-> ->]]]].
  exists (Simple.imageUrl result). split; [reflexivity|].
  unfold Simple.isDemo, Simple.forcedDemo.
  set (demoMode := Simple.orDefault (Simple.get body "demoMode") (Simple.JBool false)).
  destruct (Simple.ToBoolean demoMode) eqn:Hd; [exact Hd | reflexivity].
Qed.

(** X22.  Every image of the backup tier is the SVG of its stub and is
    flagged as a demo. *)
Lemma backup_flagged_demo (w : Simple.World) (body : Simple.Object)
    (message : string) (design : Simple.Design) (flag : Simple.json)
    (log : list Simple.Call) :
  Simple.generate w body
    = (Simple.Resolved (Simple.Status200 message design flag), log) ->
  Simple.producer w
    (Simple.orDefault (Simple.get body "demoMode") (Simple.JBool false))
  = Simple.Backup ->
  map Simple.url (Simple.images design)
    = ["data:image/svg+xml;base64," ++ base64 Simple.replicateSvg]
  /\ Simple.ToBoolean flag = true.
Proof.
  intros Hgen Htier.
  destruct (generate_success_inv w body message design flag log Hgen)
    as [items [result [Hrun [-> ->]]]].
  pose proof (ChainRun_image w _ _ _ _ _ _ _ _ _ Hrun) as Himage.
  rewrite Htier in Himage.
  cbn [Simple.designResponse Simple.images map Simple.url].
  split; [now rewrite Himage|].
  apply isDemo_svg. rewrite Himage. apply includes_svg_url.
Qed.

(** X23.  An image that is not an SVG data URL comes from the primary
    provider. *)
Lemma real_image_from_primary (w : Simple.World) (body : Simple.Object)
    (message : string) (design : Simple.Design) (flag : Simple.json)
    (log : list Simple.Call) (imageUrl : string) :
  Simple.generate w body
    = (Simple.Resolved (Simple.Status200 message design flag), log) ->
  map Simple.url (Simple.images design) = [imageUrl] ->
  startsWith imageUrl "data:image/svg+xml" = false ->
  Simple.producer w
    (Simple.orDefault (Simple.get body "demoMode") (Simple.JBool false))
  = Simple.Primary.
Proof.
  intros Hgen Hurl Hreal.
  destruct (generate_success_inv w body message design flag log Hgen)
    as [items [result [Hrun [-> _]]]].
  pose proof (ChainRun_image w _ _ _ _ _ _ _ _ _ Hrun) as Himage.
  cbn [Simple.designResponse Simple.images map Simple.url] in Hurl.
  injection Hurl as <-.
  destruct (Simple.producer w _); [reflexivity | |];
    rewrite Himage in Hreal; discriminate Hreal.
Qed.

(** C10.  The primary provider answers 200 with nine bytes that start like
    a JPEG and whose base64 text is [/9j/svg+xmlA].  Demo mode is not
    forced and the image is that of the primary tier, a JPEG data URL, yet
    the response carries [demoMode: true] and the demo message: the flag
    looks for [svg+xml] anywhere in the URL, payload included. *)
Theorem jpeg_image_flagged_demo :
  exists design,
    Simple.generate (Scenario.answering 200 (Some "image/jpeg") Scenario.jpegBytes) []
    = (Simple.Resolved
         (Simple.Status200
            "Demo design generated! Get a Hugging Face API token for AI generation."
            design (Simple.JBool true)),
       [Simple.RequestHuggingFace 1])
    /\ map Simple.url (Simple.images design) = ["data:image/jpeg;base64,/9j/svg+xmlA"]
    /\ startsWith "data:image/jpeg;base64,/9j/svg+xmlA" "data:image/svg+xml" = false
    /\ Simple.forcedDemo
         (Scenario.answering 200 (Some "image/jpeg") Scenario.jpegBytes)
         (Simple.JBool false) = false
    /\ Simple.producer
         (Scenario.answering 200 (Some "image/jpeg") Scenario.jpegBytes)
         (Simple.JBool false) = Simple.Primary.
Proof.
  eexists. split; [vm_compute; reflexivity|]. repeat split.
Qed.

(** ** The inline prompt of the handler *)

(** The handler of [simple.js] builds its prompt without the colour table:
    every token of [colors] enters it as it is, the tokens joined by
    [and]. *)
Lemma handler_prompt_raw_tokens (w : Simple.World) (body : Simple.Object)
    (message : string) (design : Simple.Design) (flag : Simple.json)
    (log : list Simple.Call) (tokens : list string) :
  Simple.generate w body
    = (Simple.Resolved (Simple.Status200 message design flag), log) ->
  Simple.get body "colors" = Some (Simple.JArr (map Simple.JStr tokens)) ->
  Simple.ai_prompt (Simple.aiGeneration design)
  = Simple.inlinePrompt
      (Simple.orDefault (Simple.get body "gender") (Simple.JStr "unisex"))
      (Simple.orDefault (Simple.get body "occasion") (Simple.JStr "casual"))
      (Simple.orDefault (Simple.get body "style") (Simple.JStr "modern"))
      (String.concat " and " tokens).
Proof.
  intros Hgen Hcolors.
  destruct (generate_success_items w body message design flag log Hgen)
    as (_ & _ & items & result & Hitems & Hrun & -> & _).
  cbn [Simple.designResponse Simple.aiGeneration Simple.ai_prompt].
  rewrite (ChainRun_prompt w _ _ _ _ _ _ _ _ _ Hrun).
  rewrite Hcolors in Hitems. cbn [Simple.orDefault] in Hitems.
  injection Hitems as <-.
  rewrite map_map. cbn [Simple.joinItem Simple.ToString].
  now rewrite map_id.
Qed.

(** * Further properties *)

(** ** The retry loop of the primary client *)

Section RetryLoop.

Import Simple Log.

Variable w : World.

Lemma log_cons_request (n : nat) (log : list Call) :
  requestNumbers (RequestHuggingFace n :: log) = n :: requestNumbers log
  /\ attempts (RequestHuggingFace n :: log) = S (attempts log)
  /\ delays (RequestHuggingFace n :: log) = delays log.
Proof. repeat split. Qed.

Lemma log_cons_timeout (ms : Z) (log : list Call) :
  requestNumbers (SetTimeout ms :: log) = requestNumbers log
  /\ attempts (SetTimeout ms :: log) = attempts log
  /\ delays (SetTimeout ms :: log) = ms :: delays log.
Proof. repeat split. Qed.

(** One step of [attemptRequest] on an event after which the request
    raises nothing more: either it settles on the event of this attempt,
    or it waits for the back-off of the event and goes on. *)
Lemma attemptRequest_step (prompt : string) (retries fuel : nat)
    (chain : list nat) (n : nat) :
  quiet (huggingFace w chain n) = true ->
  attemptRequest w prompt retries (S fuel) chain n
  = match backoff (huggingFace w chain n) with
    | Some ms =>
        if (n <=? retries)%nat then
          call (RequestHuggingFace n) (call (SetTimeout ms)
            (attemptRequest w prompt retries fuel chain (n + 1)))
        else (settlement prompt (huggingFace w chain n), [RequestHuggingFace n])
    | None => (settlement prompt (huggingFace w chain n), [RequestHuggingFace n])
    end.
Proof.
  intros Hquiet. cbn [attemptRequest].
  destruct (huggingFace w chain n) as [status ct data | [ab|] | msg | [ab|] | msg];
    try discriminate Hquiet;
    cbn [backoff settlement]; try reflexivity;
    try (destruct (n <=? retries)%nat; reflexivity).
  destruct (status =? 200)%Z; [reflexivity|].
  destruct (status =? 503)%Z; cbn [andb].
  - destruct (n <=? retries)%nat; [reflexivity|].
    destruct (status =? 429)%Z; reflexivity.
  - destruct (status =? 429)%Z; cbn [andb]; [|reflexivity].
    destruct (n <=? retries)%nat; reflexivity.
Qed.

Lemma backoff_bound (e : HFEvent) (ms : Z) :
  backoff e = Some ms -> (0 < ms <= 10000)%Z.
Proof.
  destruct e as [status ct data | ab | msg | ab | msg]; cbn;
    try (intros H; injection H as <-; lia); try discriminate.
  destruct (status =? 200)%Z; [discriminate|].
  destruct (status =? 503)%Z; [intros H; injection H as <-; lia|].
  destruct (status =? 429)%Z; [intros H; injection H as <-; lia | discriminate].
Qed.

(** The log of a chain none of whose requests raises an error after it
    was destroyed. *)
Lemma attemptRequest_log (prompt : string) (retries fuel : nat) (chain : list nat) :
  (forall m, quiet (huggingFace w chain m) = true) ->
  forall n,
    let log := snd (attemptRequest w prompt retries fuel chain n) in
    requestNumbers log = seq n (attempts log)
    /\ (attempts log <= S (length (delays log)))%nat
    /\ (attempts log <= fuel)%nat
    /\ (length (delays log) <= retries + 1 - n)%nat
    /\ (0 <= totalDelay log <= 10000 * Z.of_nat (length (delays log)))%Z.
Proof.
  intros Hquiet. induction fuel as [|fuel IH]; intros n.
  - cbn. repeat split; lia.
  - rewrite attemptRequest_step by apply Hquiet.
    assert (Hsettle : let log := [RequestHuggingFace n] in
              requestNumbers log = seq n (attempts log)
              /\ (attempts log <= S (length (delays log)))%nat
              /\ (attempts log <= S fuel)%nat
              /\ (length (delays log) <= retries + 1 - n)%nat
              /\ (0 <= totalDelay log <= 10000 * Z.of_nat (length (delays log)))%Z).
    { cbn. repeat split; lia. }
    destruct (backoff (huggingFace w chain n)) as [ms|] eqn:Hback; [|exact Hsettle].
    destruct (n <=? retries)%nat eqn:Hle; [|exact Hsettle].
    apply Nat.leb_le in Hle. apply backoff_bound in Hback.
    specialize (IH (n + 1)%nat).
    destruct (attemptRequest w prompt retries fuel chain (n + 1)) as [o log'].
    cbn [snd call] in IH |- *.
    destruct IH as [Hnum [Hatt [Hfuel [Hlen Htot]]]].
    destruct (log_cons_request n (SetTimeout ms :: log')) as [-> [-> ->]].
    destruct (log_cons_timeout ms log') as [-> [-> ->]].
    unfold totalDelay in Htot |- *.
    destruct (log_cons_request n (SetTimeout ms :: log')) as [_ [_ ->]].
    destruct (log_cons_timeout ms log') as [_ [_ ->]].
    cbn [fold_right length seq].
    repeat split; try lia.
    rewrite Hnum. now rewrite Nat.add_1_r.
Qed.

End RetryLoop.

(** X1.  Bounded retry.  Whatever the provider does, the primary client
    settles, after fewer than [2 ^ (retries + 1)] requests: every attempt
    within the budget is followed by one more attempt, or by two where
    the timer of the code destroyed the request and the request then
    raised its error.  Where no destroyed request raises an error, the
    requests are at most [retries + 1], numbered from 1 without a gap,
    with at most [retries] back-off delays that add up to at most 10 s
    times [retries]. *)
Theorem primary_client_bounded (w : Simple.World) (prompt : string) (retries : nat) :
  let run := Simple.generateWithHuggingFaceRetries w prompt retries in
  fst run <> Simple.Pending
  /\ (Simple.attempts (snd run) + 1 <= 2 ^ (retries + 1))%nat
  /\ ((forall n, Log.quiet (Simple.huggingFace w [] n) = true) ->
      (Simple.attempts (snd run) <= retries + 1)%nat
      /\ Log.requestNumbers (snd run) = seq 1 (Simple.attempts (snd run))
      /\ (length (Log.delays (snd run)) <= retries)%nat
      /\ (Log.totalDelay (snd run) <= 10000 * Z.of_nat retries)%Z).
Proof.
  intros run. subst run. unfold Simple.generateWithHuggingFaceRetries.
  split; [apply attemptRequest_settles; lia|].
  split.
  { replace (retries + 1)%nat with (S retries) by lia.
    apply attemptRequest_attempts. }
  intros Hquiet.
  pose proof (attemptRequest_log w prompt retries (S retries) [] Hquiet 1) as H.
  cbv zeta in H. destruct H as [Hnum [Hatt [Hfuel [Hlen Htot]]]].
  repeat split; try assumption; lia.
Qed.

(** Two instances with the default budget: a provider that never answers
    in time, each destroyed request raising its error, gets fifteen
    requests; a provider that cannot be reached gets four. *)
Lemma primary_client_bounded_witness :
  Simple.attempts (snd (Simple.generateWithHuggingFaceRetries Cases.stalled "a dress" 3))
  = 15%nat
  /\ (15 + 1 <= 2 ^ (3 + 1))%nat
  /\ (forall n, Log.quiet (Simple.huggingFace Scenario.offline [] n) = true)
  /\ Log.requestNumbers
       (snd (Simple.generateWithHuggingFaceRetries Scenario.offline "a dress" 3))
     = [1; 2; 3; 4]%nat.
Proof.
  split; [reflexivity|].
  split; [exact (proj1 (proj2 (primary_client_bounded Cases.stalled "a dress" 3)))|].
  split; [intros n; reflexivity|].
  destruct (primary_client_bounded Scenario.offline "a dress" 3) as [_ [_ Hquiet]].
  destruct (Hquiet (fun n => eq_refl)) as [_ [Hnumbers _]].
  rewrite Hnumbers. reflexivity.
Defined.

Section DecisiveAttempt.

Import Simple Log.

Variable w : World.

(** The delays taken before attempt [k], from attempt [n] on. *)
Lemma attemptRequest_settles_at (prompt : string) (retries : nat)
    (chain : list nat) (d : nat) :
  forall fuel n,
    (d < fuel)%nat ->
    (forall m, (n <= m <= n + d)%nat -> quiet (huggingFace w chain m) = true) ->
    (forall m, (n <= m < n + d)%nat ->
               (m <= retries)%nat /\ backoff (huggingFace w chain m) <> None) ->
    (backoff (huggingFace w chain (n + d)) = None \/ (retries < n + d)%nat) ->
    fst (attemptRequest w prompt retries fuel chain n)
      = settlement prompt (huggingFace w chain (n + d))
    /\ snd (attemptRequest w prompt retries fuel chain n)
       = (flat_map (fun m => RequestHuggingFace m
                             :: match backoff (huggingFace w chain m) with
                                | Some ms => [SetTimeout ms]
                                | None => []
                                end) (seq n d)
          ++ [RequestHuggingFace (n + d)])%list.
Proof.
  induction d as [|d IH]; intros fuel n Hfuel Hquiet Hbefore Hlast.
  - destruct fuel as [|fuel]; [lia|].
    rewrite Nat.add_0_r in Hlast |- *.
    rewrite attemptRequest_step by (apply Hquiet; lia).
    destruct Hlast as [Hnone | Hover].
    + rewrite Hnone. repeat split.
    + destruct (backoff (huggingFace w chain n)); [|repeat split].
      apply Nat.leb_gt in Hover. rewrite Hover. repeat split.
  - destruct fuel as [|fuel]; [lia|].
    rewrite attemptRequest_step by (apply Hquiet; lia).
    destruct (Hbefore n ltac:(lia)) as [Hle Hsome].
    destruct (backoff (huggingFace w chain n)) as [ms|] eqn:Hback;
      [|now contradiction Hsome].
    apply Nat.leb_le in Hle. rewrite Hle.
    replace (n + S d)%nat with ((n + 1) + d)%nat in * by lia.
    destruct (IH fuel (n + 1)%nat ltac:(lia)) as [Hout Hlog].
    { intros m Hm. apply Hquiet. lia. }
    { intros m Hm. apply Hbefore. lia. }
    { exact Hlast. }
    rewrite !call_pair. cbn [fst snd]. rewrite Hout, Hlog.
    cbn [seq flat_map]. rewrite Hback, Nat.add_1_r.
    split; reflexivity.
Qed.

End DecisiveAttempt.

(** X2.  The attempt that settles.  Let [k] be the first attempt whose
    event is not retried: each earlier attempt is within the budget and
    meets a 503, a 429, a response error, a timeout or a request error,
    and attempt [k] meets anything else or is past the budget; and let no
    request up to [k] raise an error after the code destroyed it.  Then
    the client sends exactly the requests 1 to [k], takes the back-off of
    each earlier event in order, and settles on the event of attempt [k]:
    the JPEG data URL of a 200, the error of anything else. *)
Theorem primary_client_settles_at (w : Simple.World) (prompt : string)
    (retries k : nat) :
  (1 <= k)%nat ->
  (forall n, (1 <= n <= k)%nat -> Log.quiet (Simple.huggingFace w [] n) = true) ->
  (forall n, (1 <= n < k)%nat ->
             (n <= retries)%nat
             /\ Log.backoff (Simple.huggingFace w [] n) <> None) ->
  (Log.backoff (Simple.huggingFace w [] k) = None \/ (retries < k)%nat) ->
  let run := Simple.generateWithHuggingFaceRetries w prompt retries in
  fst run = Log.settlement prompt (Simple.huggingFace w [] k)
  /\ snd run
     = (flat_map (fun n => Simple.RequestHuggingFace n
                           :: match Log.backoff (Simple.huggingFace w [] n) with
                              | Some ms => [Simple.SetTimeout ms]
                              | None => []
                              end) (seq 1 (k - 1))
          ++ [Simple.RequestHuggingFace k])%list.
Proof.
  intros Hk Hquiet Hbefore Hlast run. subst run.
  unfold Simple.generateWithHuggingFaceRetries.
  assert (Hbudget : (k - 1 <= retries)%nat).
  { destruct (Nat.eq_dec k 1) as [-> | Hne]; [lia|].
    destruct (Hbefore (k - 1)%nat ltac:(lia)) as [Hle _]. lia. }
  replace k with (1 + (k - 1))%nat at 1 3 by lia.
  apply attemptRequest_settles_at.
  - lia.
  - intros m Hm. apply Hquiet. lia.
  - intros m Hm. apply Hbefore. lia.
  - replace (1 + (k - 1))%nat with k by lia. exact Hlast.
Qed.

(** An instance: a reset connection, a 429, then 503 until the budget is
    spent. *)
Lemma primary_client_settles_at_witness :
  Simple.generateWithHuggingFaceRetries Cases.flaky "a dress" 3
  = (Simple.Rejected "Hugging Face API error: 503 - Model is loading",
     [Simple.RequestHuggingFace 1; Simple.SetTimeout 2000;
      Simple.RequestHuggingFace 2; Simple.SetTimeout 5000;
      Simple.RequestHuggingFace 3; Simple.SetTimeout 10000;
      Simple.RequestHuggingFace 4]).
Proof.
  destruct (primary_client_settles_at Cases.flaky "a dress" 3 4) as [Hout Hlog].
  - lia.
  - intros n Hn.
    assert (Hcases : n = 1%nat \/ n = 2%nat \/ n = 3%nat \/ n = 4%nat) by lia.
    destruct Hcases as [-> | [-> | [-> | ->]]]; reflexivity.
  - intros n Hn.
    assert (Hcases : n = 1%nat \/ n = 2%nat \/ n = 3%nat) by lia.
    destruct Hcases as [-> | [-> | ->]]; (split; [lia | discriminate]).
  - right. lia.
  - rewrite (surjective_pairing (Simple.generateWithHuggingFaceRetries _ _ _)).
    rewrite Hout, Hlog. reflexivity.
Defined.

(** ** The handler of [POST /api/designs/generate] *)

(** X3.  What the handler answers.  A body that fails one of the four
    checks gets a 400 before anything is called.  A body that passes them
    with a colour that cannot be converted to text gets a 500, the only
    one there is, before anything is called.  Any other body gets a
    success, unless the request to the backup provider is made and stays
    without an event: then the handler never answers.  The promise of the
    handler is never rejected. *)
Theorem handler_answers (w : Simple.World) (body : Simple.Object) :
  (Simple.passesValidation body = false ->
   exists error message,
     Simple.generate w body = (Simple.Resolved (Simple.Status400 error message), []))
  /\ (Simple.passesValidation body = true ->
      Simple.printableColors body = false ->
      Simple.generate w body
      = (Simple.Resolved
           (Simple.Status500 "Cannot convert object to primitive value"
              "Design generation failed"), []))
  /\ (Simple.passesValidation body = true ->
      Simple.printableColors body = true ->
      (exists message design flag log,
          Simple.generate w body
          = (Simple.Resolved (Simple.Status200 message design flag), log))
      \/ (fst (Simple.generate w body) = Simple.Pending
          /\ Simple.backupCalls (snd (Simple.generate w body)) = 1%nat))
  /\ (fst (Simple.generate w body) = Simple.Pending ->
      Simple.replicate w = Simple.RepSilent)
  /\ (forall message, fst (Simple.generate w body) <> Simple.Rejected message)
  /\ (forall error message,
        fst (Simple.generate w body)
        = Simple.Resolved (Simple.Status500 error message) ->
        Simple.passesValidation body = true
        /\ Simple.printableColors body = false).
Proof.
  assert (Hcases :
            (Simple.passesValidation body = false
             /\ exists error message,
                  Simple.generate w body
                  = (Simple.Resolved (Simple.Status400 error message), []))
            \/ (Simple.passesValidation body = true
                /\ Simple.printableColors body = false
                /\ Simple.generate w body
                   = (Simple.Resolved
                        (Simple.Status500 "Cannot convert object to primitive value"
                           "Design generation failed"), []))
            \/ (Simple.passesValidation body = true
                /\ Simple.printableColors body = true
                /\ ((exists message design flag log,
                        Simple.generate w body
                        = (Simple.Resolved (Simple.Status200 message design flag), log))
                    \/ (Simple.replicate w = Simple.RepSilent
                        /\ fst (Simple.generate w body) = Simple.Pending
                        /\ Simple.backupCalls (snd (Simple.generate w body)) = 1%nat)))).
  { destruct (Simple.passesValidation body) eqn:Hpass.
    - destruct (Simple.printableColors body) eqn:Hprint.
      + right. right. split; [reflexivity|]. split; [reflexivity|].
        destruct (generate_accepted w body Hpass Hprint)
          as (items & _ & _ & _ & [(tier & result & log & _ & Hgen)
                                  | (_ & Hsilent & e & l & Hrej & Hgen)]).
        * left. eexists _, _, _, log. exact Hgen.
        * right. split; [exact Hsilent|]. rewrite Hgen. cbn [fst snd].
          split; [reflexivity|].
          rewrite backupCalls_app.
          pose proof (attemptRequest_no_backup w
                        (Simple.inlinePrompt
                           (Simple.orDefault (Simple.get body "gender") (Simple.JStr "unisex"))
                           (Simple.orDefault (Simple.get body "occasion") (Simple.JStr "casual"))
                           (Simple.orDefault (Simple.get body "style") (Simple.JStr "modern"))
                           (String.concat " and " (map Simple.joinItem items)))
                        3 4 [] 1) as Hnone.
          unfold Simple.generateWithHuggingFace,
            Simple.generateWithHuggingFaceRetries in Hrej.
          rewrite Hrej in Hnone. cbn [snd] in Hnone. now rewrite Hnone.
      + right. left. split; [reflexivity|]. split; [reflexivity|].
        now apply generate_unprintable.
    - left. split; [reflexivity|]. now apply generate_refused. }
  destruct Hcases as [(Hpass & error & message & Hgen)
                     | [(Hpass & Hprint & Hgen)
                       | (Hpass & Hprint & [(message & design & flag & log & Hgen)
                                           | (Hsilent & Hpending & Hcalls)])]].
  - rewrite Hgen, Hpass. cbn [fst].
    repeat split; try discriminate; eauto.
  - rewrite Hgen, Hpass, Hprint. cbn [fst].
    repeat split; try discriminate; eauto.
  - rewrite Hgen, Hpass, Hprint. cbn [fst].
    repeat split; try discriminate; eauto 10.
  - rewrite Hpending, Hpass, Hprint.
    repeat split; try discriminate; eauto.
Qed.

(** An instance of the second part: a colour that is an object with a
    property named [toString]. *)
Lemma handler_answers_witness :
  Simple.generate Scenario.offline Cases.unprintableRequest
  = (Simple.Resolved
       (Simple.Status500 "Cannot convert object to primitive value"
          "Design generation failed"), []).
Proof.
  destruct (handler_answers Scenario.offline Cases.unprintableRequest)
    as [_ [Hunprintable _]].
  apply Hunprintable; reflexivity.
Defined.

(** X4.  The checks are checks of type too.  A value that is present but
    is not a string in one of the three enumerated fields (a [null]
    included: it is not replaced by the default), or is not an array in
    [colors], gets a 400, whatever the other fields are. *)
Theorem validation_checks_types (w : Simple.World) (body : Simple.Object)
    (field : string) (v : Simple.json) :
  Simple.get body field = Some v ->
  (In field ["gender"; "occasion"; "style"] /\ (forall s, v <> Simple.JStr s))
  \/ (field = "colors" /\ Simple.isArray v = false) ->
  exists error message,
    Simple.generate w body = (Simple.Resolved (Simple.Status400 error message), []).
Proof.
  intros Hget Hkind. apply generate_refused.
  unfold Simple.passesValidation.
  assert (Hnot : forall valid, (forall s, v <> Simple.JStr s) ->
                               Simple.includesValue valid v = false).
  { intros valid Hv. destruct v; try reflexivity. now contradiction (Hv s). }
  destruct Hkind as [[Hin Hv] | [-> Harr]].
  - cbn [In] in Hin.
    destruct Hin as [<- | [<- | [<- | []]]]; rewrite Hget; cbn [Simple.orDefault];
      rewrite (Hnot _ Hv); cbn [andb]; rewrite ?andb_false_r; reflexivity.
  - rewrite Hget. cbn [Simple.orDefault]. rewrite Harr. cbn [negb orb].
    apply andb_false_r.
Qed.

(** An instance: an explicit [null] for the gender. *)
Lemma validation_checks_types_witness :
  exists error message,
    Simple.generate Scenario.offline
      [("gender", Simple.JNull); ("colors", Simple.JArr [Simple.JStr "red"])]
    = (Simple.Resolved (Simple.Status400 error message), []).
Proof.
  apply (validation_checks_types Scenario.offline _ "gender" Simple.JNull).
  - reflexivity.
  - left. split; [simpl; auto | intros s; discriminate].
Defined.

(** X5.  Forced demo mode calls nothing.  When the request asks for demo
    mode or the process runs with [DEMO_MODE=true], an accepted request
    whose colours can be converted to text (the prompt is built before
    the branch on demo mode) is answered from the forced-demo template
    without any request to a provider, even where the provider would have
    answered. *)
Theorem forced_demo_calls_nothing (w : Simple.World) (body : Simple.Object) :
  Simple.passesValidation body = true ->
  Simple.printableColors body = true ->
  Simple.forcedDemo w
    (Simple.orDefault (Simple.get body "demoMode") (Simple.JBool false)) = true ->
  exists design flag,
    Simple.generate w body
    = (Simple.Resolved
         (Simple.Status200
            "Demo design generated! Get a Hugging Face API token for AI generation."
            design flag), [])
    /\ map Simple.url (Simple.images design)
       = [Simple.placeholderUrl Simple.demoSvg
            (Simple.orDefault (Simple.get body "gender") (Simple.JStr "unisex"))
            (Simple.orDefault (Simple.get body "style") (Simple.JStr "modern"))
            (Simple.orDefault (Simple.get body "occasion") (Simple.JStr "casual"))
            (Simple.orDefault (Simple.get body "colors")
               (Simple.JArr [Simple.JStr "#FF6B6B"; Simple.JStr "#4ECDC4"]))]
    /\ Simple.ToBoolean flag = true.
Proof.
  intros Hpass Hprint Hforced.
  destruct (generate_accepted w body Hpass Hprint)
    as (items & _ & _ & _ & [(tier & result & log & Hrun & Hgen)
                            | (Hf & _)]);
    [|rewrite Hforced in Hf; discriminate].
  pose proof (ChainRun_inv w _ _ _ _ _ _ _ _ _ Hrun) as Hinv.
  pose proof (ChainRun_image w _ _ _ _ _ _ _ _ _ Hrun) as Himage.
  assert (Htier : tier = Simple.Placeholder /\ log = []).
  { destruct tier.
    - destruct Hinv as [Hf _]. rewrite Hforced in Hf. discriminate.
    - destruct Hinv as [Hf _]. rewrite Hforced in Hf. discriminate.
    - destruct Hinv as [[_ Hlog] | [Hf _]]; [now split|].
      rewrite Hforced in Hf. discriminate. }
  destruct Htier as [-> ->]. rewrite Hforced in Himage.
  pose proof (isDemo_forced w _ result Hforced) as Hflag.
  eexists _, _. split; [|split].
  - rewrite Hgen. unfold Simple.success. rewrite Hflag. reflexivity.
  - cbn [Simple.designResponse Simple.images map Simple.url]. now rewrite Himage.
  - exact Hflag.
Qed.

(** An instance: demo mode asked for while the provider answers 200. *)
Lemma forced_demo_calls_nothing_witness :
  Simple.passesValidation Cases.demoRequest = true
  /\ snd (Simple.generate (Scenario.answering 200 (Some "image/jpeg") "image")
            Cases.demoRequest) = [].
Proof.
  split; [reflexivity|].
  destruct (forced_demo_calls_nothing
              (Scenario.answering 200 (Some "image/jpeg") "image")
              Cases.demoRequest eq_refl eq_refl eq_refl) as [design [flag [Hgen _]]].
  now rewrite Hgen.
Defined.

Section TierOrder.

Import Simple.

Variable w : World.

Lemma rejected_any_prompt (p q : string) :
  rejected (generateWithHuggingFace w p) = rejected (generateWithHuggingFace w q).
Proof.
  rewrite (generateWithHuggingFace_prompt w p q). apply rejected_withPrompt.
Qed.

(** The log of the primary client with the default budget. *)
Lemma generateWithHuggingFace_log (prompt : string) :
  let log := snd (generateWithHuggingFace w prompt) in
  backupCalls log = 0%nat
  /\ (attempts log <= 15)%nat
  /\ ((forall n, Log.quiet (huggingFace w [] n) = true) -> (attempts log <= 4)%nat).
Proof.
  unfold generateWithHuggingFace, generateWithHuggingFaceRetries.
  split; [apply attemptRequest_no_backup|]. split.
  - pose proof (attemptRequest_attempts w prompt 3 4 [] 1) as H.
    change (2 ^ 4)%nat with 16%nat in H. lia.
  - intros Hquiet.
    pose proof (attemptRequest_log w prompt 3 4 [] Hquiet 1) as H.
    cbv zeta in H. tauto.
Qed.

(** The log of the handler. *)
Lemma generate_log (body : Object) :
  let log := snd (generate w body) in
  let demoMode := orDefault (get body "demoMode") (JBool false) in
  (log = [] /\ (passesValidation body = false
                \/ printableColors body = false
                \/ forcedDemo w demoMode = true))
  \/ (exists prompt,
         passesValidation body = true
         /\ printableColors body = true
         /\ forcedDemo w demoMode = false
         /\ ((resolved (generateWithHuggingFace w prompt) = true
              /\ log = snd (generateWithHuggingFace w prompt))
             \/ (rejected (generateWithHuggingFace w prompt) = true
                 /\ log = (snd (generateWithHuggingFace w prompt)
                             ++ [RequestReplicate])%list))).
Proof.
  intros log demoMode. subst log.
  destruct (passesValidation body) eqn:Hpass.
  - destruct (printableColors body) eqn:Hprint.
    + destruct (generate_accepted w body Hpass Hprint)
        as (items & _ & _ & _ & [(tier & result & log & Hrun & Hgen)
                                | (Hf & _ & e & l & Hrej & Hgen)]).
      * fold demoMode in Hrun. rewrite Hgen. cbn [snd].
        destruct (ChainRun_log w _ _ _ _ _ _ _ _ _ Hrun) as [[Hf ->] | [Hf Hlog]].
        -- left. split; [reflexivity | now right; right].
        -- right. eexists. repeat split; [exact Hf | exact Hlog].
      * fold demoMode in Hf. rewrite Hgen. cbn [snd].
        right. eexists. repeat split; [exact Hf|].
        right. unfold rejected. rewrite Hrej. now split.
    + rewrite (generate_unprintable w body Hpass Hprint).
      left. split; [reflexivity | now right; left].
  - destruct (generate_refused w body Hpass) as [e [m Hgen]].
    rewrite Hgen. left. split; [reflexivity | now left].
Qed.

End TierOrder.

(** X6.  The order of the tiers.  The log of the handler is the log of the
    primary client, followed by at most one request to the backup
    provider.  The primary client sends at most fifteen requests, and at
    most four where no request raises an error after the code destroyed
    it.  Replicate is called exactly when the request is accepted, its
    colours can be converted to text, demo mode is not forced and the
    promise of the primary client is rejected. *)
Theorem fallback_order (w : Simple.World) (body : Simple.Object) :
  let log := snd (Simple.generate w body) in
  let demoMode := Simple.orDefault (Simple.get body "demoMode") (Simple.JBool false) in
  (exists primaryLog,
      (log = primaryLog \/ log = (primaryLog ++ [Simple.RequestReplicate])%list)
      /\ Simple.backupCalls primaryLog = 0%nat
      /\ (Simple.attempts primaryLog <= 15)%nat
      /\ ((forall n, Log.quiet (Simple.huggingFace w [] n) = true) ->
          (Simple.attempts primaryLog <= 4)%nat))
  /\ (Simple.attempts log <= 15)%nat
  /\ (Simple.backupCalls log <= 1)%nat
  /\ (Simple.backupCalls log = 1%nat
      <-> Simple.passesValidation body = true
          /\ Simple.printableColors body = true
          /\ Simple.forcedDemo w demoMode = false
          /\ Simple.primaryFails w).
Proof.
  intros log demoMode. subst log demoMode.
  destruct (generate_log w body)
    as [[Hlog Hwhy] | (prompt & Hpass & Hprint & Hforced & Hrun)].
  - rewrite Hlog. split; [exists []; repeat split; auto; cbn; lia|].
    cbn. repeat split; try lia; try discriminate.
    intros (Hp & Hc & Hf & _). destruct Hwhy as [H | [H | H]]; congruence.
  - destruct (generateWithHuggingFace_log w prompt) as (Hzero & Hmost & Hfour).
    destruct Hrun as [[Hres Hlog] | [Hrej Hlog]]; rewrite Hlog.
    + split; [eexists; repeat split; [now left | exact Hzero | exact Hmost | exact Hfour]|].
      rewrite Hzero. repeat split; try lia; try discriminate.
      intros (_ & _ & _ & Hfails). specialize (Hfails prompt).
      unfold Simple.resolved in Hres. unfold Simple.rejected in Hfails.
      destruct (fst (Simple.generateWithHuggingFace w prompt)); discriminate.
    + split; [eexists; repeat split; [now right | exact Hzero | exact Hmost | exact Hfour]|].
      rewrite attempts_app, backupCalls_app, Hzero.
      change (Simple.attempts [Simple.RequestReplicate]) with 0%nat.
      change (Simple.backupCalls [Simple.RequestReplicate]) with 1%nat.
      split; [lia|]. split; [lia|]. split; [|reflexivity].
      intros _. split; [exact Hpass|]. split; [exact Hprint|]. split; [exact Hforced|].
      intros p. now rewrite (rejected_any_prompt w p prompt).
Qed.

(** An instance: a 401 from the primary provider brings Replicate in. *)
Lemma fallback_order_witness :
  Simple.backupCalls
    (snd (Simple.generate (Scenario.answering 401 (Some "application/json") "Unauthorized")
            Scenario.casualRequest)) = 1%nat.
Proof.
  destruct (fallback_order (Scenario.answering 401 (Some "application/json") "Unauthorized")
              Scenario.casualRequest) as [_ [_ [_ Hiff]]].
  apply Hiff. split; [reflexivity|]. split; [reflexivity|]. split; [reflexivity|].
  intros prompt. reflexivity.
Defined.

(** X7.  The prompt of the response is the prompt of the request.
    Whichever tier produced the image, the response reports the prompt that
    the handler built: the fixed frame around the style, the occasion, the
    gender and the entries of [colors] joined by [and], a [null] entry
    leaving an empty place. *)
Theorem response_prompt_from_request (w : Simple.World) (body : Simple.Object)
    (message : string) (design : Simple.Design) (flag : Simple.json)
    (log : list Simple.Call) :
  Simple.generate w body
    = (Simple.Resolved (Simple.Status200 message design flag), log) ->
  exists items,
    Simple.orDefault (Simple.get body "colors")
      (Simple.JArr [Simple.JStr "#FF6B6B"; Simple.JStr "#4ECDC4"]) = Simple.JArr items
    /\ Simple.ai_prompt (Simple.aiGeneration design)
       = "A professional fashion design illustration of a "
           ++ Simple.ToString (Simple.orDefault (Simple.get body "style") (Simple.JStr "modern"))
           ++ " "
           ++ Simple.ToString (Simple.orDefault (Simple.get body "occasion") (Simple.JStr "casual"))
           ++ " outfit for "
           ++ Simple.ToString (Simple.orDefault (Simple.get body "gender") (Simple.JStr "unisex"))
           ++ ", featuring "
           ++ String.concat " and " (map Simple.joinItem items)
           ++ " colors, high-quality fashion illustration, clean professional presentation, fashion portfolio style, detailed clothing design, modern aesthetic, studio lighting, white background".
Proof.
  intros Hgen.
  destruct (generate_success_items w body message design flag log Hgen)
    as (_ & _ & items & result & Hitems & Hrun & -> & _).
  exists items. split; [exact Hitems|].
  cbn [Simple.designResponse Simple.aiGeneration Simple.ai_prompt].
  now rewrite (ChainRun_prompt w _ _ _ _ _ _ _ _ _ Hrun).
Qed.

(** An instance: the prompt reported with an image of the backup tier. *)
Lemma response_prompt_from_request_witness :
  exists message design flag log,
    Simple.generate (Scenario.answering 401 (Some "application/json") "Unauthorized")
      Scenario.casualRequest
    = (Simple.Resolved (Simple.Status200 message design flag), log)
    /\ Simple.ai_prompt (Simple.aiGeneration design)
       = "A professional fashion design illustration of a vintage party outfit for female, featuring #000000 and gold and #FFFFFF colors, high-quality fashion illustration, clean professional presentation, fashion portfolio style, detailed clothing design, modern aesthetic, studio lighting, white background".
Proof.
  assert (G : exists message design flag log,
             Simple.generate
               (Scenario.answering 401 (Some "application/json") "Unauthorized")
               Scenario.casualRequest
             = (Simple.Resolved (Simple.Status200 message design flag), log)).
  { eexists _, _, _, _. vm_compute. reflexivity. }
  destruct G as [message [design [flag [log Hgen]]]].
  exists message, design, flag, log. split; [exact Hgen|].
  destruct (response_prompt_from_request _ _ _ _ _ _ Hgen) as [items [Hitems Hprompt]].
  rewrite Hprompt. injection Hitems as <-. reflexivity.
Defined.

(** An instance: the stub of the backup tier, attributed and flagged. *)
Lemma backup_flagged_demo_witness :
  exists message design flag log,
    Simple.generate (Scenario.answering 401 (Some "application/json") "Unauthorized")
      Scenario.casualRequest
    = (Simple.Resolved (Simple.Status200 message design flag), log)
    /\ map Simple.url (Simple.images design)
       = ["data:image/svg+xml;base64," ++ base64 Simple.replicateSvg]
    /\ Simple.ToBoolean flag = true.
Proof.
  assert (G : exists message design flag log,
             Simple.generate
               (Scenario.answering 401 (Some "application/json") "Unauthorized")
               Scenario.casualRequest
             = (Simple.Resolved (Simple.Status200 message design flag), log)).
  { eexists _, _, _, _. vm_compute. reflexivity. }
  destruct G as [message [design [flag [log Hgen]]]].
  exists message, design, flag, log. split; [exact Hgen|].
  apply (backup_flagged_demo _ _ _ _ _ _ Hgen). reflexivity.
Defined.

(** An instance: the JPEG of the third attempt comes from the primary tier. *)
Lemma real_image_from_primary_witness :
  Simple.producer (Scenario.loadingTwice "image") (Simple.JBool false) = Simple.Primary.
Proof.
  assert (G : exists message design flag log,
             Simple.generate (Scenario.loadingTwice "image") []
             = (Simple.Resolved (Simple.Status200 message design flag), log)
             /\ map Simple.url (Simple.images design) = ["data:image/jpeg;base64,aW1hZ2U="]).
  { eexists _, _, _, _. split; vm_compute; reflexivity. }
  destruct G as [message [design [flag [log [Hgen Hurl]]]]].
  apply (real_image_from_primary _ _ _ _ _ _ _ Hgen Hurl). reflexivity.
Defined.

(** ** [startServer] *)

Section PortSearch.

Import Server.

Variable listen : Z -> ListenOutcome.
Variable currentPort : Z.

Lemma portsFrom_snoc (first : Z) (n : nat) :
  (portsFrom first n ++ [(first + Z.of_nat n)%Z])%list = portsFrom first (S n).
Proof.
  revert first. induction n as [|n IHn]; intros first.
  - cbn. now rewrite Z.add_0_r.
  - change (portsFrom first (S (S n)))
      with (first :: portsFrom (first + 1)%Z (S n)).
    rewrite <- (IHn (first + 1)%Z).
    cbn [portsFrom app]. do 3 f_equal. lia.
Qed.

(** The search from [port], which is [j] ports above [currentPort]. *)
Lemma startServer_settles_at (d : nat) :
  forall fuel (j : nat),
    (d < fuel)%nat ->
    (j + d <= 10)%nat ->
    (forall i, (j <= i < j + d)%nat ->
               listen (currentPort + Z.of_nat i) = AddressInUse) ->
    (listen (currentPort + Z.of_nat (j + d)) <> AddressInUse \/ (j + d = 10)%nat) ->
    startServer listen currentPort fuel (currentPort + Z.of_nat j)
    = (match listen (currentPort + Z.of_nat (j + d)) with
       | Listening => Serving (currentPort + Z.of_nat (j + d))
       | _ => Exited 1
       end,
       (flat_map (fun p => [Listen p; Wait 1000])
          (portsFrom (currentPort + Z.of_nat j) d)
        ++ Listen (currentPort + Z.of_nat (j + d))
           :: match listen (currentPort + Z.of_nat (j + d)) with
              | Listening => []
              | _ => [Exit 1]
              end)%list).
Proof.
  induction d as [|d IH]; intros fuel j Hfuel Hrange Hbusy Hlast.
  - destruct fuel as [|fuel]; [lia|].
    rewrite Nat.add_0_r in *. cbn [startServer portsFrom flat_map app].
    destruct (listen (currentPort + Z.of_nat j)) eqn:Hl; try reflexivity.
    destruct Hlast as [Hne | Hten]; [now contradiction Hne|].
    assert (Hge : (currentPort + Z.of_nat j - currentPort <? 10)%Z = false)
      by (apply Z.ltb_ge; lia).
    now rewrite Hge.
  - destruct fuel as [|fuel]; [lia|].
    cbn [startServer].
    rewrite (Hbusy j ltac:(lia)).
    assert (Hlt : (currentPort + Z.of_nat j - currentPort <? 10)%Z = true)
      by (apply Z.ltb_lt; lia).
    rewrite Hlt.
    replace (currentPort + Z.of_nat j + 1)%Z with (currentPort + Z.of_nat (S j))%Z by lia.
    replace (j + S d)%nat with (S j + d)%nat in * by lia.
    rewrite (IH fuel (S j)); try assumption; try lia.
    + cbn [portsFrom flat_map app].
      replace (currentPort + Z.of_nat j + 1)%Z with (currentPort + Z.of_nat (S j))%Z by lia.
      reflexivity.
    + intros i Hi. apply Hbusy. lia.
Qed.

End PortSearch.

(** X8.  The search for a port.  Let [k <= 10] be such that the ports
    [currentPort] to [currentPort + k - 1] are in use and port
    [currentPort + k] is not, or [k] is 10.  Then [startServer] tries
    exactly the ports [currentPort] to [currentPort + k] in increasing
    order, one second apart, and ends on the last one: it serves there if
    the port listens, and exits with code 1 on any error, an address in use
    on the eleventh port included. *)
Theorem startServer_settles (listen : Z -> Server.ListenOutcome)
    (currentPort : Z) (k : nat) :
  (k <= 10)%nat ->
  (forall i, (i < k)%nat ->
             listen (currentPort + Z.of_nat i)%Z = Server.AddressInUse) ->
  (listen (currentPort + Z.of_nat k)%Z <> Server.AddressInUse \/ k = 10%nat) ->
  fst (Server.start listen currentPort)
    = match listen (currentPort + Z.of_nat k)%Z with
      | Server.Listening => Server.Serving (currentPort + Z.of_nat k)
      | _ => Server.Exited 1
      end
  /\ Server.portsTried (snd (Server.start listen currentPort))
     = Server.portsFrom currentPort (S k)
  /\ length (filter (fun a => match a with Server.Wait _ => true | _ => false end)
               (snd (Server.start listen currentPort))) = k.
Proof.
  intros Hk Hbusy Hlast. unfold Server.start.
  pose proof (startServer_settles_at listen currentPort k 11 0) as H.
  cbn [Nat.add Z.of_nat] in H. rewrite Z.add_0_r in H.
  rewrite H; try assumption; try lia.
  - cbn [fst snd]. split; [reflexivity|].
    assert (Hports : forall (first : Z) (n : nat) (tail : list Server.Action),
               Server.portsTried
                 (flat_map (fun p => [Server.Listen p; Server.Wait 1000])
                    (Server.portsFrom first n) ++ tail)
               = (Server.portsFrom first n ++ Server.portsTried tail)%list
               /\ length (filter (fun a => match a with
                                           | Server.Wait _ => true
                                           | _ => false
                                           end)
                            (flat_map (fun p => [Server.Listen p; Server.Wait 1000])
                               (Server.portsFrom first n) ++ tail))
                  = (n + length (filter (fun a => match a with
                                                  | Server.Wait _ => true
                                                  | _ => false
                                                  end) tail))%nat).
    { intros first n. revert first. induction n as [|n IHn]; intros first tail.
      - split; reflexivity.
      - destruct (IHn (first + 1)%Z tail) as [Hp Hw].
        cbn [Server.portsFrom flat_map app]. unfold Server.portsTried in Hp |- *.
        cbn [flat_map app filter length]. rewrite Hp, Hw. split; reflexivity. }
    destruct (Hports currentPort k
                (Server.Listen (currentPort + Z.of_nat k)
                   :: match listen (currentPort + Z.of_nat k)%Z with
                      | Server.Listening => []
                      | _ => [Server.Exit 1]
                      end)) as [-> ->].
    split.
    + rewrite <- portsFrom_snoc.
      destruct (listen (currentPort + Z.of_nat k)%Z); reflexivity.
    + destruct (listen (currentPort + Z.of_nat k)%Z); cbn; lia.
  - intros i Hi. apply Hbusy. lia.
Qed.

(** An instance: two ports taken, the third one free. *)
Lemma startServer_settles_witness :
  fst (Server.start Cases.twoTaken 5002) = Server.Serving 5004
  /\ Server.portsTried (snd (Server.start Cases.twoTaken 5002)) = [5002; 5003; 5004]%Z.
Proof.
  destruct (startServer_settles Cases.twoTaken 5002 2) as [Hfinal [Hports _]].
  - lia.
  - intros i Hi. assert (Hcases : i = 0%nat \/ i = 1%nat) by lia.
    destruct Hcases as [-> | ->]; reflexivity.
  - left. discriminate.
  - split; [exact Hfinal | exact Hports].
Defined.

(** X9.  Eleven ports, not ten.  When every port from [currentPort] to
    [currentPort + 10] is in use, [startServer] has listened on each of
    these eleven ports before it exits with code 1. *)
Theorem startServer_gives_up (listen : Z -> Server.ListenOutcome) (currentPort : Z) :
  (forall i, (i <= 10)%nat ->
             listen (currentPort + Z.of_nat i)%Z = Server.AddressInUse) ->
  fst (Server.start listen currentPort) = Server.Exited 1
  /\ Server.portsTried (snd (Server.start listen currentPort))
     = Server.portsFrom currentPort 11
  /\ length (Server.portsTried (snd (Server.start listen currentPort))) = 11%nat.
Proof.
  intros Hbusy.
  destruct (startServer_settles listen currentPort 10) as [Hfinal [Hports _]].
  - lia.
  - intros i Hi. apply Hbusy. lia.
  - now right.
  - rewrite (Hbusy 10%nat) in Hfinal by lia.
    rewrite Hports. repeat split. exact Hfinal.
Qed.

Lemma startServer_gives_up_witness :
  fst (Server.start Cases.allTaken 5002) = Server.Exited 1
  /\ Server.portsTried (snd (Server.start Cases.allTaken 5002))
     = [5002; 5003; 5004; 5005; 5006; 5007; 5008; 5009; 5010; 5011; 5012]%Z.
Proof.
  destruct (startServer_gives_up Cases.allTaken 5002) as [Hfinal [Hports _]].
  - intros i Hi. reflexivity.
  - split; [exact Hfinal | exact Hports].
Defined.

(** ** The prompt builders *)

Section Builders.

Import HuggingFace.

Lemma lookupOr_fallback (o : literal) (key fallback : string) :
  assoc o key = None -> assoc ObjectPrototype key = None ->
  lookupOr o key fallback = VString fallback.
Proof. unfold lookupOr, lookup. now intros -> ->. Qed.

Lemma lookupText_undefined (o : literal) (key : string) :
  assoc o key = None -> assoc ObjectPrototype key = None ->
  lookupText o key = "undefined".
Proof. unfold lookupText, lookup. now intros -> ->. Qed.

(** The two colour tables agree away from [#A78BFA]. *)
Lemma colorMap_agree (color : string) :
  color <> "#A78BFA" -> assoc Replicate.colorMap color = assoc colorMap color.
Proof.
  intros Hne. unfold Replicate.colorMap, colorMap. cbn [assoc].
  assert (Hfalse : String.eqb "#A78BFA" color = false).
  { apply String.eqb_neq. congruence. }
  rewrite Hfalse. reflexivity.
Qed.

Lemma colorName_agree (color : string) :
  color <> "#A78BFA" -> Replicate.colorName color = colorName color.
Proof.
  intros Hne. unfold Replicate.colorName, colorName, lookupOr, lookup.
  now rewrite (colorMap_agree color Hne).
Qed.

(** The tables of moods and of seasons are the same in both files. *)
Lemma moodDescriptions_agree : Replicate.moodDescriptions = moodDescriptions.
Proof. reflexivity. Qed.

Lemma seasonalDetails_agree : Replicate.seasonalDetails = seasonalDetails.
Proof. reflexivity. Qed.

End Builders.

(** X10.  Unrecognised mood and season.  A mood that is neither in the
    table of moods nor the name of an inherited member gives the generic
    phrase [stylish design]; a season other than [all-season] that is
    neither in the table of seasons nor such a name puts the text
    [undefined. ] into the prompt, right before the technical suffix. *)
Theorem unrecognised_mood_and_season (preferences : HuggingFace.Preferences)
    (m s : string) :
  HuggingFace.mood preferences = Some m ->
  HuggingFace.season preferences = Some s ->
  HuggingFace.assoc HuggingFace.moodDescriptions m = None ->
  HuggingFace.assoc HuggingFace.ObjectPrototype m = None ->
  s <> "all-season" ->
  HuggingFace.assoc HuggingFace.seasonalDetails s = None ->
  HuggingFace.assoc HuggingFace.ObjectPrototype s = None ->
  exists before,
    HuggingFace.generateFashionPrompt preferences
    = before ++ "with a stylish design. " ++ "undefined. "
        ++ HuggingFace.technicalSuffix.
Proof.
  intros Hm Hs Hmood Hmood' Hne Hseason Hseason'.
  unfold HuggingFace.generateFashionPrompt. rewrite Hm, Hs.
  cbn [HuggingFace.defaultTo].
  rewrite (lookupOr_fallback _ _ _ Hmood Hmood').
  rewrite (lookupText_undefined _ _ Hseason Hseason').
  apply String.eqb_neq in Hne. rewrite Hne. cbn [negb HuggingFace.toText].
  cbv zeta.
  match goal with
  | |- exists before, ((?p ++ _) ++ _) ++ _ = _ => exists p
  end.
  rewrite !append_assoc. reflexivity.
Qed.

(** An instance: the mood [dreamy] and the season [monsoon]. *)
Lemma unrecognised_mood_and_season_witness :
  exists before,
    HuggingFace.generateFashionPrompt Cases.summerPreferences
    = before ++ "with a stylish design. " ++ "undefined. "
        ++ HuggingFace.technicalSuffix.
Proof.
  apply (unrecognised_mood_and_season Cases.summerPreferences "dreamy" "monsoon");
    try reflexivity.
  discriminate.
Defined.

(** X11.  The two prompt builders.  [config/replicate.js] and
    [config/huggingface.js] build the same prompt from the same
    preferences, unless [#A78BFA] is among the colours: on that token the
    former keeps the raw token where the latter writes [violet purple]. *)
Theorem prompt_builders_agree (preferences : HuggingFace.Preferences) :
  (forall tokens, HuggingFace.colors preferences = Some tokens ->
                  ~ In "#A78BFA" tokens) ->
  Replicate.generateFashionPrompt preferences
  = HuggingFace.generateFashionPrompt preferences.
Proof.
  intros Hcolors.
  cbv beta delta [Replicate.generateFashionPrompt
                  HuggingFace.generateFashionPrompt].
  rewrite moodDescriptions_agree, seasonalDetails_agree.
  destruct (HuggingFace.colors preferences) as [[|c cs]|] eqn:Hc.
  1, 3: exact eq_refl.
  assert (Hnames : map Replicate.colorName (c :: cs)
                   = map HuggingFace.colorName (c :: cs)).
  { apply map_ext_in. intros color Hin. apply colorName_agree.
    intros ->. exact (Hcolors (c :: cs) eq_refl Hin). }
  rewrite Hnames. exact eq_refl.
Qed.

Lemma prompt_builders_agree_witness :
  Replicate.generateFashionPrompt Cases.summerPreferences
  = HuggingFace.generateFashionPrompt Cases.summerPreferences
  /\ HuggingFace.toText (Replicate.colorName "#A78BFA") = "#A78BFA"
  /\ HuggingFace.toText (HuggingFace.colorName "#A78BFA") = "violet purple".
Proof.
  split; [|split; reflexivity].
  apply (prompt_builders_agree Cases.summerPreferences).
  intros tokens Htokens. injection Htokens as <-.
  intros [H | [H | []]]; discriminate H.
Defined.

(** ** [generateDesign] of [config/huggingface.js] *)

Section HuggingFaceDesign.

Import HuggingFace.

Lemma includes_append_r (a b needle : string) :
  JS.includes b needle = true -> JS.includes (a ++ b) needle = true.
Proof.
  intros Hb. induction a as [|x a IH]; [exact Hb|].
  cbn [append JS.includes]. rewrite IH. apply orb_true_r.
Qed.

Lemma includes_cons (a : ascii) (s needle : string) :
  JS.includes s needle = true -> JS.includes (String a s) needle = true.
Proof. intros H. cbn [JS.includes]. rewrite H. apply orb_true_r. Qed.

(** A byte taken as a continuation or as a lead byte is not ASCII. *)
Lemma between_high (lo hi : N) (c : ascii) :
  (128 <= lo)%N -> between lo hi c = true -> between 0 127 c = false.
Proof.
  unfold between. intros Hlo H. apply andb_true_iff in H. destruct H as [H _].
  apply N.leb_le in H. apply andb_false_iff. right. apply N.leb_gt. lia.
Qed.

(** A text that starts with an ASCII character is not found at a byte
    that is not ASCII. *)
Lemma includes_drop (h b : ascii) (needle s : string) :
  between 0 127 h = true -> between 0 127 b = false ->
  JS.includes (String b s) (String h needle) = true ->
  JS.includes s (String h needle) = true.
Proof.
  intros Hh Hb H. cbn [JS.includes JS.startsWith] in H.
  destruct (Ascii.eqb h b) eqn:E; [|exact H].
  apply Ascii.eqb_eq in E. subst b. congruence.
Qed.

Lemma startsWith_bufferToString (needle : string) :
  forallb (between 0 127) (list_ascii_of_string needle) = true ->
  forall s,
    JS.startsWith s needle = true ->
    JS.startsWith (bufferToString s) needle = true.
Proof.
  induction needle as [|h needle IH]; intros Hascii s Hs.
  - now destruct (bufferToString s).
  - cbn [list_ascii_of_string forallb] in Hascii.
    apply andb_true_iff in Hascii. destruct Hascii as [Hh Hascii].
    destruct s as [|b s]; [discriminate|].
    cbn [JS.startsWith] in Hs. apply andb_true_iff in Hs. destruct Hs as [E Hs].
    apply Ascii.eqb_eq in E. subst b.
    cbn [bufferToString]. rewrite Hh. cbn [JS.startsWith].
    rewrite Ascii.eqb_refl. cbn [andb]. now apply IH.
Qed.

(** Decoding keeps every occurrence of an ASCII text: the bytes that it
    replaces are not ASCII. *)
Lemma includes_bufferToString (needle s : string) :
  forallb (between 0 127) (list_ascii_of_string needle) = true ->
  JS.includes s needle = true ->
  JS.includes (bufferToString s) needle = true.
Proof.
  intros Hascii.
  destruct needle as [|h needle].
  { intros _. now destruct (bufferToString s). }
  assert (Hh : between 0 127 h = true).
  { cbn [list_ascii_of_string forallb] in Hascii.
    now apply andb_true_iff in Hascii. }
  remember (String.length s) as n eqn:Hn.
  revert s Hn. induction n as [n IH] using lt_wf_ind. intros s Hn Hs.
  destruct s as [|a rest]; [discriminate|].
  cbn [JS.includes] in Hs. apply orb_true_iff in Hs.
  destruct Hs as [Hs | Hs].
  { apply (startsWith_bufferToString _ Hascii) in Hs.
    destruct (bufferToString (String a rest)); cbn [JS.includes];
      now rewrite Hs. }
  cbn [String.length] in Hn.
  assert (Hrec : forall t, (String.length t < n)%nat ->
                           JS.includes t (String h needle) = true ->
                           JS.includes (bufferToString t) (String h needle) = true).
  { intros t Ht. now apply (IH (String.length t)). }
  clear IH.
  assert (Hdrop : forall lo hi b t,
             (128 <= lo)%N -> between lo hi b = true ->
             JS.includes (String b t) (String h needle) = true ->
             JS.includes t (String h needle) = true).
  { intros lo hi b t Hlo Hb. apply includes_drop; [exact Hh|].
    now apply (between_high lo hi). }
  assert (Hlo3 : (128 <= (if between 224 224 a then 160 else 128))%N)
    by (destruct (between 224 224 a); lia).
  assert (Hlo4 : (128 <= (if between 240 240 a then 144 else 128))%N)
    by (destruct (between 240 240 a); lia).
  assert (H128 : (128 <= 128)%N) by lia.
  cbn [bufferToString]. cbv zeta.
  destruct (between 0 127 a).
  { apply includes_cons, Hrec; [lia | exact Hs]. }
  destruct (between 194 223 a).
  { destruct rest as [|b rest1]; [discriminate|].
    cbn [String.length] in Hn.
    destruct (between 128 191 b) eqn:Hb.
    - do 2 apply includes_cons. apply Hrec; [lia|].
      exact (Hdrop _ _ _ _ H128 Hb Hs).
    - apply includes_append_r, Hrec; [cbn [String.length]; lia | exact Hs]. }
  destruct (between 224 239 a).
  { destruct rest as [|b rest1]; [discriminate|].
    cbn [String.length] in Hn.
    destruct (between _ _ b) eqn:Hb.
    - pose proof (Hdrop _ _ _ _ Hlo3 Hb Hs) as Hs1.
      destruct rest1 as [|c rest2]; [discriminate|].
      cbn [String.length] in Hn.
      destruct (between 128 191 c) eqn:Hc.
      + do 3 apply includes_cons. apply Hrec; [lia|].
        exact (Hdrop _ _ _ _ H128 Hc Hs1).
      + apply includes_append_r, Hrec; [cbn [String.length]; lia | exact Hs1].
    - apply includes_append_r, Hrec; [cbn [String.length]; lia | exact Hs]. }
  destruct (between 240 244 a).
  { destruct rest as [|b rest1]; [discriminate|].
    cbn [String.length] in Hn.
    destruct (between _ _ b) eqn:Hb.
    - pose proof (Hdrop _ _ _ _ Hlo4 Hb Hs) as Hs1.
      destruct rest1 as [|c rest2]; [discriminate|].
      cbn [String.length] in Hn.
      destruct (between 128 191 c) eqn:Hc.
      + pose proof (Hdrop _ _ _ _ H128 Hc Hs1) as Hs2.
        destruct rest2 as [|d rest3]; [discriminate|].
        cbn [String.length] in Hn.
        destruct (between 128 191 d) eqn:Hd.
        * do 4 apply includes_cons. apply Hrec; [lia|].
          exact (Hdrop _ _ _ _ H128 Hd Hs2).
        * apply includes_append_r, Hrec; [cbn [String.length]; lia | exact Hs2].
      + apply includes_append_r, Hrec; [cbn [String.length]; lia | exact Hs1].
    - apply includes_append_r, Hrec; [cbn [String.length]; lia | exact Hs]. }
  apply includes_append_r, Hrec; [lia | exact Hs].
Qed.

End HuggingFaceDesign.

(** X12.  When [generateDesign] of [config/huggingface.js] succeeds.  It
    returns a result exactly when the token is set and not empty, the
    status of the response is in the range 200 to 299 and its content type
    contains the text [image]; the result then carries the body as a JPEG
    data URL, whatever the content type names, the prompt of the
    preferences, and the time between the two readings of the clock. *)
Theorem hf_design_success (hfToken : option string)
    (net : HuggingFace.RequestOutcome) (startTime endTime : Z)
    (preferences : HuggingFace.Preferences) (modelType : string)
    (r : HuggingFace.GenerationResult) :
  HuggingFace.generateDesign hfToken net startTime endTime preferences modelType
  = Normal r
  <-> exists token status contentType data,
        hfToken = Some token /\ token <> ""
        /\ net = HuggingFace.Response status (Some contentType) data
        /\ (200 <= status < 300)%Z
        /\ JS.includes contentType "image" = true
        /\ r = {| HuggingFace.success := true;
                  HuggingFace.image :=
                    {| HuggingFace.url := "data:image/jpeg;base64," ++ base64 data;
                       HuggingFace.originalPrompt :=
                         HuggingFace.generateFashionPrompt preferences |};
                  HuggingFace.metadata :=
                    {| HuggingFace.model := modelType;
                       HuggingFace.modelId :=
                         HuggingFace.toText
                           (HuggingFace.lookupOr HuggingFace.FASHION_MODELS modelType
                              "stabilityai/stable-diffusion-xl-base-1.0");
                       HuggingFace.size := "1024x1024";
                       HuggingFace.generationTime := (endTime - startTime)%Z;
                       HuggingFace.cost := 0 |} |}.
Proof.
  unfold HuggingFace.generateDesign, HuggingFace.generateDesignTry.
  split.
  - destruct hfToken as [[|c token]|]; try discriminate.
    destruct net as [status contentType data | message]; try discriminate.
    cbv zeta.
    destruct (negb (HuggingFace.ok status)) eqn:Hok.
    { destruct (status =? 503)%Z; [discriminate|].
      destruct (status =? 429)%Z; discriminate. }
    destruct contentType as [t|]; [|discriminate].
    destruct (negb (negb (t =? "") && JS.includes t "image")) eqn:Himage;
      [discriminate|].
    intros Hr. injection Hr as <-.
    apply negb_false_iff in Hok, Himage.
    apply andb_true_iff in Himage as [_ Himage].
    unfold HuggingFace.ok in Hok. apply andb_true_iff in Hok as [Hlo Hhi].
    exists (String c token), status, t, data.
    repeat split; try assumption; try lia; discriminate.
  - intros (token & status & contentType & data & -> & Htoken & -> & Hstatus
            & Himage & ->).
    destruct token as [|c token]; [contradiction|].
    cbv zeta.
    assert (Hok : HuggingFace.ok status = true).
    { unfold HuggingFace.ok. apply andb_true_iff. split; lia. }
    rewrite Hok. cbn [negb].
    assert (Hne : (contentType =? "") = false).
    { destruct contentType; [discriminate Himage | reflexivity]. }
    rewrite Hne, Himage. reflexivity.
Qed.

Lemma hf_design_success_witness :
  exists r,
    HuggingFace.generateDesign (Some "hf_token")
      (HuggingFace.Response 200 (Some "image/jpeg") Scenario.jpegBytes)
      1000 4500 Cases.summerPreferences "flux" = Normal r
    /\ HuggingFace.generationTime (HuggingFace.metadata r) = 3500%Z.
Proof.
  eexists. split.
  - apply (hf_design_success (Some "hf_token")
             (HuggingFace.Response 200 (Some "image/jpeg") Scenario.jpegBytes)
             1000 4500 Cases.summerPreferences "flux").
    exists "hf_token", 200%Z, "image/jpeg", Scenario.jpegBytes.
    split; [reflexivity|]. split; [discriminate|]. split; [reflexivity|].
    split; [lia|]. split; reflexivity.
  - reflexivity.
Defined.

(** X13.  A loading model and a rate limit.  On a status 503 or 429 the
    [try] block throws a message that holds neither number, so the
    [catch] block does not recognise it and reports it under the generic
    prefix [Design generation failed: ], not with its own messages for 503
    and 429. *)
Theorem hf_design_loading_and_rate_limit (token : string)
    (contentType : option string) (data : string) (startTime endTime : Z)
    (preferences : HuggingFace.Preferences) (modelType : string) :
  token <> "" ->
  HuggingFace.generateDesign (Some token)
    (HuggingFace.Response 503 contentType data)
    startTime endTime preferences modelType
  = Throw "Design generation failed: Model is loading, please try again in a few minutes."
  /\ HuggingFace.generateDesign (Some token)
       (HuggingFace.Response 429 contentType data)
       startTime endTime preferences modelType
     = Throw "Design generation failed: Rate limit exceeded. Please try again later.".
Proof.
  intros Htoken. destruct token as [|c token]; [contradiction|].
  split; reflexivity.
Qed.

Lemma hf_design_loading_and_rate_limit_witness :
  HuggingFace.generateDesign (Some "hf_token")
    (HuggingFace.Response 503 (Some "application/json") "{'error':'loading'}")
    0 10 Cases.summerPreferences "sdxl"
  = Throw "Design generation failed: Model is loading, please try again in a few minutes.".
Proof.
  apply (hf_design_loading_and_rate_limit "hf_token").
  discriminate.
Defined.

(** X14.  What is reported as a bad token.  An answer outside 200 to 299
    other than 503 and 429 is reported as an invalid API token as soon as
    its status is 401, or its body mentions [401] or [authorization]
    anywhere, whatever the status. *)
Theorem hf_design_reports_token_error (token : string) (status : Z)
    (contentType : option string) (data : string) (startTime endTime : Z)
    (preferences : HuggingFace.Preferences) (modelType : string) :
  token <> "" ->
  HuggingFace.ok status = false -> status <> 503%Z -> status <> 429%Z ->
  status = 401%Z \/ JS.includes data "401" = true
  \/ JS.includes data "authorization" = true ->
  HuggingFace.generateDesign (Some token)
    (HuggingFace.Response status contentType data)
    startTime endTime preferences modelType
  = Throw "Invalid Hugging Face API token. Please check your configuration.".
Proof.
  intros Htoken Hok H503 H429 Hcases.
  destruct token as [|c token]; [contradiction|].
  unfold HuggingFace.generateDesign, HuggingFace.generateDesignTry.
  cbv zeta. rewrite Hok. cbn [negb].
  apply Z.eqb_neq in H503, H429. rewrite H503, H429.
  unfold HuggingFace.generateDesignCatch.
  destruct Hcases as [-> | [Hbody | Hbody]].
  - assert (Hstatus : JS.includes
                        ("Hugging Face API error: " ++ decimal 401 ++ " "
                           ++ bufferToString data)
                        "401" = true) by reflexivity.
    rewrite Hstatus, orb_true_r. reflexivity.
  - assert (Hmessage : JS.includes
                         ("Hugging Face API error: " ++ decimal status ++ " "
                            ++ bufferToString data)
                         "401" = true).
    { do 3 apply includes_append_r.
      apply includes_bufferToString; [reflexivity | exact Hbody]. }
    rewrite Hmessage, orb_true_r. reflexivity.
  - assert (Hmessage : JS.includes
                         ("Hugging Face API error: " ++ decimal status ++ " "
                            ++ bufferToString data)
                         "authorization" = true).
    { do 3 apply includes_append_r.
      apply includes_bufferToString; [reflexivity | exact Hbody]. }
    rewrite Hmessage. reflexivity.
Qed.

Lemma hf_design_reports_token_error_witness :
  HuggingFace.generateDesign (Some "hf_token")
    (HuggingFace.Response 500 (Some "text/plain") "upstream answered 401")
    0 10 Cases.summerPreferences "sdxl"
  = Throw "Invalid Hugging Face API token. Please check your configuration.".
Proof.
  apply (hf_design_reports_token_error "hf_token" 500); try reflexivity;
    try discriminate.
  right. left. reflexivity.
Defined.

(** ** [config/replicate.js] *)

Section ReplicateDesign.

Import Replicate.

Lemma runs_app (a b : list Action) : runs (a ++ b)%list = (runs a + runs b)%nat.
Proof. unfold runs. now rewrite filter_app, length_app. Qed.

Lemma pauses_app (a b : list Action) :
  pauses (a ++ b)%list = (pauses a + pauses b)%nat.
Proof. unfold pauses. now rewrite filter_app, length_app. Qed.

(** With a client, [generateDesign] runs the model once, whatever comes
    of it. *)
Lemma replicate_generateDesign_log (run : RunOutcome) (startTime endTime : Z)
    (preferences : HuggingFace.Preferences) (modelType : string) :
  exists modelVersion input,
    snd (generateDesign true run startTime endTime preferences modelType)
    = [Run modelVersion input].
Proof.
  unfold generateDesign, generateDesignTry. cbn [negb]. cbv zeta.
  destruct run as [output | message]; [destruct (noImage output)|];
    eexists; eexists; reflexivity.
Qed.

Lemma replicate_generateDesign_normal (run : RunOutcome) (startTime endTime : Z)
    (preferences : HuggingFace.Preferences) (modelType : string) (r : Generation) :
  fst (generateDesign true run startTime endTime preferences modelType) = Normal r ->
  exists output, run = Returned output /\ noImage output = false.
Proof.
  unfold generateDesign, generateDesignTry. cbn [negb]. cbv zeta.
  destruct run as [output | message]; [|discriminate].
  destruct (noImage output) eqn:Hno; [discriminate|].
  intros _. now exists output.
Qed.

Lemma replicate_generateDesign_throw (run : RunOutcome) (startTime endTime : Z)
    (preferences : HuggingFace.Preferences) (modelType : string) (message : string) :
  fst (generateDesign true run startTime endTime preferences modelType)
  = Throw message ->
  forall output, run = Returned output -> noImage output = true.
Proof.
  unfold generateDesign, generateDesignTry. cbn [negb]. cbv zeta.
  intros Hthrow output ->.
  destruct (noImage output); [reflexivity | discriminate].
Qed.

(** The loop from index [i], [remaining] iterations to go. *)
Lemma variationsLoop_accounting (calls : nat -> Call)
    (preferences : HuggingFace.Preferences) (count : nat) (modelType : string)
    (remaining : nat) :
  forall i,
    match variationsLoop calls preferences count modelType remaining i with
    | (designs, errors, log) =>
        (length designs + length errors = remaining
         /\ runs log = remaining
         /\ pauses log <= length designs
         /\ pauses log <= count - 1 - i)%nat
    end.
Proof.
  induction remaining as [|remaining IH]; intros i.
  - cbn. lia.
  - cbn [variationsLoop]. specialize (IH (S i)).
    destruct (variationsLoop calls preferences count modelType remaining (S i))
      as [[designs errors] rest].
    destruct IH as (Hlen & Hruns & Hp1 & Hp2).
    destruct (replicate_generateDesign_log (run (calls i)) (startTime (calls i))
                (endTime (calls i)) preferences modelType)
      as (modelVersion & input & Hlog).
    destruct (generateDesign true (run (calls i)) (startTime (calls i))
                (endTime (calls i)) preferences modelType) as [[design | message] log].
    + cbn [snd] in Hlog. subst log.
      rewrite runs_app, pauses_app, pauses_app.
      change (runs [Run modelVersion input]) with 1%nat.
      change (pauses [Run modelVersion input]) with 0%nat.
      destruct (Nat.ltb_spec i (count - 1)) as [Hlt | Hge].
      * change (runs ([Sleep 2000] ++ rest)%list) with (runs rest).
        change (pauses [Sleep 2000]) with 1%nat.
        cbn [length]. lia.
      * change (runs ([] ++ rest)%list) with (runs rest).
        change (pauses []) with 0%nat.
        cbn [length]. lia.
    + cbn [snd] in Hlog. subst log.
      rewrite runs_app, pauses_app.
      change (runs [Run modelVersion input]) with 1%nat.
      change (pauses [Run modelVersion input]) with 0%nat.
      cbn [length]. lia.
Qed.

End ReplicateDesign.

(** X15.  [generateDesign] of [config/replicate.js].  The model is run
    once when the client is set and not at all otherwise; the call returns
    a result exactly when the client is set and the run returns an output
    that is neither empty nor an empty array, and the image is then the
    first item of the array, or the output itself. *)
Theorem replicate_design_outcome (initialized : bool) (run : Replicate.RunOutcome)
    (startTime endTime : Z) (preferences : HuggingFace.Preferences)
    (modelType : string) :
  Replicate.runs
    (snd (Replicate.generateDesign initialized run startTime endTime
            preferences modelType))
  = (if initialized then 1 else 0)%nat
  /\ forall r,
       fst (Replicate.generateDesign initialized run startTime endTime
              preferences modelType) = Normal r
       <-> initialized = true
           /\ exists output,
                run = Replicate.Returned output
                /\ Replicate.noImage output = false
                /\ r = {| Replicate.success := true;
                          Replicate.image :=
                            {| Replicate.url := Replicate.firstImage output;
                               Replicate.originalPrompt :=
                                 Replicate.generateFashionPrompt preferences |};
                          Replicate.metadata :=
                            {| Replicate.model := modelType;
                               Replicate.modelVersion :=
                                 HuggingFace.toText
                                   (HuggingFace.lookupOr Replicate.FASHION_MODELS
                                      modelType
                                      "stability-ai/sdxl:39ed52f2a78e934b3ba6e2a89f5b1c712de7dfea535525255b1aa35c5565e08b");
                               Replicate.size := "1024x1024";
                               Replicate.generationTime := (endTime - startTime)%Z;
                               Replicate.cost := 0 |} |}.
Proof.
  split.
  - destruct initialized; [|reflexivity].
    destruct (replicate_generateDesign_log run startTime endTime preferences modelType)
      as (modelVersion & input & ->).
    reflexivity.
  - intros r. unfold Replicate.generateDesign, Replicate.generateDesignTry.
    destruct initialized; cbn [negb fst]; cbv zeta.
    + destruct run as [output | message].
      * destruct (Replicate.noImage output) eqn:Hno; cbn [fst].
        -- split; [discriminate|].
           intros (_ & output' & Hrun & Hno' & _).
           injection Hrun as <-. congruence.
        -- split.
           ++ intros Hr. injection Hr as <-. split; [reflexivity|].
              exists output. repeat split. exact Hno.
           ++ intros (_ & output' & Hrun & _ & ->).
              injection Hrun as <-. reflexivity.
      * cbn [fst]. split; [discriminate|].
        intros (_ & output & Hrun & _). discriminate Hrun.
    + split; [discriminate|]. intros [Hinit _]. discriminate Hinit.
Qed.

(** X16.  The account of a batch.  With a client,
    [generateDesignVariations] always returns: it runs the model [count]
    times, every run gives either a design or an error message, [success]
    holds exactly when there is a design, [errors] is absent exactly when
    every run gave one, and there are at most as many pauses as designs,
    and fewer than [count]. *)
Theorem variations_accounting (calls : nat -> Replicate.Call)
    (preferences : HuggingFace.Preferences) (count : nat) (modelType : string) :
  exists batch log,
    Replicate.generateDesignVariations true calls preferences count modelType
    = (Normal batch, log)
    /\ Replicate.totalRequested batch = count
    /\ Replicate.totalGenerated batch = length (Replicate.designs batch)
    /\ (Replicate.totalGenerated batch
        + length (match Replicate.errors batch with
                  | Some messages => messages
                  | None => []
                  end) = count)%nat
    /\ (Replicate.batch_success batch = true
        <-> (0 < Replicate.totalGenerated batch)%nat)
    /\ (Replicate.errors batch = None
        <-> Replicate.totalGenerated batch = count)
    /\ Replicate.runs log = count
    /\ (Replicate.pauses log <= Replicate.totalGenerated batch)%nat
    /\ (Replicate.pauses log <= count - 1)%nat.
Proof.
  unfold Replicate.generateDesignVariations. cbn [negb].
  pose proof (variationsLoop_accounting calls preferences count modelType count 0)
    as Hloop.
  destruct (Replicate.variationsLoop calls preferences count modelType count 0)
    as [[designs errors] log].
  destruct Hloop as (Hlen & Hruns & Hp1 & Hp2).
  eexists. exists log. split; [reflexivity|].
  cbn [Replicate.totalRequested Replicate.totalGenerated Replicate.designs
       Replicate.errors Replicate.batch_success].
  split; [reflexivity|]. split; [reflexivity|].
  split; [destruct errors; cbn [length Nat.ltb Nat.leb] in *; lia|].
  split; [apply Nat.ltb_lt|].
  split; [|split; [exact Hruns | split; [exact Hp1 | lia]]].
  destruct errors as [|message errors]; cbn [length Nat.ltb Nat.leb] in *.
  - split; [lia | reflexivity].
  - split; [discriminate | lia].
Qed.

Section ReplicateBatches.

Import Replicate.

Variables (calls : nat -> Call) (preferences : HuggingFace.Preferences)
          (count : nat) (modelType : string).

Lemma variationsLoop_all_fail (remaining : nat) :
  forall i,
    (forall j output, (i <= j < i + remaining)%nat ->
                      run (calls j) = Returned output -> noImage output = true) ->
    fst (fst (variationsLoop calls preferences count modelType remaining i)) = [].
Proof.
  induction remaining as [|remaining IH]; intros i Hfail; [reflexivity|].
  cbn [variationsLoop].
  assert (Hrest : fst (fst (variationsLoop calls preferences count modelType
                              remaining (S i))) = []).
  { apply IH. intros j output Hj. apply Hfail. lia. }
  destruct (variationsLoop calls preferences count modelType remaining (S i))
    as [[designs errors] rest].
  cbn [fst] in Hrest. subst designs.
  destruct (generateDesign true (run (calls i)) (startTime (calls i))
              (endTime (calls i)) preferences modelType)
    as [[design | message] log] eqn:Hcall; [|reflexivity].
  destruct (replicate_generateDesign_normal (run (calls i)) (startTime (calls i))
              (endTime (calls i)) preferences modelType design)
    as (output & Hrun & Hno).
  { now rewrite Hcall. }
  rewrite (Hfail i output) in Hno by (lia || exact Hrun). discriminate Hno.
Qed.

Lemma variationsLoop_all_succeed (remaining : nat) :
  forall i,
    (i + remaining = count)%nat ->
    (forall j, (i <= j < i + remaining)%nat ->
               exists output, run (calls j) = Returned output
                              /\ noImage output = false) ->
    match variationsLoop calls preferences count modelType remaining i with
    | (designs, errors, log) => errors = [] /\ pauses log = (count - 1 - i)%nat
    end.
Proof.
  induction remaining as [|remaining IH]; intros i Hcount Hall.
  - cbn. split; [reflexivity | lia].
  - cbn [variationsLoop].
    assert (Hrest := IH (S i)).
    destruct (variationsLoop calls preferences count modelType remaining (S i))
      as [[designs errors] rest].
    destruct Hrest as [-> Hpauses]; [lia | intros j Hj; apply Hall; lia |].
    destruct (replicate_generateDesign_log (run (calls i)) (startTime (calls i))
                (endTime (calls i)) preferences modelType)
      as (modelVersion & input & Hlog).
    destruct (generateDesign true (run (calls i)) (startTime (calls i))
                (endTime (calls i)) preferences modelType)
      as [[design | message] log] eqn:Hcall.
    + cbn [snd] in Hlog. subst log. split; [reflexivity|].
      rewrite !pauses_app.
      change (pauses [Run modelVersion input]) with 0%nat.
      destruct (Nat.ltb_spec i (count - 1)) as [Hlt | Hge].
      * change (pauses [Sleep 2000]) with 1%nat. lia.
      * change (pauses []) with 0%nat. lia.
    + destruct (Hall i) as (output & Hrun & Hno); [lia|].
      rewrite (replicate_generateDesign_throw (run (calls i)) (startTime (calls i))
                 (endTime (calls i)) preferences modelType message) with
        (output := output) in Hno; [discriminate Hno | now rewrite Hcall | exact Hrun].
Qed.

End ReplicateBatches.

(** X17.  A failed run does not stop the batch.  When no run gives an
    image, the model is still run [count] times, without a pause; the
    batch is returned, not thrown, with [success] false and [count] error
    messages. *)
Theorem failed_runs_do_not_stop_batch (calls : nat -> Replicate.Call)
    (preferences : HuggingFace.Preferences) (count : nat) (modelType : string) :
  (0 < count)%nat ->
  (forall i output, (i < count)%nat ->
                    Replicate.run (calls i) = Replicate.Returned output ->
                    Replicate.noImage output = true) ->
  exists messages log,
    Replicate.generateDesignVariations true calls preferences count modelType
    = (Normal {| Replicate.batch_success := false;
                 Replicate.designs := [];
                 Replicate.errors := Some messages;
                 Replicate.totalGenerated := 0;
                 Replicate.totalRequested := count |}, log)
    /\ length messages = count
    /\ Replicate.runs log = count
    /\ Replicate.pauses log = 0%nat.
Proof.
  intros Hcount Hfail.
  unfold Replicate.generateDesignVariations. cbn [negb].
  pose proof (variationsLoop_accounting calls preferences count modelType count 0)
    as Hloop.
  assert (Hnone : fst (fst (Replicate.variationsLoop calls preferences count
                              modelType count 0)) = []).
  { apply variationsLoop_all_fail. intros j output Hj. apply Hfail. lia. }
  destruct (Replicate.variationsLoop calls preferences count modelType count 0)
    as [[designs errors] log].
  cbn [fst] in Hnone. subst designs.
  destruct Hloop as (Hlen & Hruns & Hp1 & _). cbn [length] in *.
  exists errors, log.
  destruct errors as [|message errors]; [cbn [length] in Hlen; lia|].
  split; [reflexivity|]. split; [exact Hlen|]. split; [exact Hruns | lia].
Qed.

Lemma failed_runs_do_not_stop_batch_witness :
  exists messages log,
    Replicate.generateDesignVariations true
      (fun _ => {| Replicate.run := Replicate.Threw "Prediction failed";
                   Replicate.startTime := 0; Replicate.endTime := 5 |})
      Cases.summerPreferences 3 "sdxl"
    = (Normal {| Replicate.batch_success := false;
                 Replicate.designs := [];
                 Replicate.errors := Some messages;
                 Replicate.totalGenerated := 0;
                 Replicate.totalRequested := 3 |}, log)
    /\ length messages = 3%nat
    /\ Replicate.runs log = 3%nat
    /\ Replicate.pauses log = 0%nat.
Proof.
  apply (failed_runs_do_not_stop_batch
           (fun _ => {| Replicate.run := Replicate.Threw "Prediction failed";
                        Replicate.startTime := 0; Replicate.endTime := 5 |})
           Cases.summerPreferences 3 "sdxl").
  - lia.
  - intros i output _ Hrun. discriminate Hrun.
Defined.

(** X18.  A batch that succeeds throughout pauses between the runs:
    [count] designs, no [errors] field, and [count - 1] pauses, one fewer
    than the runs. *)
Theorem full_batch_pauses_between_runs (calls : nat -> Replicate.Call)
    (preferences : HuggingFace.Preferences) (count : nat) (modelType : string) :
  (forall i, (i < count)%nat ->
             exists output, Replicate.run (calls i) = Replicate.Returned output
                            /\ Replicate.noImage output = false) ->
  exists batch log,
    Replicate.generateDesignVariations true calls preferences count modelType
    = (Normal batch, log)
    /\ Replicate.totalGenerated batch = count
    /\ Replicate.errors batch = None
    /\ Replicate.runs log = count
    /\ Replicate.pauses log = (count - 1)%nat.
Proof.
  intros Hall.
  unfold Replicate.generateDesignVariations. cbn [negb].
  pose proof (variationsLoop_accounting calls preferences count modelType count 0)
    as Hloop.
  pose proof (variationsLoop_all_succeed calls preferences count modelType count 0)
    as Hfull.
  destruct (Replicate.variationsLoop calls preferences count modelType count 0)
    as [[designs errors] log].
  destruct Hfull as [-> Hpauses];
    [reflexivity | intros j Hj; apply Hall; lia |].
  destruct Hloop as (Hlen & Hruns & _). cbn [length] in Hlen.
  eexists. exists log. split; [reflexivity|].
  cbn [Replicate.totalGenerated Replicate.errors length Nat.ltb Nat.leb].
  repeat split; try assumption; lia.
Qed.

Lemma full_batch_pauses_between_runs_witness :
  exists batch log,
    Replicate.generateDesignVariations true
      (fun _ => {| Replicate.run := Replicate.Returned (Replicate.OutputString "https://replicate.delivery/a.png");
                   Replicate.startTime := 0; Replicate.endTime := 5 |})
      Cases.summerPreferences 3 "sdxl"
    = (Normal batch, log)
    /\ Replicate.totalGenerated batch = 3%nat
    /\ Replicate.errors batch = None
    /\ Replicate.runs log = 3%nat
    /\ Replicate.pauses log = 2%nat.
Proof.
  apply (full_batch_pauses_between_runs
           (fun _ => {| Replicate.run := Replicate.Returned (Replicate.OutputString "https://replicate.delivery/a.png");
                        Replicate.startTime := 0; Replicate.endTime := 5 |})
           Cases.summerPreferences 3 "sdxl").
  intros i _. eexists. split; reflexivity.
Defined.


(** X19.  The protocol of [POST /generate] in [routes/designs.js].  A
    400 is answered before anything is saved; the generation is asked for
    once at most, and only after the document was saved as [generating];
    the answer is that of success exactly when the log is save, generate,
    save as [completed]; a 500 comes after no save at all, after the one
    save as [generating], or after a last save as [failed]. *)
Theorem route_protocol (w : DesignsRoute.World) (body : Simple.Object) :
  (fst (DesignsRoute.generate w body) = DesignsRoute.MissingFields ->
   snd (DesignsRoute.generate w body) = [])
  /\ (fst (DesignsRoute.generate w body) = DesignsRoute.Completed
      <-> snd (DesignsRoute.generate w body)
          = [DesignsRoute.Save "generating";
             DesignsRoute.Generate
               (Simple.orDefault (Simple.get body "modelType") (Simple.JStr "sdxl"));
             DesignsRoute.Save "completed"])
  /\ (DesignsRoute.generations (snd (DesignsRoute.generate w body)) <= 1)%nat
  /\ (DesignsRoute.generations (snd (DesignsRoute.generate w body)) = 1%nat ->
      DesignsRoute.save w 0 = DesignsRoute.Saved)
  /\ (forall message,
        fst (DesignsRoute.generate w body) = DesignsRoute.Failed message ->
        let saved := DesignsRoute.saves (snd (DesignsRoute.generate w body)) in
        saved = [] \/ saved = ["generating"] \/ saved = ["generating"; "failed"]
        \/ saved = ["generating"; "completed"; "failed"]).
Proof.
  unfold DesignsRoute.generate, DesignsRoute.recordFailure. cbv zeta.
  destruct (_ || _);
    [cbn; repeat split; intros; try discriminate; auto 6|].
  destruct (negb _);
    [cbn; repeat split; intros; try discriminate; auto 6|].
  destruct (Simple.get body "colors") as [[| | | |items|]|];
    try (cbn; repeat split; intros; try discriminate; auto 6; fail).
  destruct (negb _);
    [cbn; repeat split; intros; try discriminate; auto 6|].
  destruct (DesignsRoute.save w 0) eqn:H0;
    destruct (DesignsRoute.generateHuggingFaceDesign w);
    destruct (DesignsRoute.save w 1); destruct (DesignsRoute.save w 2);
    cbn; repeat split; intros; try discriminate; auto 6.
Qed.



(** ** [POST /generate] of [routes/designs.js] *)

Section Route.

Import Simple DesignsRoute.

Lemma nonempty_truthy (s : string) : s <> "" -> falsy (Some (JStr s)) = false.
Proof. destruct s; [contradiction | reflexivity]. Qed.

(** What the route does with a body it goes on with. *)
Lemma route_accepted_body (w : World) (body : Object) :
  DesignsRoute.accepted body = true ->
  generate w body
  = match save w 0 with
    | SaveRejected message => (Failed (messageOf message), [Save "generating"])
    | Saved =>
        let modelType := orDefault (get body "modelType") (JStr "sdxl") in
        match generateHuggingFaceDesign w with
        | Normal _ =>
            match save w 1 with
            | Saved =>
                (Completed,
                 [Save "generating"; Generate modelType; Save "completed"])
            | SaveRejected message =>
                recordFailure w 2 message
                  [Save "generating"; Generate modelType; Save "completed"]
            end
        | Throw message =>
            recordFailure w 1 message [Save "generating"; Generate modelType]
        end
    end.
Proof.
  unfold DesignsRoute.accepted, generate. cbv zeta. intros Haccepted.
  apply andb_true_iff in Haccepted as [Haccepted Hcolors].
  apply andb_true_iff in Haccepted as [Hfields Hprintable].
  apply negb_true_iff in Hfields. rewrite Hfields, Hprintable. cbn [negb].
  destruct (get body "colors") as [[| | | |items|]|]; try discriminate Hcolors.
  rewrite Hcolors. reflexivity.
Qed.

End Route.

(** X20.  Colours given as text.  A non-empty string in [colors] passes
    the check of the required fields, and the route then answers 500 with
    the message of the [TypeError] of [colors.join], before anything is
    saved. *)
Theorem route_colors_text_is_server_error (w : DesignsRoute.World)
    (body : Simple.Object) (gender occasion style colors : string) :
  Simple.get body "gender" = Some (Simple.JStr gender) -> gender <> "" ->
  Simple.get body "occasion" = Some (Simple.JStr occasion) -> occasion <> "" ->
  Simple.get body "style" = Some (Simple.JStr style) -> style <> "" ->
  Simple.get body "colors" = Some (Simple.JStr colors) -> colors <> "" ->
  DesignsRoute.generate w body
  = (DesignsRoute.Failed "colors.join is not a function", []).
Proof.
  intros Hg Hg' Ho Ho' Hs Hs' Hc Hc'.
  unfold DesignsRoute.generate. cbv zeta. rewrite Hg, Ho, Hs, Hc.
  rewrite !nonempty_truthy by assumption. reflexivity.
Qed.

Lemma route_colors_text_is_server_error_witness :
  DesignsRoute.generate Cases.secondSaveFails
    [ ("gender", Simple.JStr "female"); ("occasion", Simple.JStr "casual");
      ("style", Simple.JStr "modern"); ("colors", Simple.JStr "blue") ]
  = (DesignsRoute.Failed "colors.join is not a function", []).
Proof.
  apply (route_colors_text_is_server_error Cases.secondSaveFails _
           "female" "casual" "modern" "blue");
    reflexivity || discriminate.
Defined.

(** X21.  Which error the route reports.  When the generation throws,
    the document is saved as [failed] and the answer carries the message
    of the generation, unless that save is refused too: then it carries
    the message of the save.  When the generation succeeds but the
    completed document is refused, the image is dropped, the document is
    saved again as [failed], and the answer is a 500. *)
Theorem route_records_failure (w : DesignsRoute.World) (body : Simple.Object) :
  DesignsRoute.accepted body = true ->
  DesignsRoute.save w 0 = DesignsRoute.Saved ->
  (forall message,
     DesignsRoute.generateHuggingFaceDesign w = Throw message ->
     DesignsRoute.saves (snd (DesignsRoute.generate w body))
     = ["generating"; "failed"]
     /\ fst (DesignsRoute.generate w body)
        = DesignsRoute.Failed
            (DesignsRoute.messageOf
               match DesignsRoute.save w 1 with
               | DesignsRoute.Saved => message
               | DesignsRoute.SaveRejected message' => message'
               end))
  /\ (forall r message,
        DesignsRoute.generateHuggingFaceDesign w = Normal r ->
        DesignsRoute.save w 1 = DesignsRoute.SaveRejected message ->
        DesignsRoute.saves (snd (DesignsRoute.generate w body))
        = ["generating"; "completed"; "failed"]
        /\ fst (DesignsRoute.generate w body)
           = DesignsRoute.Failed
               (DesignsRoute.messageOf
                  match DesignsRoute.save w 2 with
                  | DesignsRoute.Saved => message
                  | DesignsRoute.SaveRejected message' => message'
                  end)).
Proof.
  intros Haccepted Hfirst.
  rewrite (route_accepted_body w body Haccepted), Hfirst. cbv zeta.
  unfold DesignsRoute.recordFailure. split.
  - intros message ->. destruct (DesignsRoute.save w 1); split; reflexivity.
  - intros r message -> ->. destruct (DesignsRoute.save w 2); split; reflexivity.
Qed.

Lemma route_records_failure_witness :
  DesignsRoute.saves
    (snd (DesignsRoute.generate Cases.secondSaveFails Cases.routeRequest))
  = ["generating"; "failed"]
  /\ fst (DesignsRoute.generate Cases.secondSaveFails Cases.routeRequest)
     = DesignsRoute.Failed "Design validation failed".
Proof.
  destruct (route_records_failure Cases.secondSaveFails Cases.routeRequest)
    as [Hthrow _]; [reflexivity | reflexivity |].
  exact (Hthrow _ eq_refl).
Defined.
